(** * Order-book cache, impact calculator and signal handler

    A shallow embedding of the C++ headers of [sovereign/cpp_runner]:

    - [order_book_types.hpp]: venues, instrument types, books, decisions;
    - [impact_calculator.hpp]: the sell and buy walks and their helpers;
    - [order_book_cache.hpp]: [OrderBookCache] and [InstrumentCache];
    - [exchange_handlers/deribit.hpp]: the parser of the Deribit answers;
    - [signal_handler.hpp]: [process_signal], [process_instrument_signal].

    Conventions of the embedding.

    - A [double] is an exact rational ([Q]); rounding, infinities and NaN are
      not represented.  Equalities between computed doubles are therefore
      stated with [==] (equality of rationals).  The two walks are given a
      second time over binary64 floating-point numbers (module [Binary64]),
      to evaluate them with the rounding the processor performs.
    - [uint64_t] counters are [N] with the wrap-around at [2^64] written out.
    - A [steady_clock::time_point] is a number of nanoseconds ([Z]); every
      function that reads the clock takes the reading as the argument [now].
    - Locks are not represented: each cache operation is one atomic state
      transformer, which is what the exclusive hold provides.
    - [snprintf]-built reason strings are kept as a tagged value ([Reason.t])
      whose arguments are the values handed to the format. *)

From Stdlib Require Import QArith Qabs Qminmax Lqa ZArith NArith Lia List Floats.
From Stdlib Require Import Ascii.
From stdpp Require Import gmap strings list.

Local Open Scope Q_scope.

(* ====================================================================== *)
(** * Numeric conventions *)
(* ====================================================================== *)

Abbreviation double := Q (only parsing).

(** [a < b] on doubles, as a boolean. *)
Definition Qlt_bool (a b : Q) : bool := negb (Qle_bool b a).

(** [std::min(a, b)] is [(b < a) ? b : a]. *)
Definition std_min (a b : Q) : Q := if Qlt_bool b a then b else a.

(** [std::abs] on doubles. *)
Definition std_abs (a : Q) : Q := Qabs a.

(** [uint64_t] increment. *)
Definition U64_MODULUS : N := (2 ^ 64)%N.

Definition u64_incr (n : N) : N := ((n + 1) mod U64_MODULUS)%N.

(** [duration_cast<milliseconds>(d).count()] for a duration in nanoseconds:
    integer division truncating toward zero. *)
Definition duration_ms (d : Z) : Z := (d ÷ 1000000)%Z.

(* ====================================================================== *)
(** * order_book_types.hpp *)
(* ====================================================================== *)

(** ** Venues

    [Exchange] is the enumeration by its enumerators: the 110 venues in the
    order of declaration, then the sentinel [COUNT].  The sentinel is the only
    value whose index is out of range for the tables and arrays sized by it;
    bytes that are no enumerator are not values of this type. *)

Inductive Exchange : Set :=
  | APEX | ARKHAM | ASCENDEX | BACKPACK | BIGONE | BINANCE | BINANCECOINM
  | BINANCEUSDM | BINGX | BITFINEX | BITFLYER | BITGET | BITMART | BITMEX
  | BITRUE | BLOFIN | BULLISH | BYBIT | COINBASE | COINBASEADVANCED
  | COINBASEINTERNATIONAL | COINCATCH | COINEX | CRYPTOCOM | DEEPCOIN | DEFX
  | DELTA | DERIBIT | DERIVE | DIGIFINEX | DYDX | FMFWIO | GATE | GATEIO
  | GEMINI | HASHKEY | HIBACHI | HITBTC | HTX | HUOBI | HYPERLIQUID
  | KRAKENFUTURES | KUCOINFUTURES | LBANK | MEXC | MODETRADE | MYOKX | OKX
  | OKXUS | ONETRADING | PARADEX | PHEMEX | POLONIEX | TOOBIT | WHITEBIT
  | WOOFIPRO | XT | ZEBPAY | ALPACA | BEQUANT | BINANCEUS | BIT2C | BITBANK
  | BITBNS | BITHUMB | BITOPRO | BITSO | BITSTAMP | BITTEAM | BITTRADE
  | BITVAVO | BLOCKCHAINCOM | BTCALPHA | BTCBOX | BTCMARKETS | BTCTURK | CEX
  | COINBASEEXCHANGE | COINCHECK | COINMATE | COINMETRO | COINONE | COINSPH
  | COINSPOT | CRYPTOMUS | EXMO | FOXBIT | HOLLAEX | INDEPENDENTRESERVE
  | INDODAX | KRAKEN | KUCOIN | LATOKEN | LUNO | MERCADO | NDAX | NOVADAX
  | OCEANEX | OXFUN | P2B | PAYMIUM | PROBIT | TIMEX | TOKOCRYPTO | UPBIT
  | WAVESEXCHANGE | WOO | YOBIT | ZAIF | ZONDA | COUNT.

Definition all_exchanges : list Exchange :=
  [APEX; ARKHAM; ASCENDEX; BACKPACK; BIGONE; BINANCE; BINANCECOINM;
   BINANCEUSDM; BINGX; BITFINEX; BITFLYER; BITGET; BITMART; BITMEX; BITRUE;
   BLOFIN; BULLISH; BYBIT; COINBASE; COINBASEADVANCED;
   COINBASEINTERNATIONAL; COINCATCH; COINEX; CRYPTOCOM; DEEPCOIN; DEFX;
   DELTA; DERIBIT; DERIVE; DIGIFINEX; DYDX; FMFWIO; GATE; GATEIO; GEMINI;
   HASHKEY; HIBACHI; HITBTC; HTX; HUOBI; HYPERLIQUID; KRAKENFUTURES;
   KUCOINFUTURES; LBANK; MEXC; MODETRADE; MYOKX; OKX; OKXUS; ONETRADING;
   PARADEX; PHEMEX; POLONIEX; TOOBIT; WHITEBIT; WOOFIPRO; XT; ZEBPAY;
   ALPACA; BEQUANT; BINANCEUS; BIT2C; BITBANK; BITBNS; BITHUMB; BITOPRO;
   BITSO; BITSTAMP; BITTEAM; BITTRADE; BITVAVO; BLOCKCHAINCOM; BTCALPHA;
   BTCBOX; BTCMARKETS; BTCTURK; CEX; COINBASEEXCHANGE; COINCHECK; COINMATE;
   COINMETRO; COINONE; COINSPH; COINSPOT; CRYPTOMUS; EXMO; FOXBIT; HOLLAEX;
   INDEPENDENTRESERVE; INDODAX; KRAKEN; KUCOIN; LATOKEN; LUNO; MERCADO;
   NDAX; NOVADAX; OCEANEX; OXFUN; P2B; PAYMIUM; PROBIT; TIMEX; TOKOCRYPTO;
   UPBIT; WAVESEXCHANGE; WOO; YOBIT; ZAIF; ZONDA].

Definition exchange_index (ex : Exchange) : nat :=
  match ex with
  | APEX => 0 | ARKHAM => 1 | ASCENDEX => 2 | BACKPACK => 3 | BIGONE => 4
  | BINANCE => 5 | BINANCECOINM => 6 | BINANCEUSDM => 7 | BINGX => 8
  | BITFINEX => 9 | BITFLYER => 10 | BITGET => 11 | BITMART => 12
  | BITMEX => 13 | BITRUE => 14 | BLOFIN => 15 | BULLISH => 16 | BYBIT => 17
  | COINBASE => 18 | COINBASEADVANCED => 19 | COINBASEINTERNATIONAL => 20
  | COINCATCH => 21 | COINEX => 22 | CRYPTOCOM => 23 | DEEPCOIN => 24
  | DEFX => 25 | DELTA => 26 | DERIBIT => 27 | DERIVE => 28
  | DIGIFINEX => 29 | DYDX => 30 | FMFWIO => 31 | GATE => 32 | GATEIO => 33
  | GEMINI => 34 | HASHKEY => 35 | HIBACHI => 36 | HITBTC => 37 | HTX => 38
  | HUOBI => 39 | HYPERLIQUID => 40 | KRAKENFUTURES => 41
  | KUCOINFUTURES => 42 | LBANK => 43 | MEXC => 44 | MODETRADE => 45
  | MYOKX => 46 | OKX => 47 | OKXUS => 48 | ONETRADING => 49 | PARADEX => 50
  | PHEMEX => 51 | POLONIEX => 52 | TOOBIT => 53 | WHITEBIT => 54
  | WOOFIPRO => 55 | XT => 56 | ZEBPAY => 57 | ALPACA => 58 | BEQUANT => 59
  | BINANCEUS => 60 | BIT2C => 61 | BITBANK => 62 | BITBNS => 63
  | BITHUMB => 64 | BITOPRO => 65 | BITSO => 66 | BITSTAMP => 67
  | BITTEAM => 68 | BITTRADE => 69 | BITVAVO => 70 | BLOCKCHAINCOM => 71
  | BTCALPHA => 72 | BTCBOX => 73 | BTCMARKETS => 74 | BTCTURK => 75
  | CEX => 76 | COINBASEEXCHANGE => 77 | COINCHECK => 78 | COINMATE => 79
  | COINMETRO => 80 | COINONE => 81 | COINSPH => 82 | COINSPOT => 83
  | CRYPTOMUS => 84 | EXMO => 85 | FOXBIT => 86 | HOLLAEX => 87
  | INDEPENDENTRESERVE => 88 | INDODAX => 89 | KRAKEN => 90 | KUCOIN => 91
  | LATOKEN => 92 | LUNO => 93 | MERCADO => 94 | NDAX => 95 | NOVADAX => 96
  | OCEANEX => 97 | OXFUN => 98 | P2B => 99 | PAYMIUM => 100 | PROBIT => 101
  | TIMEX => 102 | TOKOCRYPTO => 103 | UPBIT => 104 | WAVESEXCHANGE => 105
  | WOO => 106 | YOBIT => 107 | ZAIF => 108 | ZONDA => 109 | COUNT => 110
  end.

(** [a == b] on venues compares the underlying [uint8_t]. *)
Definition Exchange_eqb (a b : Exchange) : bool :=
  (exchange_index a =? exchange_index b)%nat.

(** [static_cast<Exchange>(i)]. *)
Definition exchange_of_index (i : nat) : Exchange := nth i all_exchanges COUNT.

Definition EXCHANGE_NAMES : list string :=
  ["apex"; "arkham"; "ascendex"; "backpack"; "bigone"; "binance";
   "binancecoinm"; "binanceusdm"; "bingx"; "bitfinex"; "bitflyer"; "bitget";
   "bitmart"; "bitmex"; "bitrue"; "blofin"; "bullish"; "bybit"; "coinbase";
   "coinbaseadvanced"; "coinbaseinternational"; "coincatch"; "coinex";
   "cryptocom"; "deepcoin"; "defx"; "delta"; "deribit"; "derive";
   "digifinex"; "dydx"; "fmfwio"; "gate"; "gateio"; "gemini"; "hashkey";
   "hibachi"; "hitbtc"; "htx"; "huobi"; "hyperliquid"; "krakenfutures";
   "kucoinfutures"; "lbank"; "mexc"; "modetrade"; "myokx"; "okx"; "okxus";
   "onetrading"; "paradex"; "phemex"; "poloniex"; "toobit"; "whitebit";
   "woofipro"; "xt"; "zebpay"; "alpaca"; "bequant"; "binanceus"; "bit2c";
   "bitbank"; "bitbns"; "bithumb"; "bitopro"; "bitso"; "bitstamp";
   "bitteam"; "bittrade"; "bitvavo"; "blockchaincom"; "btcalpha"; "btcbox";
   "btcmarkets"; "btcturk"; "cex"; "coinbaseexchange"; "coincheck";
   "coinmate"; "coinmetro"; "coinone"; "coinsph"; "coinspot"; "cryptomus";
   "exmo"; "foxbit"; "hollaex"; "independentreserve"; "indodax"; "kraken";
   "kucoin"; "latoken"; "luno"; "mercado"; "ndax"; "novadax"; "oceanex";
   "oxfun"; "p2b"; "paymium"; "probit"; "timex"; "tokocrypto"; "upbit";
   "wavesexchange"; "woo"; "yobit"; "zaif"; "zonda"].

Definition exchange_name (ex : Exchange) : string :=
  if (exchange_index COUNT <=? exchange_index ex)%nat then "unknown"
  else nth (exchange_index ex) EXCHANGE_NAMES "".

(** The loop [for (i = 0; i < COUNT; ++i)] of [exchange_from_name], started at
    index [i] with [fuel] iterations left. *)
Fixpoint exchange_from_name_loop (name : string) (i fuel : nat) : Exchange :=
  match fuel with
  | O => COUNT
  | S fuel' =>
      if String.eqb name (nth i EXCHANGE_NAMES "") then exchange_of_index i
      else exchange_from_name_loop name (S i) fuel'
  end.

Definition exchange_from_name (name : string) : Exchange :=
  exchange_from_name_loop name 0 (exchange_index COUNT).

Definition has_perpetuals (ex : Exchange) : bool :=
  (exchange_index ex <=? exchange_index ZEBPAY)%nat.

(** ** Instrument types *)

Inductive InstrumentType : Set :=
  | SPOT | MARGIN | PERPETUAL | FUTURES | OPTIONS | INVERSE | LEVERAGED_TOKEN
  | INST_COUNT.

Definition instrument_index (t : InstrumentType) : nat :=
  match t with
  | SPOT => 0 | MARGIN => 1 | PERPETUAL => 2 | FUTURES => 3 | OPTIONS => 4
  | INVERSE => 5 | LEVERAGED_TOKEN => 6 | INST_COUNT => 7
  end.

Definition INSTRUMENT_NAMES : list string :=
  ["spot"; "margin"; "perpetual"; "futures"; "options"; "inverse";
   "leveraged_token"].

Definition instrument_name (t : InstrumentType) : string :=
  if (instrument_index INST_COUNT <=? instrument_index t)%nat then "unknown"
  else nth (instrument_index t) INSTRUMENT_NAMES "".

(** [static_cast<InstrumentType>(i)] for the indices the loops produce. *)
Definition instrument_of_index (i : nat) : InstrumentType :=
  match i with
  | 0 => SPOT | 1 => MARGIN | 2 => PERPETUAL | 3 => FUTURES | 4 => OPTIONS
  | 5 => INVERSE | 6 => LEVERAGED_TOKEN | _ => INST_COUNT
  end%nat.

(** The loop [for (i = 0; i < INST_COUNT; ++i)] of [instrument_from_name],
    started at index [i] with [fuel] iterations left. *)
Fixpoint instrument_from_name_loop (name : string) (i fuel : nat) : InstrumentType :=
  match fuel with
  | O => INST_COUNT
  | S fuel' =>
      if String.eqb name (nth i INSTRUMENT_NAMES "") then instrument_of_index i
      else instrument_from_name_loop name (S i) fuel'
  end.

Definition instrument_from_name (name : string) : InstrumentType :=
  instrument_from_name_loop name 0 (instrument_index INST_COUNT).

(** Bitfield of the instruments a venue supports ([uint8_t]). *)
Definition INST_SPOT : Z := Z.shiftl 1 0.
Definition INST_MARGIN : Z := Z.shiftl 1 1.
Definition INST_PERPETUAL : Z := Z.shiftl 1 2.
Definition INST_FUTURES : Z := Z.shiftl 1 3.
Definition INST_OPTIONS : Z := Z.shiftl 1 4.
Definition INST_INVERSE : Z := Z.shiftl 1 5.
Definition INST_LEVERAGED_TOKEN : Z := Z.shiftl 1 6.

(** [(supported & (1 << static_cast<uint8_t>(type))) != 0] *)
Definition supports_instrument (supported : Z) (type : InstrumentType) : bool :=
  negb (Z.land supported (Z.shiftl 1 (Z.of_nat (instrument_index type))) =? 0)%Z.

(** ** Venue configuration

    The URL and symbol strings of [ExchangeConfig] play no part in the cache
    or in the decision and are left out; the other fields are kept. *)

Record ExchangeConfig := mkExchangeConfig {
  cfg_id : Exchange;
  has_websocket : bool;
  has_perpetual : bool;
  cfg_max_leverage : Z;
  fee_pct : double
}.

Definition get_exchange_config (ex : Exchange) : ExchangeConfig :=
  match ex with
  | APEX => mkExchangeConfig ex true true 100 0.002
  | ARKHAM => mkExchangeConfig ex false true 50 0.003
  | ASCENDEX => mkExchangeConfig ex true true 100 0.002
  | BACKPACK => mkExchangeConfig ex true true 50 0.002
  | BIGONE => mkExchangeConfig ex true true 100 0.002
  | BINANCE => mkExchangeConfig ex true true 125 0.001
  | BINANCECOINM => mkExchangeConfig ex true true 125 0.001
  | BINANCEUSDM => mkExchangeConfig ex true true 125 0.001
  | BINGX => mkExchangeConfig ex true true 150 0.002
  | BITFINEX => mkExchangeConfig ex true true 100 0.002
  | BITFLYER => mkExchangeConfig ex true true 4 0.002
  | BITGET => mkExchangeConfig ex true true 125 0.002
  | BITMART => mkExchangeConfig ex true true 100 0.002
  | BITMEX => mkExchangeConfig ex true true 100 0.001
  | BITRUE => mkExchangeConfig ex true true 125 0.002
  | BLOFIN => mkExchangeConfig ex true true 150 0.002
  | BULLISH => mkExchangeConfig ex true true 20 0.002
  | BYBIT => mkExchangeConfig ex true true 100 0.001
  | COINBASE => mkExchangeConfig ex true true 10 0.005
  | COINBASEADVANCED => mkExchangeConfig ex true true 10 0.005
  | COINBASEINTERNATIONAL => mkExchangeConfig ex true true 10 0.002
  | COINCATCH => mkExchangeConfig ex true true 125 0.002
  | COINEX => mkExchangeConfig ex true true 100 0.002
  | CRYPTOCOM => mkExchangeConfig ex true true 50 0.002
  | DEEPCOIN => mkExchangeConfig ex true true 125 0.002
  | DEFX => mkExchangeConfig ex false true 50 0.002
  | DELTA => mkExchangeConfig ex true true 100 0.002
  | DERIBIT => mkExchangeConfig ex true true 50 0.001
  | DERIVE => mkExchangeConfig ex false true 20 0.002
  | DIGIFINEX => mkExchangeConfig ex true true 100 0.002
  | DYDX => mkExchangeConfig ex true true 20 0.001
  | FMFWIO => mkExchangeConfig ex true true 100 0.002
  | GATE => mkExchangeConfig ex true true 100 0.002
  | GATEIO => mkExchangeConfig ex true true 100 0.002
  | GEMINI => mkExchangeConfig ex true true 100 0.004
  | HASHKEY => mkExchangeConfig ex true true 50 0.002
  | HIBACHI => mkExchangeConfig ex true true 50 0.002
  | HITBTC => mkExchangeConfig ex true true 75 0.002
  | HTX => mkExchangeConfig ex true true 200 0.002
  | HUOBI => mkExchangeConfig ex true true 200 0.002
  | HYPERLIQUID => mkExchangeConfig ex true true 50 0.001
  | KRAKENFUTURES => mkExchangeConfig ex true true 50 0.002
  | KUCOINFUTURES => mkExchangeConfig ex true true 100 0.002
  | LBANK => mkExchangeConfig ex true true 125 0.002
  | MEXC => mkExchangeConfig ex true true 200 0.002
  | MODETRADE => mkExchangeConfig ex false true 50 0.002
  | MYOKX => mkExchangeConfig ex true true 125 0.001
  | OKX => mkExchangeConfig ex true true 125 0.001
  | OKXUS => mkExchangeConfig ex true true 125 0.001
  | ONETRADING => mkExchangeConfig ex true true 5 0.002
  | PARADEX => mkExchangeConfig ex true true 20 0.002
  | PHEMEX => mkExchangeConfig ex true true 100 0.002
  | POLONIEX => mkExchangeConfig ex true true 75 0.003
  | TOOBIT => mkExchangeConfig ex true true 150 0.002
  | WHITEBIT => mkExchangeConfig ex true true 100 0.002
  | WOOFIPRO => mkExchangeConfig ex true true 20 0.002
  | XT => mkExchangeConfig ex true true 125 0.002
  | ZEBPAY => mkExchangeConfig ex false true 75 0.005
  | ALPACA => mkExchangeConfig ex true false 1 0.002
  | BEQUANT => mkExchangeConfig ex true false 1 0.002
  | BINANCEUS => mkExchangeConfig ex true false 1 0.001
  | BIT2C => mkExchangeConfig ex false false 1 0.005
  | BITBANK => mkExchangeConfig ex true false 1 0.002
  | BITBNS => mkExchangeConfig ex false false 1 0.005
  | BITHUMB => mkExchangeConfig ex true false 1 0.002
  | BITOPRO => mkExchangeConfig ex true false 1 0.002
  | BITSO => mkExchangeConfig ex true false 1 0.005
  | BITSTAMP => mkExchangeConfig ex true false 1 0.005
  | BITTEAM => mkExchangeConfig ex false false 1 0.002
  | BITTRADE => mkExchangeConfig ex false false 1 0.002
  | BITVAVO => mkExchangeConfig ex true false 1 0.002
  | BLOCKCHAINCOM => mkExchangeConfig ex true false 1 0.002
  | BTCALPHA => mkExchangeConfig ex false false 1 0.002
  | BTCBOX => mkExchangeConfig ex false false 1 0.002
  | BTCMARKETS => mkExchangeConfig ex true false 1 0.002
  | BTCTURK => mkExchangeConfig ex true false 1 0.002
  | CEX => mkExchangeConfig ex true false 1 0.002
  | COINBASEEXCHANGE => mkExchangeConfig ex true false 1 0.005
  | COINCHECK => mkExchangeConfig ex true false 1 0.002
  | COINMATE => mkExchangeConfig ex true false 1 0.002
  | COINMETRO => mkExchangeConfig ex true false 1 0.002
  | COINONE => mkExchangeConfig ex false false 1 0.002
  | COINSPH => mkExchangeConfig ex false false 1 0.002
  | COINSPOT => mkExchangeConfig ex false false 1 0.005
  | CRYPTOMUS => mkExchangeConfig ex false false 1 0.002
  | EXMO => mkExchangeConfig ex true false 1 0.002
  | FOXBIT => mkExchangeConfig ex false false 1 0.002
  | HOLLAEX => mkExchangeConfig ex true false 1 0.002
  | INDEPENDENTRESERVE => mkExchangeConfig ex false false 1 0.005
  | INDODAX => mkExchangeConfig ex true false 1 0.003
  | KRAKEN => mkExchangeConfig ex true false 1 0.002
  | KUCOIN => mkExchangeConfig ex true false 1 0.002
  | LATOKEN => mkExchangeConfig ex true false 1 0.002
  | LUNO => mkExchangeConfig ex true false 1 0.002
  | MERCADO => mkExchangeConfig ex false false 1 0.003
  | NDAX => mkExchangeConfig ex true false 1 0.002
  | NOVADAX => mkExchangeConfig ex true false 1 0.002
  | OCEANEX => mkExchangeConfig ex true false 1 0.002
  | OXFUN => mkExchangeConfig ex true false 1 0.002
  | P2B => mkExchangeConfig ex true false 1 0.002
  | PAYMIUM => mkExchangeConfig ex false false 1 0.005
  | PROBIT => mkExchangeConfig ex true false 1 0.002
  | TIMEX => mkExchangeConfig ex true false 1 0.002
  | TOKOCRYPTO => mkExchangeConfig ex true false 1 0.002
  | UPBIT => mkExchangeConfig ex true false 1 0.002
  | WAVESEXCHANGE => mkExchangeConfig ex true false 1 0.002
  | WOO => mkExchangeConfig ex true false 1 0.002
  | YOBIT => mkExchangeConfig ex false false 1 0.002
  | ZAIF => mkExchangeConfig ex true false 1 0.002
  | ZONDA => mkExchangeConfig ex true false 1 0.002
  | COUNT => mkExchangeConfig COUNT false false 1 0.005
  end.

(** Legacy function for compatibility. *)
Definition get_config (ex : Exchange) : ExchangeConfig := get_exchange_config ex.

(** The string fields of the value [get_exchange_config] returns: the two
    endpoints and the two symbols. *)
Record ExchangeStrings := mkExchangeStrings {
  ws_url : string;
  rest_url : string;
  cfg_symbol : string;
  spot_symbol : string
}.

Definition get_exchange_strings (ex : Exchange) : ExchangeStrings :=
  match ex with
  | APEX =>
      mkExchangeStrings "wss://ws.apex.exchange/ws"
        "https://api.apex.exchange/api/v1/depth"
        "BTC/USDT:USDT" "BTC/USDT"
  | ARKHAM =>
      mkExchangeStrings ""
        "https://api.arkhamintelligence.com/orderbook"
        "BTC/USDT:USDT" "BTC/USDT"
  | ASCENDEX =>
      mkExchangeStrings "wss://ascendex.com/1/api/pro/v1/stream"
        "https://ascendex.com/api/pro/v2/futures/order-book"
        "BTC/USDT:USDT" "BTC/USDT"
  | BACKPACK =>
      mkExchangeStrings "wss://ws.backpack.exchange"
        "https://api.backpack.exchange/api/v1/depth"
        "BTC/USDC:USDC" "BTC/USDC"
  | BIGONE =>
      mkExchangeStrings "wss://big.one/ws/v2"
        "https://big.one/api/v3/asset_pairs/BTC-USD/depth"
        "BTC/USD:BTC" "BTC/USDT"
  | BINANCE =>
      mkExchangeStrings "wss://fstream.binance.com/ws"
        "https://fapi.binance.com/fapi/v1/depth?symbol=BTCUSDT&limit=50"
        "BTC/USDT:USDT" "BTC/USDT"
  | BINANCECOINM =>
      mkExchangeStrings "wss://dstream.binance.com/ws"
        "https://dapi.binance.com/dapi/v1/depth?symbol=BTCUSD_PERP&limit=50"
        "BTC/USD:BTC" "BTC/USD"
  | BINANCEUSDM =>
      mkExchangeStrings "wss://fstream.binance.com/ws"
        "https://fapi.binance.com/fapi/v1/depth?symbol=BTCUSDT&limit=50"
        "BTC/USDT:USDT" "BTC/USDT"
  | BINGX =>
      mkExchangeStrings "wss://open-api-swap.bingx.com/swap-market"
        "https://open-api.bingx.com/openApi/swap/v2/quote/depth"
        "BTC/USDT:USDT" "BTC/USDT"
  | BITFINEX =>
      mkExchangeStrings "wss://api-pub.bitfinex.com/ws/2"
        "https://api-pub.bitfinex.com/v2/book/tBTCF0:USTF0/P0"
        "BTC/USDT:USDT" "BTC/USD"
  | BITFLYER =>
      mkExchangeStrings "wss://ws.lightstream.bitflyer.com/json-rpc"
        "https://api.bitflyer.com/v1/board?product_code=FX_BTC_JPY"
        "BTC/JPY:JPY" "BTC/JPY"
  | BITGET =>
      mkExchangeStrings "wss://ws.bitget.com/mix/v1/stream"
        "https://api.bitget.com/api/mix/v1/market/depth?symbol=BTCUSDT_UMCBL&limit=50"
        "BTC/USDT:USDT" "BTC/USDT"
  | BITMART =>
      mkExchangeStrings "wss://ws-manager-compress.bitmart.com/api?protocol=1.1"
        "https://api-cloud.bitmart.com/contract/public/depth?symbol=BTCUSDT"
        "BTC/USDT:USDT" "BTC/USDT"
  | BITMEX =>
      mkExchangeStrings "wss://ws.bitmex.com/realtime"
        "https://www.bitmex.com/api/v1/orderBook/L2?symbol=XBTUSD&depth=50"
        "BTC/USD:BTC" "XBTUSD"
  | BITRUE =>
      mkExchangeStrings "wss://futures.bitrue.com/kline-api/ws"
        "https://futures.bitrue.com/fapi/v1/depth?symbol=BTCUSDT&limit=50"
        "BTC/USDT:USDT" "BTC/USDT"
  | BLOFIN =>
      mkExchangeStrings "wss://openapi.blofin.com/ws/public"
        "https://openapi.blofin.com/api/v1/market/books?instId=BTC-USDT"
        "BTC/USDC:USDC" "BTC/USDT"
  | BULLISH =>
      mkExchangeStrings "wss://api.bullish.com/ws"
        "https://api.bullish.com/trading/orderbooks"
        "BTC/USDC:USDC" "BTC/USDC"
  | BYBIT =>
      mkExchangeStrings "wss://stream.bybit.com/v5/public/linear"
        "https://api.bybit.com/v5/market/orderbook?category=linear&symbol=BTCUSDT&limit=50"
        "BTC/USDT:USDT" "BTC/USDT"
  | COINBASE =>
      mkExchangeStrings "wss://ws-feed.exchange.coinbase.com"
        "https://api.exchange.coinbase.com/products/BTC-USD/book?level=2"
        "BTC/USD:USD" "BTC/USD"
  | COINBASEADVANCED =>
      mkExchangeStrings "wss://ws-feed.exchange.coinbase.com"
        "https://api.coinbase.com/api/v3/brokerage/product_book"
        "BTC/USD:USD" "BTC/USD"
  | COINBASEINTERNATIONAL =>
      mkExchangeStrings "wss://ws-md.international.coinbase.com"
        "https://api.international.coinbase.com/api/v1/orderbook"
        "BTC/USDC:USDC" "BTC/USDC"
  | COINCATCH =>
      mkExchangeStrings "wss://ws.coincatch.com/public"
        "https://api.coincatch.com/api/mix/v1/market/depth"
        "BTC/USDT:USDT" "BTC/USDT"
  | COINEX =>
      mkExchangeStrings "wss://socket.coinex.com/v2/futures"
        "https://api.coinex.com/perpetual/v1/market/depth?market=BTCUSDT&merge=0&limit=50"
        "BTC/USDC:USDT" "BTC/USDT"
  | CRYPTOCOM =>
      mkExchangeStrings "wss://stream.crypto.com/v2/market"
        "https://api.crypto.com/v2/public/get-book"
        "BTC/USD:USD" "BTC/USD"
  | DEEPCOIN =>
      mkExchangeStrings "wss://ws.deepcoin.com/ws"
        "https://api.deepcoin.com/deepcoin/market/orderbook"
        "BTC/USD:BTC" "BTC/USDT"
  | DEFX =>
      mkExchangeStrings ""
        "https://api.defx.com/orderbook"
        "BTC/USDC:USDC" "BTC/USDC"
  | DELTA =>
      mkExchangeStrings "wss://socket.delta.exchange"
        "https://api.delta.exchange/v2/l2orderbook/BTCUSDT"
        "BTC/USDT:USDT" "BTC/USDT"
  | DERIBIT =>
      mkExchangeStrings "wss://www.deribit.com/ws/api/v2"
        "https://www.deribit.com/api/v2/public/get_order_book?instrument_name=BTC-PERPETUAL&depth=50"
        "BTC/USD:BTC" "BTC-PERPETUAL"
  | DERIVE =>
      mkExchangeStrings ""
        "https://api.derive.xyz/orderbook"
        "BTC/USD:USD" "BTC/USD"
  | DIGIFINEX =>
      mkExchangeStrings "wss://openapi.digifinex.com/ws/v1/"
        "https://openapi.digifinex.com/v3/order_book?symbol=btc_usdt&limit=50"
        "BTC/USDT:USDT" "BTC/USDT"
  | DYDX =>
      mkExchangeStrings "wss://api.dydx.exchange/v3/ws"
        "https://api.dydx.exchange/v3/orderbook/BTC-USD"
        "BTC/USD:USD" "BTC/USD"
  | FMFWIO =>
      mkExchangeStrings "wss://api.fmfw.io/ws"
        "https://api.fmfw.io/api/3/public/orderbook/BTCUSDT"
        "BTC/USDT:USDT" "BTC/USDT"
  | GATE =>
      mkExchangeStrings "wss://fx-ws.gateio.ws/v4/ws/usdt"
        "https://api.gateio.ws/api/v4/futures/usdt/order_book?contract=BTC_USDT&limit=50"
        "BTC/USDT:USDT" "BTC/USDT"
  | GATEIO =>
      mkExchangeStrings "wss://fx-ws.gateio.ws/v4/ws/usdt"
        "https://api.gateio.ws/api/v4/futures/usdt/order_book?contract=BTC_USDT&limit=50"
        "BTC/USDT:USDT" "BTC/USDT"
  | GEMINI =>
      mkExchangeStrings "wss://api.gemini.com/v1/marketdata/btcusd"
        "https://api.gemini.com/v1/book/btcusd"
        "BTC/GUSD:GUSD" "BTC/USD"
  | HASHKEY =>
      mkExchangeStrings "wss://stream-pro.hashkey.com/quote/ws/v1"
        "https://api-pro.hashkey.com/quote/v1/depth"
        "BTC/USDT:USDT" "BTC/USDT"
  | HIBACHI =>
      mkExchangeStrings "wss://ws.hibachi.xyz"
        "https://api.hibachi.xyz/orderbook"
        "BTC/USDT:USDT" "BTC/USDT"
  | HITBTC =>
      mkExchangeStrings "wss://api.hitbtc.com/api/3/ws/public"
        "https://api.hitbtc.com/api/3/public/orderbook/BTCUSDT"
        "BTC/USDT:USDT" "BTC/USDT"
  | HTX =>
      mkExchangeStrings "wss://api.hbdm.com/linear-swap-ws"
        "https://api.hbdm.com/linear-swap-ex/market/depth?contract_code=BTC-USDT&type=step0"
        "BTC/USDT:USDT" "BTC/USDT"
  | HUOBI =>
      mkExchangeStrings "wss://api.hbdm.com/linear-swap-ws"
        "https://api.hbdm.com/linear-swap-ex/market/depth?contract_code=BTC-USDT&type=step0"
        "BTC/USDT:USDT" "BTC/USDT"
  | HYPERLIQUID =>
      mkExchangeStrings "wss://api.hyperliquid.xyz/ws"
        "https://api.hyperliquid.xyz/info"
        "BTC/USDC:USDC" "BTC/USDC"
  | KRAKENFUTURES =>
      mkExchangeStrings "wss://futures.kraken.com/ws/v1"
        "https://futures.kraken.com/derivatives/api/v3/orderbook?symbol=PI_XBTUSD"
        "BTC/USD:BTC" "PI_XBTUSD"
  | KUCOINFUTURES =>
      mkExchangeStrings "wss://ws-api-futures.kucoin.com"
        "https://api-futures.kucoin.com/api/v1/level2/snapshot?symbol=XBTUSDTM"
        "BTC/USDT:USDT" "XBTUSDTM"
  | LBANK =>
      mkExchangeStrings "wss://www.lbkex.net/ws/V2/"
        "https://api.lbank.info/v2/depth.do?symbol=btc_usdt&size=50"
        "BTC/USDT:USDT" "BTC/USDT"
  | MEXC =>
      mkExchangeStrings "wss://contract.mexc.com/ws"
        "https://contract.mexc.com/api/v1/contract/depth/BTC_USDT"
        "BTC/USDT:USDT" "BTC/USDT"
  | MODETRADE =>
      mkExchangeStrings ""
        "https://api.modetrade.com/orderbook"
        "BTC/USDT:USDT" "BTC/USDT"
  | MYOKX =>
      mkExchangeStrings "wss://ws.okx.com:8443/ws/v5/public"
        "https://www.okx.com/api/v5/market/books?instId=BTC-USDT-SWAP&sz=50"
        "BTC/USD:BTC" "BTC/USDT"
  | OKX =>
      mkExchangeStrings "wss://ws.okx.com:8443/ws/v5/public"
        "https://www.okx.com/api/v5/market/books?instId=BTC-USDT-SWAP&sz=50"
        "BTC/USDT:USDT" "BTC/USDT"
  | OKXUS =>
      mkExchangeStrings "wss://ws.okx.com:8443/ws/v5/public"
        "https://www.okx.com/api/v5/market/books?instId=BTC-USDT-SWAP&sz=50"
        "BTC/USD:BTC" "BTC/USDT"
  | ONETRADING =>
      mkExchangeStrings "wss://ws.onetrading.com"
        "https://api.onetrading.com/public/v1/order-book/BTC_EUR"
        "BTC/EUR:EUR" "BTC/EUR"
  | PARADEX =>
      mkExchangeStrings "wss://ws.api.paradex.trade/v1"
        "https://api.paradex.trade/v1/orderbook"
        "BTC/USD:USDC" "BTC/USD"
  | PHEMEX =>
      mkExchangeStrings "wss://phemex.com/ws"
        "https://api.phemex.com/md/orderbook?symbol=BTCUSD"
        "BTC/USD:BTC" "BTCUSD"
  | POLONIEX =>
      mkExchangeStrings "wss://ws.poloniex.com/ws/public"
        "https://api.poloniex.com/markets/BTC_USDT/orderBook?limit=50"
        "BTC/USDT:USDT" "BTC_USDT"
  | TOOBIT =>
      mkExchangeStrings "wss://ws.toobit.com/ws"
        "https://api.toobit.com/quote/v1/depth"
        "BTC/USDT:USDT" "BTC/USDT"
  | WHITEBIT =>
      mkExchangeStrings "wss://api.whitebit.com/ws"
        "https://whitebit.com/api/v4/public/orderbook/BTC_USDT?limit=50"
        "BTC/USDT:USDT" "BTC/USDT"
  | WOOFIPRO =>
      mkExchangeStrings "wss://ws.woo.org/ws/stream"
        "https://api.woo.org/v1/orderbook/PERP_BTC_USDT"
        "BTC/USDT:USDT" "BTC/USDT"
  | XT =>
      mkExchangeStrings "wss://stream.xt.com/public"
        "https://api.xt.com/future/market/v1/public/q/depth"
        "BTC/USDT:USDT" "BTC/USDT"
  | ZEBPAY =>
      mkExchangeStrings ""
        "https://www.zebapi.com/pro/v1/market/BTC-USDT/orderbook"
        "BTC/USDT:USDT" "BTC/USDT"
  | ALPACA =>
      mkExchangeStrings "wss://stream.data.alpaca.markets/v2/crypto"
        "https://data.alpaca.markets/v1beta3/crypto/us/orderbooks"
        "" "BTC/USD"
  | BEQUANT =>
      mkExchangeStrings "wss://api.bequant.io/api/3/ws/public"
        "https://api.bequant.io/api/3/public/orderbook"
        "" "BTC/USDT"
  | BINANCEUS =>
      mkExchangeStrings "wss://stream.binance.us:9443/ws"
        "https://api.binance.us/api/v3/depth?symbol=BTCUSD&limit=50"
        "" "BTC/USD"
  | BIT2C =>
      mkExchangeStrings ""
        "https://bit2c.co.il/Exchanges/BtcNis/orderbook.json"
        "" "BTC/NIS"
  | BITBANK =>
      mkExchangeStrings "wss://stream.bitbank.cc/socket.io"
        "https://public.bitbank.cc/btc_jpy/depth"
        "" "BTC/JPY"
  | BITBNS =>
      mkExchangeStrings ""
        "https://bitbns.com/order/fetchOrderbook"
        "" "BTC/INR"
  | BITHUMB =>
      mkExchangeStrings "wss://pubwss.bithumb.com/pub/ws"
        "https://api.bithumb.com/public/orderbook/BTC_KRW"
        "" "BTC/KRW"
  | BITOPRO =>
      mkExchangeStrings "wss://stream.bitopro.com:443/ws/v1/pub"
        "https://api.bitopro.com/v3/order-book/BTC_TWD"
        "" "BTC/TWD"
  | BITSO =>
      mkExchangeStrings "wss://ws.bitso.com"
        "https://api.bitso.com/v3/order_book?book=btc_mxn"
        "" "BTC/MXN"
  | BITSTAMP =>
      mkExchangeStrings "wss://ws.bitstamp.net"
        "https://www.bitstamp.net/api/v2/order_book/btcusd"
        "" "BTC/USD"
  | BITTEAM =>
      mkExchangeStrings ""
        "https://bit.team/api/orderbook"
        "" "BTC/USDT"
  | BITTRADE =>
      mkExchangeStrings ""
        "https://api-cloud.bittrade.co.jp/v1/orderbook"
        "" "BTC/JPY"
  | BITVAVO =>
      mkExchangeStrings "wss://ws.bitvavo.com/v2"
        "https://api.bitvavo.com/v2/BTC-EUR/book"
        "" "BTC/EUR"
  | BLOCKCHAINCOM =>
      mkExchangeStrings "wss://ws.blockchain.com/mercury-gateway/v1/ws"
        "https://api.blockchain.com/v3/exchange/l2/BTC-USD"
        "" "BTC/USD"
  | BTCALPHA =>
      mkExchangeStrings ""
        "https://btc-alpha.com/api/v1/orderbook/BTC_USDT"
        "" "BTC/USDT"
  | BTCBOX =>
      mkExchangeStrings ""
        "https://www.btcbox.co.jp/api/v1/depth"
        "" "BTC/JPY"
  | BTCMARKETS =>
      mkExchangeStrings "wss://socket.btcmarkets.net/v2"
        "https://api.btcmarkets.net/v3/markets/BTC-AUD/orderbook"
        "" "BTC/AUD"
  | BTCTURK =>
      mkExchangeStrings "wss://ws-feed-pro.btcturk.com"
        "https://api.btcturk.com/api/v2/orderbook?pairSymbol=BTCTRY"
        "" "BTC/TRY"
  | CEX =>
      mkExchangeStrings "wss://ws.cex.io/ws"
        "https://cex.io/api/order_book/BTC/USD"
        "" "BTC/USD"
  | COINBASEEXCHANGE =>
      mkExchangeStrings "wss://ws-feed.exchange.coinbase.com"
        "https://api.exchange.coinbase.com/products/BTC-USD/book?level=2"
        "" "BTC/USD"
  | COINCHECK =>
      mkExchangeStrings "wss://ws-api.coincheck.com"
        "https://coincheck.com/api/order_books"
        "" "BTC/JPY"
  | COINMATE =>
      mkExchangeStrings "wss://coinmate.io/api/websocket"
        "https://coinmate.io/api/orderBook?currencyPair=BTC_EUR"
        "" "BTC/EUR"
  | COINMETRO =>
      mkExchangeStrings "wss://api.coinmetro.com/ws"
        "https://api.coinmetro.com/exchange/book/BTCEUR"
        "" "BTC/EUR"
  | COINONE =>
      mkExchangeStrings ""
        "https://api.coinone.co.kr/orderbook?currency=btc"
        "" "BTC/KRW"
  | COINSPH =>
      mkExchangeStrings ""
        "https://api.coins.ph/openapi/quote/v1/depth"
        "" "BTC/PHP"
  | COINSPOT =>
      mkExchangeStrings ""
        "https://www.coinspot.com.au/pubapi/v2/orders/open/btc"
        "" "BTC/AUD"
  | CRYPTOMUS =>
      mkExchangeStrings ""
        "https://api.cryptomus.com/v1/exchange/market/assets"
        "" "BTC/USDT"
  | EXMO =>
      mkExchangeStrings "wss://ws-api.exmo.com:443/v1/public"
        "https://api.exmo.com/v1.1/order_book?pair=BTC_USDT"
        "" "BTC/USDT"
  | FOXBIT =>
      mkExchangeStrings ""
        "https://api.foxbit.com.br/rest/v3/markets/btc-brl/orderbook"
        "" "BTC/BRL"
  | HOLLAEX =>
      mkExchangeStrings "wss://api.hollaex.com/stream"
        "https://api.hollaex.com/v2/orderbook?symbol=btc-usdt"
        "" "BTC/USDT"
  | INDEPENDENTRESERVE =>
      mkExchangeStrings ""
        "https://api.independentreserve.com/Public/GetOrderBook?primaryCurrencyCode=xbt&secondaryCurrencyCode=aud"
        "" "BTC/AUD"
  | INDODAX =>
      mkExchangeStrings "wss://ws3.indodax.com/ws/"
        "https://indodax.com/api/btc_idr/depth"
        "" "BTC/IDR"
  | KRAKEN =>
      mkExchangeStrings "wss://ws.kraken.com"
        "https://api.kraken.com/0/public/Depth?pair=XBTUSD&count=50"
        "" "BTC/USD"
  | KUCOIN =>
      mkExchangeStrings "wss://ws-api-spot.kucoin.com"
        "https://api.kucoin.com/api/v1/market/orderbook/level2_100?symbol=BTC-USDT"
        "" "BTC/USDT"
  | LATOKEN =>
      mkExchangeStrings "wss://api.latoken.com/stomp"
        "https://api.latoken.com/v2/book/BTC/USDT"
        "" "BTC/USDT"
  | LUNO =>
      mkExchangeStrings "wss://ws.luno.com/api/1/stream/XBTZAR"
        "https://api.luno.com/api/1/orderbook_top?pair=XBTZAR"
        "" "BTC/ZAR"
  | MERCADO =>
      mkExchangeStrings ""
        "https://api.mercadobitcoin.net/api/v4/btc/orderbook"
        "" "BTC/BRL"
  | NDAX =>
      mkExchangeStrings "wss://api.ndax.io/ws"
        "https://api.ndax.io/api/getl2snapshot/1"
        "" "BTC/CAD"
  | NOVADAX =>
      mkExchangeStrings "wss://api.novadax.com/websocket"
        "https://api.novadax.com/v1/market/depth?symbol=BTC_BRL&limit=50"
        "" "BTC/BRL"
  | OCEANEX =>
      mkExchangeStrings "wss://ws.oceanex.pro/ws"
        "https://api.oceanex.pro/v1/order_book?market=btcusdt"
        "" "BTC/USDT"
  | OXFUN =>
      mkExchangeStrings "wss://api.ox.fun/v1/ws"
        "https://api.ox.fun/v1/depth"
        "" "BTC/USDT"
  | P2B =>
      mkExchangeStrings "wss://wsapi.p2pb2b.com"
        "https://api.p2pb2b.com/api/v2/public/book?market=BTC_USDT"
        "" "BTC/USDT"
  | PAYMIUM =>
      mkExchangeStrings ""
        "https://paymium.com/api/v1/data/eur/depth"
        "" "BTC/EUR"
  | PROBIT =>
      mkExchangeStrings "wss://api.probit.com/api/exchange/v1/ws"
        "https://api.probit.com/api/exchange/v1/order_book?market_id=BTC-USDT"
        "" "BTC/USDT"
  | TIMEX =>
      mkExchangeStrings "wss://plasma-relay.timex.io"
        "https://plasma-relay.timex.io/public/book/BTCUSDT"
        "" "BTC/USDT"
  | TOKOCRYPTO =>
      mkExchangeStrings "wss://stream.tokocrypto.com/ws"
        "https://www.tokocrypto.com/open/v1/market/depth"
        "" "BTC/USDT"
  | UPBIT =>
      mkExchangeStrings "wss://api.upbit.com/websocket/v1"
        "https://api.upbit.com/v1/orderbook?markets=KRW-BTC"
        "" "BTC/KRW"
  | WAVESEXCHANGE =>
      mkExchangeStrings "wss://matcher.waves.exchange/api/ws"
        "https://matcher.waves.exchange/api/v1/orderbook/WAVES/BTC"
        "" "BTC/WAVES"
  | WOO =>
      mkExchangeStrings "wss://wss.woo.org/ws/stream"
        "https://api.woo.org/v1/orderbook/SPOT_BTC_USDT"
        "" "BTC/USDT"
  | YOBIT =>
      mkExchangeStrings ""
        "https://yobit.net/api/3/depth/btc_usdt"
        "" "BTC/USDT"
  | ZAIF =>
      mkExchangeStrings "wss://ws.zaif.jp/stream"
        "https://api.zaif.jp/api/1/depth/btc_jpy"
        "" "BTC/JPY"
  | ZONDA =>
      mkExchangeStrings "wss://api.zonda.exchange/websocket/"
        "https://api.zonda.exchange/rest/trading/orderbook/BTC-PLN"
        "" "BTC/PLN"
  | COUNT => mkExchangeStrings "" "" "" ""
  end.

(** ** Price levels and books *)

Module PriceLevel.

Record t := mk { price : double; volume : double }.

End PriceLevel.

Definition MAX_BOOK_LEVELS : nat := 100.

Module OrderBook.

Record t := mk {
  bids : list PriceLevel.t;
  asks : list PriceLevel.t;
  timestamp : Z;
  sequence : N
}.

(** [OrderBook{}]: no levels, the clock's epoch, sequence 0. *)
Definition default : t := mk [] [] 0%Z 0%N.

Definition set_bids v (b : t) : t := mk v (asks b) (timestamp b) (sequence b).
Definition set_asks v (b : t) : t := mk (bids b) v (timestamp b) (sequence b).
Definition set_timestamp v (b : t) : t := mk (bids b) (asks b) v (sequence b).
Definition set_sequence v (b : t) : t := mk (bids b) (asks b) (timestamp b) v.

Definition is_empty (l : list PriceLevel.t) : bool :=
  match l with [] => true | _ => false end.

Definition is_valid (b : t) : bool :=
  negb (is_empty (bids b)) && negb (is_empty (asks b)).

Definition best_bid (b : t) : double :=
  match bids b with [] => 0 | l :: _ => PriceLevel.price l end.

Definition best_ask (b : t) : double :=
  match asks b with [] => 0 | l :: _ => PriceLevel.price l end.

Definition spread (b : t) : double := best_ask b - best_bid b.

Definition spread_pct (b : t) : double :=
  let bid := best_bid b in
  if Qle_bool bid 0 then 0 else (best_ask b - bid) / bid * 100.

Definition mid_price (b : t) : double :=
  let bid := best_bid b in
  let ask := best_ask b in
  if Qle_bool bid 0 || Qle_bool ask 0 then 0 else (bid + ask) / 2.

Definition age_ms (now : Z) (b : t) : Z := duration_ms (now - timestamp b).

Definition clear (b : t) : t := mk [] [] 0%Z (sequence b).

(** [for (i = 0; i < count; ++i) total += levels[i].volume] with
    [count = std::min(max_levels, levels.size())]. *)
Definition total_bid_depth (b : t) (max_levels : nat) : double :=
  let count := Nat.min max_levels (length (bids b)) in
  fold_left (fun total level => total + PriceLevel.volume level)
    (take count (bids b)) 0.

Definition total_ask_depth (b : t) (max_levels : nat) : double :=
  let count := Nat.min max_levels (length (asks b)) in
  fold_left (fun total level => total + PriceLevel.volume level)
    (take count (asks b)) 0.

End OrderBook.

(** ** Instrument data *)

Module InstrumentData.

Record t := mk {
  type : InstrumentType;
  book : OrderBook.t;
  last_price : double;
  volume_24h : double;
  timestamp : Z;
  sequence : N;
  mark_price : double;
  index_price : double;
  funding_rate : double;
  next_funding_ts : Z;
  predicted_funding : double;
  expiration_ts : Z;
  basis : double;
  basis_rate : double;
  strike : double;
  implied_vol : double;
  is_call : bool;
  delta : double;
  gamma : double;
  theta : double;
  vega : double;
  rho : double;
  underlying_price : double;
  time_to_expiry : double;
  interest_rate_long : double;
  interest_rate_short : double;
  max_leverage : double;
  maintenance_margin : double;
  contract_size : double;
  contract_value : double;
  nav : double;
  real_leverage : double;
  target_leverage : double;
  rebalance_ts : Z;
  basket : double
}.

(** [InstrumentData{}]: the default member initialisers of the struct. *)
Definition default : t := {|
  type := SPOT;
  book := OrderBook.default;
  last_price := 0;
  volume_24h := 0;
  timestamp := 0%Z;
  sequence := 0%N;
  mark_price := 0;
  index_price := 0;
  funding_rate := 0;
  next_funding_ts := 0%Z;
  predicted_funding := 0;
  expiration_ts := 0%Z;
  basis := 0;
  basis_rate := 0;
  strike := 0;
  implied_vol := 0;
  is_call := true;
  delta := 0;
  gamma := 0;
  theta := 0;
  vega := 0;
  rho := 0;
  underlying_price := 0;
  time_to_expiry := 0;
  interest_rate_long := 0;
  interest_rate_short := 0;
  max_leverage := 1;
  maintenance_margin := 0;
  contract_size := 1;
  contract_value := 0;
  nav := 0;
  real_leverage := 0;
  target_leverage := 3;
  rebalance_ts := 0%Z;
  basket := 0
|}.

(** Assignments to single members. *)

Definition set_type v (d : t) : t :=
  let 'mk
    type book last_price volume_24h timestamp sequence mark_price
    index_price funding_rate next_funding_ts predicted_funding
    expiration_ts basis basis_rate strike implied_vol is_call delta gamma
    theta vega rho underlying_price time_to_expiry interest_rate_long
    interest_rate_short max_leverage maintenance_margin contract_size
    contract_value nav real_leverage target_leverage rebalance_ts basket := d in
  mk
    v book last_price volume_24h timestamp sequence mark_price index_price
    funding_rate next_funding_ts predicted_funding expiration_ts basis
    basis_rate strike implied_vol is_call delta gamma theta vega rho
    underlying_price time_to_expiry interest_rate_long interest_rate_short
    max_leverage maintenance_margin contract_size contract_value nav
    real_leverage target_leverage rebalance_ts basket.

Definition set_book v (d : t) : t :=
  let 'mk
    type book last_price volume_24h timestamp sequence mark_price
    index_price funding_rate next_funding_ts predicted_funding
    expiration_ts basis basis_rate strike implied_vol is_call delta gamma
    theta vega rho underlying_price time_to_expiry interest_rate_long
    interest_rate_short max_leverage maintenance_margin contract_size
    contract_value nav real_leverage target_leverage rebalance_ts basket := d in
  mk
    type v last_price volume_24h timestamp sequence mark_price index_price
    funding_rate next_funding_ts predicted_funding expiration_ts basis
    basis_rate strike implied_vol is_call delta gamma theta vega rho
    underlying_price time_to_expiry interest_rate_long interest_rate_short
    max_leverage maintenance_margin contract_size contract_value nav
    real_leverage target_leverage rebalance_ts basket.

Definition set_last_price v (d : t) : t :=
  let 'mk
    type book last_price volume_24h timestamp sequence mark_price
    index_price funding_rate next_funding_ts predicted_funding
    expiration_ts basis basis_rate strike implied_vol is_call delta gamma
    theta vega rho underlying_price time_to_expiry interest_rate_long
    interest_rate_short max_leverage maintenance_margin contract_size
    contract_value nav real_leverage target_leverage rebalance_ts basket := d in
  mk
    type book v volume_24h timestamp sequence mark_price index_price
    funding_rate next_funding_ts predicted_funding expiration_ts basis
    basis_rate strike implied_vol is_call delta gamma theta vega rho
    underlying_price time_to_expiry interest_rate_long interest_rate_short
    max_leverage maintenance_margin contract_size contract_value nav
    real_leverage target_leverage rebalance_ts basket.

Definition set_timestamp v (d : t) : t :=
  let 'mk
    type book last_price volume_24h timestamp sequence mark_price
    index_price funding_rate next_funding_ts predicted_funding
    expiration_ts basis basis_rate strike implied_vol is_call delta gamma
    theta vega rho underlying_price time_to_expiry interest_rate_long
    interest_rate_short max_leverage maintenance_margin contract_size
    contract_value nav real_leverage target_leverage rebalance_ts basket := d in
  mk
    type book last_price volume_24h v sequence mark_price index_price
    funding_rate next_funding_ts predicted_funding expiration_ts basis
    basis_rate strike implied_vol is_call delta gamma theta vega rho
    underlying_price time_to_expiry interest_rate_long interest_rate_short
    max_leverage maintenance_margin contract_size contract_value nav
    real_leverage target_leverage rebalance_ts basket.

Definition set_sequence v (d : t) : t :=
  let 'mk
    type book last_price volume_24h timestamp sequence mark_price
    index_price funding_rate next_funding_ts predicted_funding
    expiration_ts basis basis_rate strike implied_vol is_call delta gamma
    theta vega rho underlying_price time_to_expiry interest_rate_long
    interest_rate_short max_leverage maintenance_margin contract_size
    contract_value nav real_leverage target_leverage rebalance_ts basket := d in
  mk
    type book last_price volume_24h timestamp v mark_price index_price
    funding_rate next_funding_ts predicted_funding expiration_ts basis
    basis_rate strike implied_vol is_call delta gamma theta vega rho
    underlying_price time_to_expiry interest_rate_long interest_rate_short
    max_leverage maintenance_margin contract_size contract_value nav
    real_leverage target_leverage rebalance_ts basket.

Definition set_mark_price v (d : t) : t :=
  let 'mk
    type book last_price volume_24h timestamp sequence mark_price
    index_price funding_rate next_funding_ts predicted_funding
    expiration_ts basis basis_rate strike implied_vol is_call delta gamma
    theta vega rho underlying_price time_to_expiry interest_rate_long
    interest_rate_short max_leverage maintenance_margin contract_size
    contract_value nav real_leverage target_leverage rebalance_ts basket := d in
  mk
    type book last_price volume_24h timestamp sequence v index_price
    funding_rate next_funding_ts predicted_funding expiration_ts basis
    basis_rate strike implied_vol is_call delta gamma theta vega rho
    underlying_price time_to_expiry interest_rate_long interest_rate_short
    max_leverage maintenance_margin contract_size contract_value nav
    real_leverage target_leverage rebalance_ts basket.

Definition set_index_price v (d : t) : t :=
  let 'mk
    type book last_price volume_24h timestamp sequence mark_price
    index_price funding_rate next_funding_ts predicted_funding
    expiration_ts basis basis_rate strike implied_vol is_call delta gamma
    theta vega rho underlying_price time_to_expiry interest_rate_long
    interest_rate_short max_leverage maintenance_margin contract_size
    contract_value nav real_leverage target_leverage rebalance_ts basket := d in
  mk
    type book last_price volume_24h timestamp sequence mark_price v
    funding_rate next_funding_ts predicted_funding expiration_ts basis
    basis_rate strike implied_vol is_call delta gamma theta vega rho
    underlying_price time_to_expiry interest_rate_long interest_rate_short
    max_leverage maintenance_margin contract_size contract_value nav
    real_leverage target_leverage rebalance_ts basket.

Definition set_funding_rate v (d : t) : t :=
  let 'mk
    type book last_price volume_24h timestamp sequence mark_price
    index_price funding_rate next_funding_ts predicted_funding
    expiration_ts basis basis_rate strike implied_vol is_call delta gamma
    theta vega rho underlying_price time_to_expiry interest_rate_long
    interest_rate_short max_leverage maintenance_margin contract_size
    contract_value nav real_leverage target_leverage rebalance_ts basket := d in
  mk
    type book last_price volume_24h timestamp sequence mark_price
    index_price v next_funding_ts predicted_funding expiration_ts basis
    basis_rate strike implied_vol is_call delta gamma theta vega rho
    underlying_price time_to_expiry interest_rate_long interest_rate_short
    max_leverage maintenance_margin contract_size contract_value nav
    real_leverage target_leverage rebalance_ts basket.

Definition set_next_funding_ts v (d : t) : t :=
  let 'mk
    type book last_price volume_24h timestamp sequence mark_price
    index_price funding_rate next_funding_ts predicted_funding
    expiration_ts basis basis_rate strike implied_vol is_call delta gamma
    theta vega rho underlying_price time_to_expiry interest_rate_long
    interest_rate_short max_leverage maintenance_margin contract_size
    contract_value nav real_leverage target_leverage rebalance_ts basket := d in
  mk
    type book last_price volume_24h timestamp sequence mark_price
    index_price funding_rate v predicted_funding expiration_ts basis
    basis_rate strike implied_vol is_call delta gamma theta vega rho
    underlying_price time_to_expiry interest_rate_long interest_rate_short
    max_leverage maintenance_margin contract_size contract_value nav
    real_leverage target_leverage rebalance_ts basket.

Definition set_strike v (d : t) : t :=
  let 'mk
    type book last_price volume_24h timestamp sequence mark_price
    index_price funding_rate next_funding_ts predicted_funding
    expiration_ts basis basis_rate strike implied_vol is_call delta gamma
    theta vega rho underlying_price time_to_expiry interest_rate_long
    interest_rate_short max_leverage maintenance_margin contract_size
    contract_value nav real_leverage target_leverage rebalance_ts basket := d in
  mk
    type book last_price volume_24h timestamp sequence mark_price
    index_price funding_rate next_funding_ts predicted_funding
    expiration_ts basis basis_rate v implied_vol is_call delta gamma theta
    vega rho underlying_price time_to_expiry interest_rate_long
    interest_rate_short max_leverage maintenance_margin contract_size
    contract_value nav real_leverage target_leverage rebalance_ts basket.

Definition set_implied_vol v (d : t) : t :=
  let 'mk
    type book last_price volume_24h timestamp sequence mark_price
    index_price funding_rate next_funding_ts predicted_funding
    expiration_ts basis basis_rate strike implied_vol is_call delta gamma
    theta vega rho underlying_price time_to_expiry interest_rate_long
    interest_rate_short max_leverage maintenance_margin contract_size
    contract_value nav real_leverage target_leverage rebalance_ts basket := d in
  mk
    type book last_price volume_24h timestamp sequence mark_price
    index_price funding_rate next_funding_ts predicted_funding
    expiration_ts basis basis_rate strike v is_call delta gamma theta vega
    rho underlying_price time_to_expiry interest_rate_long
    interest_rate_short max_leverage maintenance_margin contract_size
    contract_value nav real_leverage target_leverage rebalance_ts basket.

Definition set_is_call v (d : t) : t :=
  let 'mk
    type book last_price volume_24h timestamp sequence mark_price
    index_price funding_rate next_funding_ts predicted_funding
    expiration_ts basis basis_rate strike implied_vol is_call delta gamma
    theta vega rho underlying_price time_to_expiry interest_rate_long
    interest_rate_short max_leverage maintenance_margin contract_size
    contract_value nav real_leverage target_leverage rebalance_ts basket := d in
  mk
    type book last_price volume_24h timestamp sequence mark_price
    index_price funding_rate next_funding_ts predicted_funding
    expiration_ts basis basis_rate strike implied_vol v delta gamma theta
    vega rho underlying_price time_to_expiry interest_rate_long
    interest_rate_short max_leverage maintenance_margin contract_size
    contract_value nav real_leverage target_leverage rebalance_ts basket.

Definition set_delta v (d : t) : t :=
  let 'mk
    type book last_price volume_24h timestamp sequence mark_price
    index_price funding_rate next_funding_ts predicted_funding
    expiration_ts basis basis_rate strike implied_vol is_call delta gamma
    theta vega rho underlying_price time_to_expiry interest_rate_long
    interest_rate_short max_leverage maintenance_margin contract_size
    contract_value nav real_leverage target_leverage rebalance_ts basket := d in
  mk
    type book last_price volume_24h timestamp sequence mark_price
    index_price funding_rate next_funding_ts predicted_funding
    expiration_ts basis basis_rate strike implied_vol is_call v gamma theta
    vega rho underlying_price time_to_expiry interest_rate_long
    interest_rate_short max_leverage maintenance_margin contract_size
    contract_value nav real_leverage target_leverage rebalance_ts basket.

Definition set_gamma v (d : t) : t :=
  let 'mk
    type book last_price volume_24h timestamp sequence mark_price
    index_price funding_rate next_funding_ts predicted_funding
    expiration_ts basis basis_rate strike implied_vol is_call delta gamma
    theta vega rho underlying_price time_to_expiry interest_rate_long
    interest_rate_short max_leverage maintenance_margin contract_size
    contract_value nav real_leverage target_leverage rebalance_ts basket := d in
  mk
    type book last_price volume_24h timestamp sequence mark_price
    index_price funding_rate next_funding_ts predicted_funding
    expiration_ts basis basis_rate strike implied_vol is_call delta v theta
    vega rho underlying_price time_to_expiry interest_rate_long
    interest_rate_short max_leverage maintenance_margin contract_size
    contract_value nav real_leverage target_leverage rebalance_ts basket.

Definition set_theta v (d : t) : t :=
  let 'mk
    type book last_price volume_24h timestamp sequence mark_price
    index_price funding_rate next_funding_ts predicted_funding
    expiration_ts basis basis_rate strike implied_vol is_call delta gamma
    theta vega rho underlying_price time_to_expiry interest_rate_long
    interest_rate_short max_leverage maintenance_margin contract_size
    contract_value nav real_leverage target_leverage rebalance_ts basket := d in
  mk
    type book last_price volume_24h timestamp sequence mark_price
    index_price funding_rate next_funding_ts predicted_funding
    expiration_ts basis basis_rate strike implied_vol is_call delta gamma v
    vega rho underlying_price time_to_expiry interest_rate_long
    interest_rate_short max_leverage maintenance_margin contract_size
    contract_value nav real_leverage target_leverage rebalance_ts basket.

Definition set_vega v (d : t) : t :=
  let 'mk
    type book last_price volume_24h timestamp sequence mark_price
    index_price funding_rate next_funding_ts predicted_funding
    expiration_ts basis basis_rate strike implied_vol is_call delta gamma
    theta vega rho underlying_price time_to_expiry interest_rate_long
    interest_rate_short max_leverage maintenance_margin contract_size
    contract_value nav real_leverage target_leverage rebalance_ts basket := d in
  mk
    type book last_price volume_24h timestamp sequence mark_price
    index_price funding_rate next_funding_ts predicted_funding
    expiration_ts basis basis_rate strike implied_vol is_call delta gamma
    theta v rho underlying_price time_to_expiry interest_rate_long
    interest_rate_short max_leverage maintenance_margin contract_size
    contract_value nav real_leverage target_leverage rebalance_ts basket.

Definition is_valid (d : t) : bool :=
  OrderBook.is_valid (book d) && Qlt_bool 0 (last_price d).

Definition age_ms (now : Z) (d : t) : Z := duration_ms (now - timestamp d).

Definition best_bid (d : t) : double := OrderBook.best_bid (book d).
Definition best_ask (d : t) : double := OrderBook.best_ask (book d).

End InstrumentData.

(** ** Instruments of a venue *)

Module InstrumentConfig.

Record t := mk {
  symbol : string;
  orderbook_url : string;
  ws_channel : string;
  available : bool
}.

End InstrumentConfig.

Module ExchangeInstruments.

Record t := mk {
  id : Exchange;
  supported : Z;
  spot : InstrumentConfig.t;
  margin : InstrumentConfig.t;
  perpetual : InstrumentConfig.t;
  futures : InstrumentConfig.t;
  options : InstrumentConfig.t;
  inverse : InstrumentConfig.t;
  leveraged_token : InstrumentConfig.t
}.

Definition has (e : t) (type : InstrumentType) : bool :=
  supports_instrument (supported e) type.

Definition get (e : t) (type : InstrumentType) : InstrumentConfig.t :=
  match type with
  | SPOT => spot e
  | MARGIN => margin e
  | PERPETUAL => perpetual e
  | FUTURES => futures e
  | OPTIONS => options e
  | INVERSE => inverse e
  | LEVERAGED_TOKEN => leveraged_token e
  | INST_COUNT => spot e
  end.

End ExchangeInstruments.

(** ** Price impact *)

Module PriceImpact.

Record t := mk {
  start_price : double;
  end_price : double;
  vwap : double;
  price_drop_pct : double;
  volume_filled : double;
  volume_remaining : double;
  total_cost : double;
  levels_eaten : Z
}.

(** [PriceImpact{}]. *)
Definition default : t := mk 0 0 0 0 0 0 0 0%Z.

Definition set_start_price v (d : t) : t :=
  let 'mk
    start_price end_price vwap price_drop_pct volume_filled
    volume_remaining total_cost levels_eaten := d in
  mk
    v end_price vwap price_drop_pct volume_filled volume_remaining
    total_cost levels_eaten.

Definition set_end_price v (d : t) : t :=
  let 'mk
    start_price end_price vwap price_drop_pct volume_filled
    volume_remaining total_cost levels_eaten := d in
  mk
    start_price v vwap price_drop_pct volume_filled volume_remaining
    total_cost levels_eaten.

Definition set_vwap v (d : t) : t :=
  let 'mk
    start_price end_price vwap price_drop_pct volume_filled
    volume_remaining total_cost levels_eaten := d in
  mk
    start_price end_price v price_drop_pct volume_filled volume_remaining
    total_cost levels_eaten.

Definition set_price_drop_pct v (d : t) : t :=
  let 'mk
    start_price end_price vwap price_drop_pct volume_filled
    volume_remaining total_cost levels_eaten := d in
  mk
    start_price end_price vwap v volume_filled volume_remaining total_cost
    levels_eaten.

Definition set_volume_filled v (d : t) : t :=
  let 'mk
    start_price end_price vwap price_drop_pct volume_filled
    volume_remaining total_cost levels_eaten := d in
  mk
    start_price end_price vwap price_drop_pct v volume_remaining total_cost
    levels_eaten.

Definition set_volume_remaining v (d : t) : t :=
  let 'mk
    start_price end_price vwap price_drop_pct volume_filled
    volume_remaining total_cost levels_eaten := d in
  mk
    start_price end_price vwap price_drop_pct volume_filled v total_cost
    levels_eaten.

Definition set_total_cost v (d : t) : t :=
  let 'mk
    start_price end_price vwap price_drop_pct volume_filled
    volume_remaining total_cost levels_eaten := d in
  mk
    start_price end_price vwap price_drop_pct volume_filled
    volume_remaining v levels_eaten.

Definition set_levels_eaten v (d : t) : t :=
  let 'mk
    start_price end_price vwap price_drop_pct volume_filled
    volume_remaining total_cost levels_eaten := d in
  mk
    start_price end_price vwap price_drop_pct volume_filled
    volume_remaining total_cost v.

(** Member [is_profitable(fees_pct, safety_multiple = 2.0)]. *)
Definition is_profitable (i : t) (fees_pct safety_multiple : double) : bool :=
  Qlt_bool (fees_pct * safety_multiple) (std_abs (price_drop_pct i)).

Definition expected_profit_pct (i : t) (fees_pct : double) : double :=
  std_abs (price_drop_pct i) - fees_pct.

Definition leveraged_return (i : t) (fees_pct : double) (leverage : Z) : double :=
  let net := expected_profit_pct i fees_pct in
  if Qlt_bool 0 net then net * inject_Z leverage else 0.

End PriceImpact.

(** ** Signals, decisions, configuration *)

Module BlockchainSignal.

Record t := mk {
  exchange : string;
  is_inflow : bool;
  btc_amount : double;
  latency_ns : Z;
  timestamp : Z
}.

End BlockchainSignal.

Module Reason.

(** The text of [TradeDecision::reason].  Each constructor is one of the
    messages built by the handler; its arguments are the values formatted
    into the message. *)
Inductive t : Type :=
  | Empty
  | UnknownExchangeNamed (name : string)
  | DepositTooSmallOf (amount required : double)
  | StaleOlderThan (max_age_ms : Z)
  | NotAvailable
  | ImpactBelowRequired (impact required : double)
  | InsufficientDepthOf (filled amount : double)
  | Trade (impact required expected : double)
  | UnknownExchange
  | DepositTooSmall
  | Stale
  | InsufficientDepth
  | InstImpactBelowRequired (inst_name : string) (impact required : double)
  | InstTrade (inst_name : string) (impact required profit : double).

(** The outcome a message reports. *)
Inductive kind : Set :=
  | NoOutcome
  | UnknownVenue
  | SignalBelowMinimum
  | BookStale
  | BookUnavailable
  | DepthInsufficient
  | ImpactBelowThreshold
  | Accepted.

Definition kind_of (r : t) : kind :=
  match r with
  | Empty => NoOutcome
  | UnknownExchangeNamed _ | UnknownExchange => UnknownVenue
  | DepositTooSmallOf _ _ | DepositTooSmall => SignalBelowMinimum
  | StaleOlderThan _ | Stale => BookStale
  | NotAvailable => BookUnavailable
  | InsufficientDepthOf _ _ | InsufficientDepth => DepthInsufficient
  | ImpactBelowRequired _ _ | InstImpactBelowRequired _ _ _ => ImpactBelowThreshold
  | Trade _ _ _ | InstTrade _ _ _ _ => Accepted
  end.

(** The threshold a message quotes, when it quotes one. *)
Definition required_of (r : t) : option double :=
  match r with
  | ImpactBelowRequired _ required | InstImpactBelowRequired _ _ required
  | Trade _ required _ | InstTrade _ _ required _ => Some required
  | _ => None
  end.

End Reason.

Module TradeDecision.

Record t := mk {
  should_trade : bool;
  is_short : bool;
  exchange : Exchange;
  entry_price : double;
  exit_price : double;
  impact : PriceImpact.t;
  reason : Reason.t;
  processing_ns : Z
}.

(** [TradeDecision{}]. *)
Definition default : t :=
  mk false false COUNT 0 0 PriceImpact.default Reason.Empty 0%Z.

Definition set_should_trade v (d : t) : t :=
  mk v (is_short d) (exchange d) (entry_price d) (exit_price d) (impact d)
     (reason d) (processing_ns d).
Definition set_is_short v (d : t) : t :=
  mk (should_trade d) v (exchange d) (entry_price d) (exit_price d) (impact d)
     (reason d) (processing_ns d).
Definition set_exchange v (d : t) : t :=
  mk (should_trade d) (is_short d) v (entry_price d) (exit_price d) (impact d)
     (reason d) (processing_ns d).
Definition set_entry_price v (d : t) : t :=
  mk (should_trade d) (is_short d) (exchange d) v (exit_price d) (impact d)
     (reason d) (processing_ns d).
Definition set_exit_price v (d : t) : t :=
  mk (should_trade d) (is_short d) (exchange d) (entry_price d) v (impact d)
     (reason d) (processing_ns d).
Definition set_impact v (d : t) : t :=
  mk (should_trade d) (is_short d) (exchange d) (entry_price d) (exit_price d)
     v (reason d) (processing_ns d).
Definition set_reason v (d : t) : t :=
  mk (should_trade d) (is_short d) (exchange d) (entry_price d) (exit_price d)
     (impact d) v (processing_ns d).
Definition set_processing_ns v (d : t) : t :=
  mk (should_trade d) (is_short d) (exchange d) (entry_price d) (exit_price d)
     (impact d) (reason d) v.

Definition leverage (d : t) : Z :=
  if Exchange_eqb (exchange d) COUNT then 1%Z
  else cfg_max_leverage (get_exchange_config (exchange d)).

Definition expected_return (d : t) (fees_pct : double) : double :=
  PriceImpact.leveraged_return (impact d) fees_pct (leverage d).

End TradeDecision.

Module TradingConfig.

Record t := mk {
  min_deposit_btc : double;
  min_impact_multiple : double;
  fees_pct : double;
  take_profit_ratio : double;
  max_book_age_ms : Z
}.

(** [TradingConfig{}]. *)
Definition default : t := mk 5 2 0.10 0.8 5000%Z.

Definition min_impact_pct (c : t) : double :=
  fees_pct c * min_impact_multiple c.

End TradingConfig.

(** ** Venue counts *)

Definition TOTAL_EXCHANGES : nat := exchange_index COUNT.
Definition PERPETUAL_EXCHANGES : nat := 58.
Definition SPOT_ONLY_EXCHANGES : nat := TOTAL_EXCHANGES - PERPETUAL_EXCHANGES.
Definition TOTAL_INSTRUMENTS : nat := instrument_index INST_COUNT.

(** ** The instrument table

    Eighteen venues have an entry of their own; every other value of the
    enumeration, [COUNT] included, takes the [default:] branch, built from
    the venue's configuration. *)

Definition get_exchange_instruments (ex : Exchange) : ExchangeInstruments.t :=
  let empty := InstrumentConfig.mk "" "" "" false in
  match ex with
  | OKX =>
      ExchangeInstruments.mk ex
        (Z.lor (Z.lor (Z.lor (Z.lor (Z.lor INST_SPOT INST_MARGIN) INST_PERPETUAL) INST_FUTURES) INST_OPTIONS) INST_INVERSE)
        (InstrumentConfig.mk "BTC-USDT"
           "https://www.okx.com/api/v5/market/books?instId=BTC-USDT&sz=50"
           "books5" true)
        (InstrumentConfig.mk "BTC-USDT"
           "https://www.okx.com/api/v5/market/books?instId=BTC-USDT&sz=50"
           "books5" true)
        (InstrumentConfig.mk "BTC-USDT-SWAP"
           "https://www.okx.com/api/v5/market/books?instId=BTC-USDT-SWAP&sz=50"
           "books5" true)
        (InstrumentConfig.mk "BTC-USDT-250328"
           "https://www.okx.com/api/v5/market/books?instId=BTC-USDT-250328&sz=50"
           "books5" true)
        (InstrumentConfig.mk "BTC-USD-250328-100000-C"
           "https://www.okx.com/api/v5/market/books?instId=BTC-USD-250328-100000-C&sz=50"
           "books5" true)
        (InstrumentConfig.mk "BTC-USD-SWAP"
           "https://www.okx.com/api/v5/market/books?instId=BTC-USD-SWAP&sz=50"
           "books5" true)
        empty
  | BYBIT =>
      ExchangeInstruments.mk ex
        (Z.lor (Z.lor (Z.lor (Z.lor INST_SPOT INST_PERPETUAL) INST_FUTURES) INST_OPTIONS) INST_INVERSE)
        (InstrumentConfig.mk "BTCUSDT"
           "https://api.bybit.com/v5/market/orderbook?category=spot&symbol=BTCUSDT&limit=50"
           "orderbook.50.BTCUSDT" true)
        empty
        (InstrumentConfig.mk "BTCUSDT"
           "https://api.bybit.com/v5/market/orderbook?category=linear&symbol=BTCUSDT&limit=50"
           "orderbook.50.BTCUSDT" true)
        (InstrumentConfig.mk "BTCUSDT-28MAR25"
           "https://api.bybit.com/v5/market/orderbook?category=linear&symbol=BTCUSDT-28MAR25&limit=50"
           "orderbook.50" true)
        (InstrumentConfig.mk "BTC-28MAR25-100000-C"
           "https://api.bybit.com/v5/market/orderbook?category=option&symbol=BTC-28MAR25-100000-C&limit=50"
           "orderbook" true)
        (InstrumentConfig.mk "BTCUSD"
           "https://api.bybit.com/v5/market/orderbook?category=inverse&symbol=BTCUSD&limit=50"
           "orderbook.50.BTCUSD" true)
        empty
  | DERIBIT =>
      ExchangeInstruments.mk ex
        (Z.lor (Z.lor (Z.lor INST_PERPETUAL INST_FUTURES) INST_OPTIONS) INST_INVERSE)
        empty
        empty
        (InstrumentConfig.mk "BTC-PERPETUAL"
           "https://www.deribit.com/api/v2/public/get_order_book?instrument_name=BTC-PERPETUAL&depth=50"
           "book.BTC-PERPETUAL.100.1.100ms" true)
        (InstrumentConfig.mk "BTC-28MAR25"
           "https://www.deribit.com/api/v2/public/get_order_book?instrument_name=BTC-28MAR25&depth=50"
           "book.BTC-28MAR25.100.1.100ms" true)
        (InstrumentConfig.mk "BTC-28MAR25-100000-C"
           "https://www.deribit.com/api/v2/public/get_order_book?instrument_name=BTC-28MAR25-100000-C&depth=50"
           "book.option" true)
        (InstrumentConfig.mk "BTC-PERPETUAL"
           "https://www.deribit.com/api/v2/public/get_order_book?instrument_name=BTC-PERPETUAL&depth=50"
           "book.BTC-PERPETUAL.100.1.100ms" true)
        empty
  | GATE | GATEIO =>
      ExchangeInstruments.mk ex
        (Z.lor (Z.lor (Z.lor (Z.lor (Z.lor INST_SPOT INST_MARGIN) INST_PERPETUAL) INST_FUTURES) INST_OPTIONS) INST_LEVERAGED_TOKEN)
        (InstrumentConfig.mk "BTC_USDT"
           "https://api.gateio.ws/api/v4/spot/order_book?currency_pair=BTC_USDT&limit=50"
           "spot.order_book" true)
        (InstrumentConfig.mk "BTC_USDT"
           "https://api.gateio.ws/api/v4/margin/order_book?currency_pair=BTC_USDT&limit=50"
           "margin.order_book" true)
        (InstrumentConfig.mk "BTC_USDT"
           "https://api.gateio.ws/api/v4/futures/usdt/order_book?contract=BTC_USDT&limit=50"
           "futures.order_book" true)
        (InstrumentConfig.mk "BTC_USDT_20250328"
           "https://api.gateio.ws/api/v4/delivery/usdt/order_book?contract=BTC_USDT_20250328&limit=50"
           "delivery.order_book" true)
        (InstrumentConfig.mk "BTC_USDT-20250328-100000-C"
           "https://api.gateio.ws/api/v4/options/order_book"
           "options.order_book" true)
        empty
        (InstrumentConfig.mk "BTC3L_USDT"
           "https://api.gateio.ws/api/v4/spot/order_book?currency_pair=BTC3L_USDT&limit=50"
           "spot.order_book" true)
  | BINANCE =>
      ExchangeInstruments.mk ex
        (Z.lor (Z.lor (Z.lor (Z.lor (Z.lor INST_SPOT INST_MARGIN) INST_PERPETUAL) INST_FUTURES) INST_INVERSE) INST_LEVERAGED_TOKEN)
        (InstrumentConfig.mk "BTCUSDT"
           "https://api.binance.com/api/v3/depth?symbol=BTCUSDT&limit=100"
           "btcusdt@depth@100ms" true)
        (InstrumentConfig.mk "BTCUSDT"
           "https://api.binance.com/api/v3/depth?symbol=BTCUSDT&limit=100"
           "btcusdt@depth@100ms" true)
        (InstrumentConfig.mk "BTCUSDT"
           "https://fapi.binance.com/fapi/v1/depth?symbol=BTCUSDT&limit=100"
           "btcusdt@depth@100ms" true)
        (InstrumentConfig.mk "BTCUSDT_250328"
           "https://fapi.binance.com/fapi/v1/depth?symbol=BTCUSDT_250328&limit=100"
           "btcusdt_250328@depth@100ms" true)
        empty
        (InstrumentConfig.mk "BTCUSD_PERP"
           "https://dapi.binance.com/dapi/v1/depth?symbol=BTCUSD_PERP&limit=100"
           "btcusd_perp@depth@100ms" true)
        (InstrumentConfig.mk "BTCUP"
           "https://api.binance.com/api/v3/depth?symbol=BTCUPUSDT&limit=100"
           "btcupusdt@depth@100ms" true)
  | BINANCECOINM =>
      ExchangeInstruments.mk ex
        (Z.lor (Z.lor INST_PERPETUAL INST_FUTURES) INST_INVERSE)
        empty
        empty
        (InstrumentConfig.mk "BTCUSD_PERP"
           "https://dapi.binance.com/dapi/v1/depth?symbol=BTCUSD_PERP&limit=100"
           "btcusd_perp@depth@100ms" true)
        (InstrumentConfig.mk "BTCUSD_250328"
           "https://dapi.binance.com/dapi/v1/depth?symbol=BTCUSD_250328&limit=100"
           "btcusd_250328@depth@100ms" true)
        empty
        (InstrumentConfig.mk "BTCUSD_PERP"
           "https://dapi.binance.com/dapi/v1/depth?symbol=BTCUSD_PERP&limit=100"
           "btcusd_perp@depth@100ms" true)
        empty
  | BINANCEUSDM =>
      ExchangeInstruments.mk ex
        (Z.lor INST_PERPETUAL INST_FUTURES)
        empty
        empty
        (InstrumentConfig.mk "BTCUSDT"
           "https://fapi.binance.com/fapi/v1/depth?symbol=BTCUSDT&limit=100"
           "btcusdt@depth@100ms" true)
        (InstrumentConfig.mk "BTCUSDT_250328"
           "https://fapi.binance.com/fapi/v1/depth?symbol=BTCUSDT_250328&limit=100"
           "btcusdt_250328@depth@100ms" true)
        empty
        empty
        empty
  | BITGET =>
      ExchangeInstruments.mk ex
        (Z.lor (Z.lor (Z.lor INST_SPOT INST_MARGIN) INST_PERPETUAL) INST_FUTURES)
        (InstrumentConfig.mk "BTCUSDT"
           "https://api.bitget.com/api/v2/spot/market/orderbook?symbol=BTCUSDT&limit=50"
           "orderbook" true)
        (InstrumentConfig.mk "BTCUSDT"
           "https://api.bitget.com/api/v2/spot/market/orderbook?symbol=BTCUSDT&limit=50"
           "orderbook" true)
        (InstrumentConfig.mk "BTCUSDT_UMCBL"
           "https://api.bitget.com/api/v2/mix/market/depth?symbol=BTCUSDT&productType=USDT-FUTURES&limit=50"
           "orderbook" true)
        (InstrumentConfig.mk "BTCUSDT_DMCBL"
           "https://api.bitget.com/api/v2/mix/market/depth?symbol=BTCUSDT&productType=USDT-FUTURES&limit=50"
           "orderbook" true)
        empty
        empty
        empty
  | MEXC =>
      ExchangeInstruments.mk ex
        (Z.lor (Z.lor (Z.lor (Z.lor INST_SPOT INST_MARGIN) INST_PERPETUAL) INST_FUTURES) INST_LEVERAGED_TOKEN)
        (InstrumentConfig.mk "BTCUSDT"
           "https://api.mexc.com/api/v3/depth?symbol=BTCUSDT&limit=100"
           "spot@depth" true)
        (InstrumentConfig.mk "BTCUSDT"
           "https://api.mexc.com/api/v3/depth?symbol=BTCUSDT&limit=100"
           "spot@depth" true)
        (InstrumentConfig.mk "BTC_USDT"
           "https://contract.mexc.com/api/v1/contract/depth/BTC_USDT"
           "contract@depth" true)
        (InstrumentConfig.mk "BTC_USDT"
           "https://contract.mexc.com/api/v1/contract/depth/BTC_USDT"
           "contract@depth" true)
        empty
        empty
        (InstrumentConfig.mk "BTC3L_USDT"
           "https://api.mexc.com/api/v3/depth?symbol=BTC3LUSDT&limit=100"
           "spot@depth" true)
  | HTX | HUOBI =>
      ExchangeInstruments.mk ex
        (Z.lor (Z.lor (Z.lor (Z.lor INST_SPOT INST_MARGIN) INST_PERPETUAL) INST_FUTURES) INST_INVERSE)
        (InstrumentConfig.mk "btcusdt"
           "https://api.huobi.pro/market/depth?symbol=btcusdt&type=step0&depth=50"
           "market.btcusdt.depth.step0" true)
        (InstrumentConfig.mk "btcusdt"
           "https://api.huobi.pro/market/depth?symbol=btcusdt&type=step0&depth=50"
           "market.btcusdt.depth.step0" true)
        (InstrumentConfig.mk "BTC-USDT"
           "https://api.hbdm.com/linear-swap-ex/market/depth?contract_code=BTC-USDT&type=step0"
           "market.BTC-USDT.depth.step0" true)
        (InstrumentConfig.mk "BTC_CQ"
           "https://api.hbdm.com/market/depth?symbol=BTC_CQ&type=step0"
           "market.BTC_CQ.depth.step0" true)
        empty
        (InstrumentConfig.mk "BTC-USD"
           "https://api.hbdm.com/swap-ex/market/depth?contract_code=BTC-USD&type=step0"
           "market.BTC-USD.depth.step0" true)
        empty
  | BITMEX =>
      ExchangeInstruments.mk ex
        (Z.lor (Z.lor INST_PERPETUAL INST_FUTURES) INST_INVERSE)
        empty
        empty
        (InstrumentConfig.mk "XBTUSD"
           "https://www.bitmex.com/api/v1/orderBook/L2?symbol=XBTUSD&depth=50"
           "orderBookL2:XBTUSD" true)
        (InstrumentConfig.mk "XBTM25"
           "https://www.bitmex.com/api/v1/orderBook/L2?symbol=XBTM25&depth=50"
           "orderBookL2:XBTM25" true)
        empty
        (InstrumentConfig.mk "XBTUSD"
           "https://www.bitmex.com/api/v1/orderBook/L2?symbol=XBTUSD&depth=50"
           "orderBookL2:XBTUSD" true)
        empty
  | KRAKENFUTURES =>
      ExchangeInstruments.mk ex
        (Z.lor (Z.lor INST_PERPETUAL INST_FUTURES) INST_INVERSE)
        empty
        empty
        (InstrumentConfig.mk "PI_XBTUSD"
           "https://futures.kraken.com/derivatives/api/v3/orderbook?symbol=PI_XBTUSD"
           "book" true)
        (InstrumentConfig.mk "FI_XBTUSD_250328"
           "https://futures.kraken.com/derivatives/api/v3/orderbook?symbol=FI_XBTUSD_250328"
           "book" true)
        empty
        (InstrumentConfig.mk "PI_XBTUSD"
           "https://futures.kraken.com/derivatives/api/v3/orderbook?symbol=PI_XBTUSD"
           "book" true)
        empty
  | KUCOINFUTURES =>
      ExchangeInstruments.mk ex
        (Z.lor (Z.lor INST_PERPETUAL INST_FUTURES) INST_INVERSE)
        empty
        empty
        (InstrumentConfig.mk "XBTUSDTM"
           "https://api-futures.kucoin.com/api/v1/level2/snapshot?symbol=XBTUSDTM"
           "level2" true)
        (InstrumentConfig.mk "XBTUSDTM"
           "https://api-futures.kucoin.com/api/v1/level2/snapshot?symbol=XBTUSDTM"
           "level2" true)
        empty
        (InstrumentConfig.mk "XBTUSDM"
           "https://api-futures.kucoin.com/api/v1/level2/snapshot?symbol=XBTUSDM"
           "level2" true)
        empty
  | PHEMEX =>
      ExchangeInstruments.mk ex
        (Z.lor (Z.lor (Z.lor INST_SPOT INST_PERPETUAL) INST_FUTURES) INST_INVERSE)
        (InstrumentConfig.mk "sBTCUSDT"
           "https://api.phemex.com/md/orderbook?symbol=sBTCUSDT"
           "orderbook.sBTCUSDT" true)
        empty
        (InstrumentConfig.mk "BTCUSD"
           "https://api.phemex.com/md/orderbook?symbol=BTCUSD"
           "orderbook.BTCUSD" true)
        (InstrumentConfig.mk "BTCUSD"
           "https://api.phemex.com/md/orderbook?symbol=BTCUSD"
           "orderbook.BTCUSD" true)
        empty
        (InstrumentConfig.mk "BTCUSD"
           "https://api.phemex.com/md/orderbook?symbol=BTCUSD"
           "orderbook.BTCUSD" true)
        empty
  | HYPERLIQUID =>
      ExchangeInstruments.mk ex
        (INST_PERPETUAL)
        empty
        empty
        (InstrumentConfig.mk "BTC"
           "https://api.hyperliquid.xyz/info"
           "l2Book" true)
        empty
        empty
        empty
        empty
  | DYDX =>
      ExchangeInstruments.mk ex
        (INST_PERPETUAL)
        empty
        empty
        (InstrumentConfig.mk "BTC-USD"
           "https://api.dydx.exchange/v3/orderbook/BTC-USD"
           "v3_orderbook" true)
        empty
        empty
        empty
        empty
  | KRAKEN =>
      ExchangeInstruments.mk ex
        (Z.lor INST_SPOT INST_MARGIN)
        (InstrumentConfig.mk "XXBTZUSD"
           "https://api.kraken.com/0/public/Depth?pair=XBTUSD&count=50"
           "book" true)
        (InstrumentConfig.mk "XXBTZUSD"
           "https://api.kraken.com/0/public/Depth?pair=XBTUSD&count=50"
           "book" true)
        empty
        empty
        empty
        empty
        empty
  | KUCOIN =>
      ExchangeInstruments.mk ex
        (Z.lor (Z.lor INST_SPOT INST_MARGIN) INST_LEVERAGED_TOKEN)
        (InstrumentConfig.mk "BTC-USDT"
           "https://api.kucoin.com/api/v1/market/orderbook/level2_100?symbol=BTC-USDT"
           "level2" true)
        (InstrumentConfig.mk "BTC-USDT"
           "https://api.kucoin.com/api/v1/market/orderbook/level2_100?symbol=BTC-USDT"
           "level2" true)
        empty
        empty
        empty
        empty
        (InstrumentConfig.mk "BTC3L-USDT"
           "https://api.kucoin.com/api/v1/market/orderbook/level2_100?symbol=BTC3L-USDT"
           "level2" true)
  | _ =>
      let cfg := get_exchange_config ex in
      let str := get_exchange_strings ex in
      ExchangeInstruments.mk ex INST_SPOT
        (InstrumentConfig.mk (spot_symbol str) (rest_url str) ""
           (has_websocket cfg || (0 <? String.length (rest_url str))%nat))
        empty empty empty empty empty empty
  end.

(* ====================================================================== *)
(** * impact_calculator.hpp *)
(* ====================================================================== *)

Module ImpactCalculator.

Import PriceImpact.

(** One iteration of the loop body of the walk, on the pair of the mutable
    locals [(impact, remaining)]. *)
Definition eat_level (level : PriceLevel.t) (impact : PriceImpact.t)
    (remaining : double) : PriceImpact.t * double :=
  let fill := std_min remaining (PriceLevel.volume level) in
  let impact := set_total_cost (total_cost impact + PriceLevel.price level * fill) impact in
  let impact := set_volume_filled (volume_filled impact + fill) impact in
  let remaining := remaining - fill in
  let impact := set_end_price (PriceLevel.price level) impact in
  let impact := set_levels_eaten (levels_eaten impact + 1)%Z impact in
  (impact, remaining).

(** [for (const auto& level : levels) { if (remaining <= 0.0) break; ... }] *)
Fixpoint walk (levels : list PriceLevel.t) (impact : PriceImpact.t)
    (remaining : double) : PriceImpact.t * double :=
  match levels with
  | [] => (impact, remaining)
  | level :: rest =>
      if Qle_bool remaining 0 then (impact, remaining)
      else
        let '(impact, remaining) := eat_level level impact remaining in
        walk rest impact remaining
  end.

Definition calculate_sell_impact (sell_btc : double)
    (bids : list PriceLevel.t) : PriceImpact.t :=
  let impact := PriceImpact.default in
  match bids with
  | [] => set_volume_remaining sell_btc impact
  | bids0 :: _ =>
      if Qle_bool sell_btc 0 then set_volume_remaining sell_btc impact
      else
        let remaining := sell_btc in
        let impact := set_start_price (PriceLevel.price bids0) impact in
        let impact := set_end_price (start_price impact) impact in
        let '(impact, remaining) := walk bids impact remaining in
        let impact := set_volume_remaining remaining impact in
        let impact :=
          if Qlt_bool 0 (volume_filled impact)
          then set_vwap (total_cost impact / volume_filled impact) impact
          else set_vwap (start_price impact) impact in
        let impact :=
          if Qlt_bool 0 (start_price impact)
          then set_price_drop_pct
                 ((start_price impact - end_price impact)
                  / start_price impact * 100) impact
          else impact in
        impact
  end.

Definition calculate_buy_impact (buy_btc : double)
    (asks : list PriceLevel.t) : PriceImpact.t :=
  let impact := PriceImpact.default in
  match asks with
  | [] => set_volume_remaining buy_btc impact
  | asks0 :: _ =>
      if Qle_bool buy_btc 0 then set_volume_remaining buy_btc impact
      else
        let remaining := buy_btc in
        let impact := set_start_price (PriceLevel.price asks0) impact in
        let impact := set_end_price (start_price impact) impact in
        let '(impact, remaining) := walk asks impact remaining in
        let impact := set_volume_remaining remaining impact in
        let impact :=
          if Qlt_bool 0 (volume_filled impact)
          then set_vwap (total_cost impact / volume_filled impact) impact
          else set_vwap (start_price impact) impact in
        let impact :=
          if Qlt_bool 0 (start_price impact)
          then set_price_drop_pct
                 (- ((end_price impact - start_price impact)
                     / start_price impact * 100)) impact
          else impact in
        impact
  end.

Definition calculate_exit_price (entry_price : double)
    (impact : PriceImpact.t) (is_short : bool)
    (take_profit_ratio : double) : double :=
  if is_short then
    let target_drop_pct := std_abs (price_drop_pct impact) * take_profit_ratio in
    entry_price * (1 - target_drop_pct / 100)
  else
    let target_rise_pct := std_abs (price_drop_pct impact) * take_profit_ratio in
    entry_price * (1 + target_rise_pct / 100).

(** Static [is_profitable(impact_pct, fees_pct, safety_multiple = 2.0)]. *)
Definition is_profitable (impact_pct fees_pct safety_multiple : double) : bool :=
  Qle_bool (fees_pct * safety_multiple) (std_abs impact_pct).

Definition expected_profit_pct (impact_pct fees_pct : double) : double :=
  std_abs impact_pct - fees_pct.

Definition leveraged_return (impact_pct fees_pct : double) (leverage : Z) : double :=
  let net_profit := expected_profit_pct impact_pct fees_pct in
  if Qlt_bool 0 net_profit then net_profit * inject_Z leverage else 0.


(** ** Cumulative depth *)

Module DepthLevel.

Record t := mk {
  price : double;
  volume : double;
  cumulative_volume : double;
  pct_drop : double
}.

End DepthLevel.



(** ** Utility functions *)

Definition total_depth (levels : list PriceLevel.t) (max_levels : nat) : double :=
  let count := Nat.min max_levels (length levels) in
  fold_left (fun total level => total + PriceLevel.volume level)
    (take count levels) 0.

(** [for (level : bids) { if (level.price <= target_price) break;
    volume_needed += level.volume; }] *)
Fixpoint volume_above (target_price : double) (bids : list PriceLevel.t)
    (volume_needed : double) : double :=
  match bids with
  | [] => volume_needed
  | level :: rest =>
      if Qle_bool (PriceLevel.price level) target_price then volume_needed
      else volume_above target_price rest (volume_needed + PriceLevel.volume level)
  end.

Definition min_btc_for_impact (bids : list PriceLevel.t)
    (target_impact_pct : double) : double :=
  match bids with
  | [] => 0
  | bids0 :: _ =>
      if Qle_bool target_impact_pct 0 then 0
      else
        let start_price := PriceLevel.price bids0 in
        let target_price := start_price * (1 - target_impact_pct / 100) in
        volume_above target_price bids 0
  end.

(** The loop of [calculate_vwap], on the locals
    [(remaining, total_cost, total_volume)]. *)
Fixpoint vwap_loop (levels : list PriceLevel.t)
    (remaining total_cost total_volume : double) : double * double * double :=
  match levels with
  | [] => (remaining, total_cost, total_volume)
  | level :: rest =>
      if Qle_bool remaining 0 then (remaining, total_cost, total_volume)
      else
        let fill := std_min remaining (PriceLevel.volume level) in
        vwap_loop rest (remaining - fill)
          (total_cost + PriceLevel.price level * fill) (total_volume + fill)
  end.

Definition calculate_vwap (levels : list PriceLevel.t) (volume : double) : double :=
  match levels with
  | [] => 0
  | levels0 :: _ =>
      if Qle_bool volume 0 then PriceLevel.price levels0
      else
        let '(_, total_cost, total_volume) := vwap_loop levels volume 0 0 in
        if Qlt_bool 0 total_volume then total_cost / total_volume
        else PriceLevel.price levels0
  end.

(** ** Full analysis *)

Module TradeAnalysis.

Record t := mk {
  impact : PriceImpact.t;
  expected_profit_pct : double;
  leveraged_return : double;
  is_profitable : bool;
  entry_price : double;
  exit_price : double;
  leverage : Z
}.

End TradeAnalysis.


End ImpactCalculator.

(* ====================================================================== *)
(** * impact_calculator.hpp, on binary64 numbers *)
(* ====================================================================== *)

(** The two walks of [ImpactCalculator] once more, statement by statement,
    with [double] as the binary64 format and its correctly rounded
    operations. *)

Module Binary64.

Local Open Scope float_scope.

Record PriceLevel := mkLevel { price : float; volume : float }.

Record PriceImpact := mkImpact {
  start_price : float;
  end_price : float;
  vwap : float;
  price_drop_pct : float;
  volume_filled : float;
  volume_remaining : float;
  total_cost : float;
  levels_eaten : Z
}.


(** [std::min(a, b)] is [(b < a) ? b : a]. *)
Definition std_min (a b : float) : float := if b <? a then b else a.

Definition eat_level (level : PriceLevel) (impact : PriceImpact)
    (remaining : float) : PriceImpact * float :=
  let fill := std_min remaining (volume level) in
  (mkImpact (start_price impact) (price level) (vwap impact)
     (price_drop_pct impact) (volume_filled impact + fill)
     (volume_remaining impact) (total_cost impact + price level * fill)
     (levels_eaten impact + 1)%Z,
   remaining - fill).

Fixpoint walk (levels : list PriceLevel) (impact : PriceImpact)
    (remaining : float) : PriceImpact * float :=
  match levels with
  | [] => (impact, remaining)
  | level :: rest =>
      if remaining <=? 0 then (impact, remaining)
      else
        let '(impact, remaining) := eat_level level impact remaining in
        walk rest impact remaining
  end.

Definition calculate_sell_impact (sell_btc : float)
    (bids : list PriceLevel) : PriceImpact :=
  match bids with
  | [] => mkImpact 0 0 0 0 0 sell_btc 0 0%Z
  | bids0 :: _ =>
      if sell_btc <=? 0 then mkImpact 0 0 0 0 0 sell_btc 0 0%Z
      else
        let '(impact, remaining) :=
          walk bids (mkImpact (price bids0) (price bids0) 0 0 0 0 0 0%Z) sell_btc in
        mkImpact (start_price impact) (end_price impact)
          (if 0 <? volume_filled impact
           then total_cost impact / volume_filled impact
           else start_price impact)
          (if 0 <? start_price impact
           then (start_price impact - end_price impact) / start_price impact * 100
           else price_drop_pct impact)
          (volume_filled impact) remaining (total_cost impact)
          (levels_eaten impact)
  end.

Definition calculate_buy_impact (buy_btc : float)
    (asks : list PriceLevel) : PriceImpact :=
  match asks with
  | [] => mkImpact 0 0 0 0 0 buy_btc 0 0%Z
  | asks0 :: _ =>
      if buy_btc <=? 0 then mkImpact 0 0 0 0 0 buy_btc 0 0%Z
      else
        let '(impact, remaining) :=
          walk asks (mkImpact (price asks0) (price asks0) 0 0 0 0 0 0%Z) buy_btc in
        mkImpact (start_price impact) (end_price impact)
          (if 0 <? volume_filled impact
           then total_cost impact / volume_filled impact
           else start_price impact)
          (if 0 <? start_price impact
           then - ((end_price impact - start_price impact) / start_price impact * 100)
           else price_drop_pct impact)
          (volume_filled impact) remaining (total_cost impact)
          (levels_eaten impact)
  end.

(** The static [ImpactCalculator::is_profitable] and the member
    [PriceImpact::is_profitable]. *)
Definition is_profitable (impact_pct fees_pct safety_multiple : float) : bool :=
  fees_pct * safety_multiple <=? abs impact_pct.

Definition member_is_profitable (impact : PriceImpact)
    (fees_pct safety_multiple : float) : bool :=
  fees_pct * safety_multiple <? abs (price_drop_pct impact).

End Binary64.

(* ====================================================================== *)
(** * order_book_cache.hpp *)
(* ====================================================================== *)

(** ** OrderBookCache: one slot and one counter per venue

    [books_] and [sequence_counters_] are arrays of [Exchange::COUNT]
    elements, indexed by the venue.  The update callback only observes the
    stored book and is not represented. *)

Module OrderBookCache.

Record t := mk {
  books_ : list OrderBook.t;
  sequence_counters_ : list N
}.

(** A freshly constructed cache. *)
Definition empty : t :=
  mk (replicate (exchange_index COUNT) OrderBook.default)
     (replicate (exchange_index COUNT) 0%N).

(** Both arrays have their declared size. *)
Definition well_sized (c : t) : Prop :=
  length (books_ c) = exchange_index COUNT
  /\ length (sequence_counters_ c) = exchange_index COUNT.

(** [idx >= static_cast<size_t>(Exchange::COUNT)] *)
Definition out_of_range (idx : nat) : bool := (exchange_index COUNT <=? idx)%nat.

(** [books_[idx]] and [sequence_counters_[idx].load()]. *)
Definition book_at (c : t) (idx : nat) : OrderBook.t :=
  default OrderBook.default (books_ c !! idx).

Definition counter_at (c : t) (idx : nat) : N :=
  default 0%N (sequence_counters_ c !! idx).

Definition get (c : t) (exchange : Exchange) : OrderBook.t :=
  let idx := exchange_index exchange in
  if out_of_range idx then OrderBook.default else book_at c idx.

Definition is_stale (c : t) (exchange : Exchange) (max_age_ms : Z) (now : Z) : bool :=
  let idx := exchange_index exchange in
  if out_of_range idx then true
  else (max_age_ms <? OrderBook.age_ms now (book_at c idx))%Z.

Definition is_valid (c : t) (exchange : Exchange) : bool :=
  let idx := exchange_index exchange in
  if out_of_range idx then false else OrderBook.is_valid (book_at c idx).

Definition get_sequence (c : t) (exchange : Exchange) : N :=
  let idx := exchange_index exchange in
  if out_of_range idx then 0%N else counter_at c idx.

Definition get_best_bid (c : t) (exchange : Exchange) : double :=
  let idx := exchange_index exchange in
  if out_of_range idx then 0 else OrderBook.best_bid (book_at c idx).

Definition get_best_ask (c : t) (exchange : Exchange) : double :=
  let idx := exchange_index exchange in
  if out_of_range idx then 0 else OrderBook.best_ask (book_at c idx).

Definition update (c : t) (exchange : Exchange) (book : OrderBook.t) (now : Z) : t :=
  let idx := exchange_index exchange in
  if out_of_range idx then c
  else
    let book := OrderBook.set_timestamp now book in
    let new_seq := u64_incr (counter_at c idx) in
    let counters := <[idx := new_seq]> (sequence_counters_ c) in
    let book := OrderBook.set_sequence new_seq book in
    mk (<[idx := book]> (books_ c)) counters.

(** [books_[idx].sequence = sequence_counters_[idx].fetch_add(1) + 1] stores
    the incremented counter and assigns the same value to the book. *)
Definition bump (c : t) (idx : nat) (b : OrderBook.t) : t :=
  let new_seq := u64_incr (counter_at c idx) in
  mk (<[idx := OrderBook.set_sequence new_seq b]> (books_ c))
     (<[idx := new_seq]> (sequence_counters_ c)).

Definition update_bids (c : t) (exchange : Exchange)
    (bids : list PriceLevel.t) (now : Z) : t :=
  let idx := exchange_index exchange in
  if out_of_range idx then c
  else
    let b := OrderBook.set_bids bids (book_at c idx) in
    let b := OrderBook.set_timestamp now b in
    bump c idx b.

Definition update_asks (c : t) (exchange : Exchange)
    (asks : list PriceLevel.t) (now : Z) : t :=
  let idx := exchange_index exchange in
  if out_of_range idx then c
  else
    let b := OrderBook.set_asks asks (book_at c idx) in
    let b := OrderBook.set_timestamp now b in
    bump c idx b.

Definition clear_index (c : t) (idx : nat) : t :=
  bump c idx (OrderBook.clear (book_at c idx)).

Definition clear (c : t) (exchange : Exchange) : t :=
  let idx := exchange_index exchange in
  if out_of_range idx then c else clear_index c idx.

Definition clear_all (c : t) : t :=
  fold_left clear_index (seq 0 (exchange_index COUNT)) c.

Definition get_bid_depth (c : t) (exchange : Exchange) (max_levels : nat) : double :=
  let idx := exchange_index exchange in
  if out_of_range idx then 0
  else OrderBook.total_bid_depth (book_at c idx) max_levels.

Definition get_all (c : t) : list OrderBook.t :=
  map (book_at c) (seq 0 (exchange_index COUNT)).

Definition valid_count (c : t) : nat :=
  fold_left
    (fun count i => if OrderBook.is_valid (book_at c i) then S count else count)
    (seq 0 (exchange_index COUNT)) 0%nat.

(** [age_ms] reads the clock at every iteration: [now i] is the reading
    taken for venue [i]. *)
Definition fresh_count (c : t) (max_age_ms : Z) (now : nat -> Z) : nat :=
  fold_left
    (fun count i =>
       if OrderBook.is_valid (book_at c i)
          && (OrderBook.age_ms (now i) (book_at c i) <=? max_age_ms)%Z
       then S count else count)
    (seq 0 (exchange_index COUNT)) 0%nat.

(** The write operations of the class, as data. *)
Inductive op : Type :=
  | Update (exchange : Exchange) (book : OrderBook.t) (now : Z)
  | UpdateBids (exchange : Exchange) (bids : list PriceLevel.t) (now : Z)
  | UpdateAsks (exchange : Exchange) (asks : list PriceLevel.t) (now : Z)
  | Clear (exchange : Exchange)
  | ClearAll.

Definition run (c : t) (o : op) : t :=
  match o with
  | Update ex book now => update c ex book now
  | UpdateBids ex bids now => update_bids c ex bids now
  | UpdateAsks ex asks now => update_asks c ex asks now
  | Clear ex => clear c ex
  | ClearAll => clear_all c
  end.

(** A history of writes, oldest first. *)
Definition run_all (c : t) (ops : list op) : t := fold_left run ops c.

(** The venue an operation is addressed to. *)
Definition target (o : op) : option Exchange :=
  match o with
  | Update ex _ _ | UpdateBids ex _ _ | UpdateAsks ex _ _ | Clear ex => Some ex
  | ClearAll => None
  end.

End OrderBookCache.

(** ** InstrumentCache: a hash map keyed by venue and instrument type

    [cache_] is an [unordered_map<size_t, InstrumentData>]; [cache_[key]]
    on an absent key inserts [InstrumentData{}].  One counter,
    [global_sequence_], serves every key. *)

Module InstrumentCache.

Import InstrumentData.

Record t := mk {
  cache_ : gmap nat InstrumentData.t;
  global_sequence_ : N
}.

Definition empty : t := mk ∅ 0%N.

Definition make_key (ex : Exchange) (type : InstrumentType) : nat :=
  exchange_index ex * instrument_index INST_COUNT + instrument_index type.

(** [cache_[key]] read through [operator[]]. *)
Definition slot (c : t) (key : nat) : InstrumentData.t :=
  match cache_ c !! key with
  | Some d => d
  | None => InstrumentData.default
  end.

Definition get (c : t) (ex : Exchange) (type : InstrumentType) : InstrumentData.t :=
  match cache_ c !! make_key ex type with
  | Some d => d
  | None => InstrumentData.default
  end.

Definition get_book (c : t) (ex : Exchange) (type : InstrumentType) : OrderBook.t :=
  match cache_ c !! make_key ex type with
  | Some d => book d
  | None => OrderBook.default
  end.

Definition is_stale (c : t) (ex : Exchange) (type : InstrumentType)
    (max_age_ms : Z) (now : Z) : bool :=
  match cache_ c !! make_key ex type with
  | None => true
  | Some d => (max_age_ms <? age_ms now d)%Z
  end.

Definition is_fresh (c : t) (ex : Exchange) (type : InstrumentType)
    (max_age_ms : Z) (now : Z) : bool :=
  match cache_ c !! make_key ex type with
  | None => false
  | Some d => is_valid d && (age_ms now d <=? max_age_ms)%Z
  end.

Definition get_sequence (c : t) (ex : Exchange) (type : InstrumentType) : N :=
  match cache_ c !! make_key ex type with
  | Some d => sequence d
  | None => 0%N
  end.

Definition update (c : t) (ex : Exchange) (type : InstrumentType)
    (data : InstrumentData.t) (now : Z) : t :=
  let data := set_type type data in
  let data := set_timestamp now data in
  let key := make_key ex type in
  let g := u64_incr (global_sequence_ c) in
  let data := set_sequence g data in
  mk (<[key := data]> (cache_ c)) g.

Definition update_book (c : t) (ex : Exchange) (type : InstrumentType)
    (book : OrderBook.t) (now : Z) : t :=
  let key := make_key ex type in
  let data := slot c key in
  let data := set_type type data in
  let data := set_book book data in
  let data := set_book (OrderBook.set_timestamp now (InstrumentData.book data)) data in
  let data := set_timestamp (OrderBook.timestamp (InstrumentData.book data)) data in
  let data := set_last_price (OrderBook.mid_price (InstrumentData.book data)) data in
  let g := u64_incr (global_sequence_ c) in
  let data := set_sequence g data in
  mk (<[key := data]> (cache_ c)) g.

Definition update_funding (c : t) (ex : Exchange) (type : InstrumentType)
    (funding_rate : double) (next_funding_ts : Z) (now : Z) : t :=
  let key := make_key ex type in
  let data := slot c key in
  let data := set_type type data in
  let data := set_funding_rate funding_rate data in
  let data := set_next_funding_ts next_funding_ts data in
  let data := set_timestamp now data in
  let g := u64_incr (global_sequence_ c) in
  let data := set_sequence g data in
  mk (<[key := data]> (cache_ c)) g.

Definition update_mark_price (c : t) (ex : Exchange) (type : InstrumentType)
    (mark_price index_price : double) (now : Z) : t :=
  let key := make_key ex type in
  let data := slot c key in
  let data := set_type type data in
  let data := set_mark_price mark_price data in
  let data := if Qlt_bool 0 index_price then set_index_price index_price data else data in
  let data := set_timestamp now data in
  let g := u64_incr (global_sequence_ c) in
  let data := set_sequence g data in
  mk (<[key := data]> (cache_ c)) g.

Definition update_greeks (c : t) (ex : Exchange) (strike : double)
    (is_call : bool) (delta gamma theta vega implied_vol : double) (now : Z) : t :=
  let key := make_key ex OPTIONS in
  let data := slot c key in
  let data := set_type OPTIONS data in
  let data := set_strike strike data in
  let data := set_is_call is_call data in
  let data := set_delta delta data in
  let data := set_gamma gamma data in
  let data := set_theta theta data in
  let data := set_vega vega data in
  let data := if Qlt_bool 0 implied_vol then set_implied_vol implied_vol data else data in
  let data := set_timestamp now data in
  let g := u64_incr (global_sequence_ c) in
  let data := set_sequence g data in
  mk (<[key := data]> (cache_ c)) g.

(** One iteration of the loop of [update_batch]. *)
Definition update_batch_step (ex : Exchange) (now : Z) (c : t)
    (data : InstrumentData.t) : t :=
  let data := set_timestamp now data in
  let g := u64_incr (global_sequence_ c) in
  let data := set_sequence g data in
  let key := make_key ex (type data) in
  mk (<[key := data]> (cache_ c)) g.

Definition update_batch (c : t) (ex : Exchange)
    (instruments : list InstrumentData.t) (now : Z) : t :=
  fold_left (update_batch_step ex now) instruments c.

Definition clear (c : t) (ex : Exchange) (type : InstrumentType) : t :=
  mk (delete (make_key ex type) (cache_ c)) (global_sequence_ c).

Definition all_instrument_types : list InstrumentType :=
  [SPOT; MARGIN; PERPETUAL; FUTURES; OPTIONS; INVERSE; LEVERAGED_TOKEN].

Definition clear_exchange (c : t) (ex : Exchange) : t :=
  fold_left (fun c type => clear c ex type) all_instrument_types c.

Definition clear_all (c : t) : t := mk ∅ (global_sequence_ c).

Definition has_instrument (c : t) (ex : Exchange) (type : InstrumentType) : bool :=
  match cache_ c !! make_key ex type with
  | Some d => is_valid d
  | None => false
  end.

Definition get_best_bid (c : t) (ex : Exchange) (type : InstrumentType) : double :=
  match cache_ c !! make_key ex type with
  | Some d => OrderBook.best_bid (book d)
  | None => 0
  end.

Definition get_best_ask (c : t) (ex : Exchange) (type : InstrumentType) : double :=
  match cache_ c !! make_key ex type with
  | Some d => OrderBook.best_ask (book d)
  | None => 0
  end.

Definition get_mark_price (c : t) (ex : Exchange) (type : InstrumentType) : double :=
  match cache_ c !! make_key ex type with
  | Some d => mark_price d
  | None => 0
  end.

Definition get_funding_rate (c : t) (ex : Exchange) (type : InstrumentType) : double :=
  match cache_ c !! make_key ex type with
  | Some d => funding_rate d
  | None => 0
  end.

(** The loops [for (i = 0; i < INST_COUNT; ++i)] over the keys of a venue. *)
Definition get_all_instruments (c : t) (ex : Exchange) : list InstrumentData.t :=
  fold_left
    (fun result type =>
       match cache_ c !! make_key ex type with
       | Some d => if is_valid d then result ++ [d] else result
       | None => result
       end)
    all_instrument_types [].

Definition instrument_count (c : t) (ex : Exchange) : nat :=
  fold_left
    (fun count type =>
       match cache_ c !! make_key ex type with
       | Some d => if is_valid d then S count else count
       | None => count
       end)
    all_instrument_types 0%nat.

Definition size (c : t) : nat := base.size (cache_ c).

(** The loop over every entry of the map; [now key] is the clock reading
    taken by [age_ms] for the entry stored under [key]. *)
Definition fresh_count (c : t) (max_age_ms : Z) (now : nat -> Z) : nat :=
  map_fold
    (fun key data count =>
       if is_valid data && (age_ms (now key) data <=? max_age_ms)%Z
       then S count else count)
    0%nat (cache_ c).

(** The stored sequence under a key, 0 when the key is absent: what
    [get_sequence] returns for the venue and type the key was made from. *)
Definition sequence_at (c : t) (key : nat) : N :=
  match cache_ c !! key with
  | Some d => sequence d
  | None => 0%N
  end.

(** No stored sequence is ahead of the counter. *)
Definition bounded (c : t) : Prop :=
  forall key d, cache_ c !! key = Some d -> (sequence d <= global_sequence_ c)%N.

(** The single-entry write operations, as data. *)
Inductive write : Type :=
  | Update (ex : Exchange) (type : InstrumentType) (data : InstrumentData.t)
  | UpdateBook (ex : Exchange) (type : InstrumentType) (book : OrderBook.t)
  | UpdateFunding (ex : Exchange) (type : InstrumentType)
      (funding_rate : double) (next_funding_ts : Z)
  | UpdateMarkPrice (ex : Exchange) (type : InstrumentType)
      (mark_price index_price : double)
  | UpdateGreeks (ex : Exchange) (strike : double) (is_call : bool)
      (delta gamma theta vega implied_vol : double).

Definition run (c : t) (w : write) (now : Z) : t :=
  match w with
  | Update ex type data => update c ex type data now
  | UpdateBook ex type book => update_book c ex type book now
  | UpdateFunding ex type fr ts => update_funding c ex type fr ts now
  | UpdateMarkPrice ex type mp ip => update_mark_price c ex type mp ip now
  | UpdateGreeks ex k call d g th v iv => update_greeks c ex k call d g th v iv now
  end.

(** The key a write is addressed to. *)
Definition target_key (w : write) : nat :=
  match w with
  | Update ex type _ | UpdateBook ex type _ | UpdateFunding ex type _ _
  | UpdateMarkPrice ex type _ _ => make_key ex type
  | UpdateGreeks ex _ _ _ _ _ _ _ => make_key ex OPTIONS
  end.

End InstrumentCache.

(* ====================================================================== *)
(** * signal_handler.hpp *)
(* ====================================================================== *)

Module SignalHandler.

Import TradeDecision.

Record t := mk {
  cache_ : OrderBookCache.t;
  config_ : TradingConfig.t
}.

(** [record_timing] stamps the time elapsed since the function was entered;
    [elapsed_ns] is that difference of the two clock readings. *)
Definition record_timing (decision : TradeDecision.t) (elapsed_ns : Z) : TradeDecision.t :=
  set_processing_ns elapsed_ns decision.

(** Every return path is [decision.reason = r; record_timing(...); return]. *)
Definition reject (decision : TradeDecision.t) (r : Reason.t) (elapsed_ns : Z) : TradeDecision.t :=
  record_timing (set_reason r decision) elapsed_ns.

(** The raw impact and the entry price, by direction. *)
Definition walk_side (is_inflow : bool) (btc_amount : double)
    (book : OrderBook.t) (decision : TradeDecision.t) : TradeDecision.t :=
  if is_inflow then
    let decision :=
      set_impact (ImpactCalculator.calculate_sell_impact btc_amount (OrderBook.bids book)) decision in
    set_entry_price (OrderBook.best_bid book) decision
  else
    let decision :=
      set_impact (ImpactCalculator.calculate_buy_impact btc_amount (OrderBook.asks book)) decision in
    set_entry_price (OrderBook.best_ask book) decision.

(** The venue's taker fee in percent, replaced by the configured default
    when it is below 0.01: the local [fees_pct] of [process_signal] and
    [base_fees_pct] of [process_instrument_signal]. *)
Definition venue_fees_pct (config : TradingConfig.t) (exchange : Exchange) : double :=
  let fees_pct := fee_pct (get_exchange_config exchange) * 100 in
  if Qlt_bool fees_pct 0.01 then TradingConfig.fees_pct config else fees_pct.

(** The decision as it stands once the venue is known and the side walked. *)
Definition walked (signal : BlockchainSignal.t) (exchange : Exchange)
    (book : OrderBook.t) : TradeDecision.t :=
  walk_side (BlockchainSignal.is_inflow signal) (BlockchainSignal.btc_amount signal) book
    (set_exchange exchange
       (set_is_short (BlockchainSignal.is_inflow signal) TradeDecision.default)).

(** [process_signal].  Each [if ... then reject ...] is one of the early
    returns, in the order of the source.  The local [fees_pct] is computed as
    in the source, where nothing reads it afterwards: the threshold is
    [config_.min_impact_pct()]. *)
Definition process_signal (h : t) (signal : BlockchainSignal.t)
    (now elapsed_ns : Z) : TradeDecision.t :=
  let config := config_ h in
  let decision := TradeDecision.default in
  let decision := set_is_short (BlockchainSignal.is_inflow signal) decision in
  let exchange := exchange_from_name (BlockchainSignal.exchange signal) in
  if Exchange_eqb exchange COUNT then
    reject decision (Reason.UnknownExchangeNamed (BlockchainSignal.exchange signal)) elapsed_ns
  else
  let decision := set_exchange exchange decision in
  if Qlt_bool (BlockchainSignal.btc_amount signal) (TradingConfig.min_deposit_btc config) then
    reject decision
      (Reason.DepositTooSmallOf (BlockchainSignal.btc_amount signal)
                                (TradingConfig.min_deposit_btc config)) elapsed_ns
  else if OrderBookCache.is_stale (cache_ h) exchange (TradingConfig.max_book_age_ms config) now then
    reject decision (Reason.StaleOlderThan (TradingConfig.max_book_age_ms config)) elapsed_ns
  else if negb (OrderBookCache.is_valid (cache_ h) exchange) then
    reject decision Reason.NotAvailable elapsed_ns
  else
  let book := OrderBookCache.get (cache_ h) exchange in
  let fees_pct := venue_fees_pct config exchange in
  let decision :=
    walk_side (BlockchainSignal.is_inflow signal) (BlockchainSignal.btc_amount signal) book decision in
  let min_required := TradingConfig.min_impact_pct config in
  if Qlt_bool (std_abs (PriceImpact.price_drop_pct (impact decision))) min_required then
    reject decision
      (Reason.ImpactBelowRequired
         (std_abs (PriceImpact.price_drop_pct (impact decision))) min_required) elapsed_ns
  else if Qlt_bool 0 (PriceImpact.volume_remaining (impact decision)) then
    reject decision
      (Reason.InsufficientDepthOf
         (PriceImpact.volume_filled (impact decision))
         (BlockchainSignal.btc_amount signal)) elapsed_ns
  else
  let decision :=
    set_exit_price
      (ImpactCalculator.calculate_exit_price (entry_price decision) (impact decision)
         (is_short decision) (TradingConfig.take_profit_ratio config)) decision in
  let decision := set_should_trade true decision in
  let decision :=
    set_reason
      (Reason.Trade (std_abs (PriceImpact.price_drop_pct (impact decision))) min_required
         (expected_return decision (TradingConfig.fees_pct config))) decision in
  record_timing decision elapsed_ns.

Definition quick_filter (h : t) (exchange_name : string) (btc_amount : double)
    (now : Z) : bool :=
  if Qlt_bool btc_amount (TradingConfig.min_deposit_btc (config_ h)) then false
  else
    let exchange := exchange_from_name exchange_name in
    if Exchange_eqb exchange COUNT then false
    else
      OrderBookCache.is_valid (cache_ h) exchange
      && negb (OrderBookCache.is_stale (cache_ h) exchange
                 (TradingConfig.max_book_age_ms (config_ h)) now).

Definition config (h : t) : TradingConfig.t := config_ h.

Definition set_config (h : t) (config : TradingConfig.t) : t :=
  mk (cache_ h) config.

(** The [switch (inst_type)] of [process_instrument_signal], on the pair of
    locals [(adjusted_impact, adjusted_fees)]. *)
Definition adjust (inst_type : InstrumentType) (inst_data : InstrumentData.t)
    (decision : TradeDecision.t) (adjusted_impact adjusted_fees : double)
    : double * double :=
  match inst_type with
  | SPOT => (adjusted_impact, adjusted_fees)
  | MARGIN =>
      (adjusted_impact,
       adjusted_fees + std_abs (InstrumentData.interest_rate_long inst_data) * 4)
  | PERPETUAL =>
      (adjusted_impact,
       adjusted_fees + std_abs (InstrumentData.funding_rate inst_data) * 100)
  | FUTURES =>
      if negb (is_short decision) && Qlt_bool (InstrumentData.basis inst_data) 0 then
        (adjusted_impact
         + std_abs (InstrumentData.basis inst_data / entry_price decision * 100),
         adjusted_fees)
      else if is_short decision && Qlt_bool 0 (InstrumentData.basis inst_data) then
        (adjusted_impact
         + std_abs (InstrumentData.basis inst_data / entry_price decision * 100),
         adjusted_fees)
      else (adjusted_impact, adjusted_fees)
  | OPTIONS =>
      let adjusted_impact :=
        if Qlt_bool 0.01 (std_abs (InstrumentData.delta inst_data))
        then adjusted_impact * std_abs (InstrumentData.delta inst_data)
        else adjusted_impact in
      (adjusted_impact, adjusted_fees + std_abs (InstrumentData.theta inst_data) / 24)
  | INVERSE =>
      let adjusted_impact :=
        if Qlt_bool 1 adjusted_impact then adjusted_impact * 1.5 else adjusted_impact in
      (adjusted_impact,
       adjusted_fees + std_abs (InstrumentData.funding_rate inst_data) * 100)
  | LEVERAGED_TOKEN =>
      (adjusted_impact * InstrumentData.target_leverage inst_data, adjusted_fees)
  | INST_COUNT => (adjusted_impact, adjusted_fees)
  end.

(** [process_instrument_signal], with its early returns in the order of the
    source. *)
Definition process_instrument_signal (h : t) (signal : BlockchainSignal.t)
    (inst_type : InstrumentType) (inst_data : InstrumentData.t)
    (now elapsed_ns : Z) : TradeDecision.t :=
  let config := config_ h in
  let decision := TradeDecision.default in
  let decision := set_is_short (BlockchainSignal.is_inflow signal) decision in
  let exchange := exchange_from_name (BlockchainSignal.exchange signal) in
  if Exchange_eqb exchange COUNT then
    reject decision Reason.UnknownExchange elapsed_ns
  else
  let decision := set_exchange exchange decision in
  if Qlt_bool (BlockchainSignal.btc_amount signal) (TradingConfig.min_deposit_btc config) then
    reject decision Reason.DepositTooSmall elapsed_ns
  else if negb (OrderBook.is_valid (InstrumentData.book inst_data)) then
    reject decision Reason.NotAvailable elapsed_ns
  else if (TradingConfig.max_book_age_ms config <? InstrumentData.age_ms now inst_data)%Z then
    reject decision Reason.Stale elapsed_ns
  else
  let base_fees_pct := venue_fees_pct config exchange in
  let decision :=
    walk_side (BlockchainSignal.is_inflow signal) (BlockchainSignal.btc_amount signal)
      (InstrumentData.book inst_data) decision in
  if Qlt_bool 0 (PriceImpact.volume_remaining (impact decision)) then
    reject decision Reason.InsufficientDepth elapsed_ns
  else
  let adjusted_impact := std_abs (PriceImpact.price_drop_pct (impact decision)) in
  let adjusted_fees := base_fees_pct in
  let inst_name := instrument_name inst_type in
  let '(adjusted_impact, adjusted_fees) :=
    adjust inst_type inst_data decision adjusted_impact adjusted_fees in
  let min_required := adjusted_fees * TradingConfig.min_impact_multiple config in
  if Qlt_bool adjusted_impact min_required then
    reject decision (Reason.InstImpactBelowRequired inst_name adjusted_impact min_required)
      elapsed_ns
  else
  let decision := set_should_trade true decision in
  let decision :=
    set_exit_price
      (ImpactCalculator.calculate_exit_price (entry_price decision) (impact decision)
         (is_short decision) (TradingConfig.take_profit_ratio config)) decision in
  let decision :=
    set_reason
      (Reason.InstTrade inst_name adjusted_impact min_required
         (adjusted_impact - adjusted_fees)) decision in
  record_timing decision elapsed_ns.

End SignalHandler.

(* ====================================================================== *)
(** * exchange_handlers/deribit.hpp *)
(* ====================================================================== *)

(** A [std::string] is a [string]; [std::string::npos] is [None].
    [s.find(c, pos)] is [String.index pos c s] and [s.substr(pos, n)] is
    [String.substring pos n s]; every call of [substr] in the handler has
    [pos <= s.size()], where the two agree.  [std::strtod] belongs to the C
    library and is the parameter [strtod] of the parsing functions.  The
    [int] nesting depth of [find_matching_bracket] is an integer without
    bound. *)

Module DeribitHandler.

Definition npos : option nat := None.

(** [s.find(c, pos)] for a character [c]. *)
Definition find_char (s : string) (c : ascii) (pos : nat) : option nat :=
  String.index pos (String c EmptyString) s.

(** [s.find(pattern)] *)
Definition find_text (s pattern : string) : option nat := String.index 0 pattern s.

(** [s.substr(pos)] *)
Definition substr_from (s : string) (pos : nat) : string :=
  String.substring pos (String.length s - pos) s.

(** The loop [for (i = start + 1; i < s.size(); ++i)] of
    [find_matching_bracket]: [rest] is the text from index [i] on. *)
Fixpoint bracket_scan (rest : string) (i : nat) (depth : Z) : option nat :=
  match rest with
  | EmptyString => npos
  | String c rest' =>
      if Ascii.eqb c "[" then bracket_scan rest' (S i) (depth + 1)%Z
      else if Ascii.eqb c "]" then
        let depth := (depth - 1)%Z in
        if (depth =? 0)%Z then Some i else bracket_scan rest' (S i) depth
      else bracket_scan rest' (S i) depth
  end.

Definition find_matching_bracket (s : string) (start : option nat) : option nat :=
  match start with
  | None => npos
  | Some start =>
      match String.get start s with
      | Some c =>
          if Ascii.eqb c "[" then bracket_scan (substr_from s (S start)) (S start) 1%Z
          else npos
      | None => npos
      end
  end.

Section Parsing.

Variable strtod : string -> double.

(** The [while] loop of [parse_numeric_array], entered at [pos]; [fuel]
    bounds the number of iterations, each of which moves [pos] forward. *)
Fixpoint parse_numeric_array_loop (fuel : nat) (arr : string) (pos : nat)
    (levels : list PriceLevel.t) : list PriceLevel.t :=
  match fuel with
  | O => levels
  | S fuel' =>
      if (pos <? String.length arr)%nat && (length levels <? MAX_BOOK_LEVELS)%nat then
        match find_char arr "[" pos with
        | None => levels
        | Some inner_start =>
            match find_char arr "]" inner_start with
            | None => levels
            | Some inner_end =>
                let inner :=
                  String.substring (inner_start + 1) (inner_end - inner_start - 1) arr in
                let levels :=
                  match find_char inner "," 0 with
                  | Some comma =>
                      let price := strtod (String.substring 0 comma inner) in
                      let amount := strtod (substr_from inner (comma + 1)) in
                      if Qlt_bool 0 price && Qlt_bool 0 amount
                      then levels ++ [PriceLevel.mk price amount]
                      else levels
                  | None => levels
                  end in
                parse_numeric_array_loop fuel' arr (inner_end + 1) levels
            end
        end
      else levels
  end.

Definition parse_numeric_array (arr : string) (levels : list PriceLevel.t)
    : list PriceLevel.t :=
  parse_numeric_array_loop (String.length arr) arr 0 levels.

(** One side of [parse_book_data]: the array that follows [key]. *)
Definition parse_side (json key : string) (levels : list PriceLevel.t)
    : list PriceLevel.t :=
  match find_text json key with
  | None => levels
  | Some key_pos =>
      let arr_start := find_char json "[" key_pos in
      let arr_end := find_matching_bracket json arr_start in
      match arr_start, arr_end with
      | Some arr_start, Some arr_end =>
          parse_numeric_array
            (String.substring arr_start (arr_end - arr_start + 1) json) levels
      | _, _ => levels
      end
  end.

Definition dquote : ascii := "034".

Definition quoted (name : string) : string :=
  String dquote (name ++ String dquote EmptyString).

Definition parse_book_data (json : string) (book : OrderBook.t) : bool * OrderBook.t :=
  let book := OrderBook.set_bids [] book in
  let book := OrderBook.set_asks [] book in
  let book := OrderBook.set_bids (parse_side json (quoted "bids") (OrderBook.bids book)) book in
  let book := OrderBook.set_asks (parse_side json (quoted "asks") (OrderBook.asks book)) book in
  (OrderBook.is_valid book, book).

Definition parse_rest_response (json : string) (book : OrderBook.t) : bool * OrderBook.t :=
  match find_text json (quoted "result") with
  | None => (false, book)
  | Some result_pos => parse_book_data (substr_from json result_pos) book
  end.

Definition parse_ws_message (json : string) (book : OrderBook.t) : bool * OrderBook.t :=
  match find_text json (quoted "channel" ++ ":" ++ String dquote "book.BTC-PERPETUAL") with
  | None => (false, book)
  | Some _ =>
      match find_text json (quoted "data") with
      | None => (false, book)
      | Some data_pos => parse_book_data (substr_from json data_pos) book
      end
  end.

End Parsing.

End DeribitHandler.

(* ====================================================================== *)
(** * Reference definitions taken from the specification *)
(* ====================================================================== *)

(** The walk of section 4.2, written from its description rather than from
    the code: the list of levels touched with the quantity taken from each,
    and every output as a function of that list. *)

Module SpecWalk.

(** Levels are consumed in order while [remaining > 0], with
    [take = min(remaining, level.volume)]. *)
Fixpoint takes (remaining : Q) (levels : list PriceLevel.t)
    : list (PriceLevel.t * Q) :=
  match levels with
  | [] => []
  | level :: rest =>
      if Qlt_bool 0 remaining then
        let take := Qmin remaining (PriceLevel.volume level) in
        (level, take) :: takes (remaining - take) rest
      else []
  end.

(** Sum of [price * take]. *)
Fixpoint cost (ts : list (PriceLevel.t * Q)) : Q :=
  match ts with
  | [] => 0
  | (level, take) :: rest => PriceLevel.price level * take + cost rest
  end.

(** Sum of the takes. *)
Fixpoint filled (ts : list (PriceLevel.t * Q)) : Q :=
  match ts with
  | [] => 0
  | (_, take) :: rest => take + filled rest
  end.

(** Price of the last level touched, [start] when none was. *)
Definition last_touched (start : Q) (ts : list (PriceLevel.t * Q)) : Q :=
  List.last (map (fun x => PriceLevel.price (fst x)) ts) start.

(** Empty side or [qty <= 0]: [volume_remaining = qty], the rest zero. *)
Definition nothing_filled (qty : Q) : PriceImpact.t :=
  PriceImpact.mk 0 0 0 0 0 qty 0 0%Z.

(** The walk, with the percentage formula [pct start end] left open. *)
Definition walk_with (pct : Q -> Q -> Q) (qty : Q)
    (levels : list PriceLevel.t) : PriceImpact.t :=
  match levels with
  | [] => nothing_filled qty
  | top :: _ =>
      if Qle_bool qty 0 then nothing_filled qty
      else
        let ts := takes qty levels in
        let start := PriceLevel.price top in
        let end_ := last_touched start ts in
        {| PriceImpact.start_price := start;
           PriceImpact.end_price := end_;
           PriceImpact.vwap :=
             if Qlt_bool 0 (filled ts) then cost ts / filled ts else start;
           PriceImpact.price_drop_pct := pct start end_;
           PriceImpact.volume_filled := filled ts;
           PriceImpact.volume_remaining := qty - filled ts;
           PriceImpact.total_cost := cost ts;
           PriceImpact.levels_eaten := Z.of_nat (length ts) |}
  end.

(** [price_drop_pct <- (start - end) / start * 100] *)
Definition sell_pct (start end_ : Q) : Q := (start - end_) / start * 100.

(** [price_drop_pct <- -((end - start) / start * 100)] *)
Definition buy_pct (start end_ : Q) : Q := - ((end_ - start) / start * 100).

Definition sell_walk : Q -> list PriceLevel.t -> PriceImpact.t := walk_with sell_pct.
Definition buy_walk : Q -> list PriceLevel.t -> PriceImpact.t := walk_with buy_pct.

(** The same formulas, computed only for a strictly positive start price and
    zero otherwise. *)
Definition guarded (pct : Q -> Q -> Q) (start end_ : Q) : Q :=
  if Qlt_bool 0 start then pct start end_ else 0.

Definition sell_walk_guarded : Q -> list PriceLevel.t -> PriceImpact.t :=
  walk_with (guarded sell_pct).
Definition buy_walk_guarded : Q -> list PriceLevel.t -> PriceImpact.t :=
  walk_with (guarded buy_pct).

End SpecWalk.

(** Two results agree when their fields are equal as numbers. *)
Definition impact_equiv (a b : PriceImpact.t) : Prop :=
  PriceImpact.start_price a == PriceImpact.start_price b
  /\ PriceImpact.end_price a == PriceImpact.end_price b
  /\ PriceImpact.vwap a == PriceImpact.vwap b
  /\ PriceImpact.price_drop_pct a == PriceImpact.price_drop_pct b
  /\ PriceImpact.volume_filled a == PriceImpact.volume_filled b
  /\ PriceImpact.volume_remaining a == PriceImpact.volume_remaining b
  /\ PriceImpact.total_cost a == PriceImpact.total_cost b
  /\ PriceImpact.levels_eaten a = PriceImpact.levels_eaten b.

(** Order and positivity of one side of a book. *)
Fixpoint descending (levels : list PriceLevel.t) : Prop :=
  match levels with
  | [] => True
  | a :: rest =>
      match rest with
      | [] => True
      | b :: _ => PriceLevel.price b <= PriceLevel.price a
      end /\ descending rest
  end.


Definition positive_levels (levels : list PriceLevel.t) : Prop :=
  Forall (fun l => 0 < PriceLevel.price l /\ 0 < PriceLevel.volume l) levels.

(* ====================================================================== *)
(** * Scenarios *)
(* ====================================================================== *)

(** The bid ladder of the first end-to-end scenario and the ask ladder of the
    third. *)
Definition scenario_bids : list PriceLevel.t :=
  [PriceLevel.mk 87000 10; PriceLevel.mk 86950 15;
   PriceLevel.mk 86900 20; PriceLevel.mk 86850 25].

Definition scenario_asks : list PriceLevel.t :=
  [PriceLevel.mk 87010 1; PriceLevel.mk 87060 1; PriceLevel.mk 87200 5].

Definition scenario_book : OrderBook.t :=
  OrderBook.mk scenario_bids scenario_asks 0%Z 0%N.

(** A handler with the default configuration over a cache holding [book]
    for [ex], written at time 0. *)
Definition handler_with (ex : Exchange) (book : OrderBook.t) : SignalHandler.t :=
  SignalHandler.mk
    (OrderBookCache.update OrderBookCache.empty ex book 0%Z)
    TradingConfig.default.

(** A deposit of [qty] observed on [venue]. *)
Definition inflow (venue : string) (qty : Q) : BlockchainSignal.t :=
  BlockchainSignal.mk venue true qty 0%Z 0%Z.

(** Instrument data carrying [book], stamped at time 0. *)
Definition instrument_with (book : OrderBook.t) : InstrumentData.t :=
  InstrumentData.set_last_price (OrderBook.mid_price book)
    (InstrumentData.set_book book InstrumentData.default).

(** A two-level book whose full bid side moves the price by 0.5%. *)
Definition half_percent_book : OrderBook.t :=
  OrderBook.mk [PriceLevel.mk 100 10; PriceLevel.mk 99.5 10]
               [PriceLevel.mk 101 1] 0%Z 0%N.

(** The book of [test_cache_basic]. *)
Definition test_book : OrderBook.t :=
  OrderBook.mk [PriceLevel.mk 87000 1; PriceLevel.mk 86950 2]
               [PriceLevel.mk 87010 0.5; PriceLevel.mk 87050 1.5] 0%Z 0%N.

(** One millisecond and six seconds after time 0, in nanoseconds. *)
Definition one_ms : Z := 1000000%Z.
Definition six_seconds : Z := 6000000000%Z.

(** A stand-in for [strtod] on the texts of the scenarios: the value of the
    leading decimal digits, 0 when the text does not start with a digit. *)
Definition digit_value (c : ascii) : option Z :=
  let n := Z.of_nat (nat_of_ascii c) in
  if (48 <=? n)%Z && (n <=? 57)%Z then Some (n - 48)%Z else None.

Fixpoint leading_digits (s : string) (acc : Z) : Z :=
  match s with
  | EmptyString => acc
  | String c rest =>
      match digit_value c with
      | Some d => leading_digits rest (10 * acc + d)%Z
      | None => acc
      end
  end.

Definition decimal_prefix (s : string) : Q := inject_Z (leading_digits s 0).

(** A REST answer in the format the handler documents. *)
Definition deribit_answer : string :=
  "{" ++ DeribitHandler.quoted "result" ++ ":{"
      ++ DeribitHandler.quoted "bids" ++ ":[[87000,1],[86950,2],[86900,3]],"
      ++ DeribitHandler.quoted "asks" ++ ":[[87010,1],[87050,2]]}}".

(* ====================================================================== *)
(** * Comparisons on doubles *)
(* ====================================================================== *)

Lemma Qlt_bool_iff (a b : Q) : Qlt_bool a b = true <-> a < b.
Proof.
  unfold Qlt_bool. rewrite negb_true_iff.
  destruct (Qle_bool b a) eqn:E.
  - apply Qle_bool_iff in E. split; [discriminate | intros H; lra].
  - split; [intros _ | reflexivity].
    apply Qnot_le_lt. intros H. apply Qle_bool_iff in H. congruence.
Qed.

Lemma Qlt_bool_false_iff (a b : Q) : Qlt_bool a b = false <-> b <= a.
Proof.
  destruct (Qlt_bool a b) eqn:E.
  - apply Qlt_bool_iff in E. split; [discriminate | intros H; lra].
  - split; [intros _ | reflexivity].
    apply Qnot_lt_le. intros H. apply Qlt_bool_iff in H. congruence.
Qed.

Lemma Qle_bool_false_iff (a b : Q) : Qle_bool a b = false <-> b < a.
Proof.
  destruct (Qle_bool a b) eqn:E.
  - apply Qle_bool_iff in E. split; [discriminate | intros H; lra].
  - split; [intros _ | reflexivity].
    apply Qnot_le_lt. intros H. apply Qle_bool_iff in H. congruence.
Qed.

Lemma Qlt_bool_proper (a a' : Q) (Ha : a == a') (b b' : Q) (Hb : b == b') :
  Qlt_bool a b = Qlt_bool a' b'.
Proof. unfold Qlt_bool. now rewrite Ha, Hb. Qed.

(** [std::min] and the mathematical minimum pick the same argument. *)
Lemma std_min_Qmin (a b : Q) : std_min a b = Qmin a b.
Proof.
  unfold std_min, Qmin, GenericMinMax.gmin.
  destruct (Qlt_bool b a) eqn:E.
  - apply Qlt_bool_iff in E. apply Qgt_alt in E. now rewrite E.
  - apply Qlt_bool_false_iff in E.
    destruct (a ?= b) eqn:C; try reflexivity.
    apply Qgt_alt in C. lra.
Qed.

Lemma std_min_cases (a b : Q) :
  (b < a /\ std_min a b = b) \/ (a <= b /\ std_min a b = a).
Proof.
  unfold std_min. destruct (Qlt_bool b a) eqn:E.
  - left. split; [now apply Qlt_bool_iff | reflexivity].
  - right. split; [now apply Qlt_bool_false_iff | reflexivity].
Qed.

(* ====================================================================== *)
(** * The walk: refinement of the reference, and bounds *)
(* ====================================================================== *)

Lemma last_cons_default {A} (a d : A) (l : list A) :
  List.last (a :: l) d = List.last l a.
Proof.
  revert a d. induction l as [|b l IH]; intros a d; [reflexivity|].
  change (List.last (b :: l) d = List.last (b :: l) a).
  now rewrite (IH b d), (IH b a).
Qed.

Lemma last_touched_cons (start : Q) (level : PriceLevel.t) (take : Q)
    (ts : list (PriceLevel.t * Q)) :
  SpecWalk.last_touched start ((level, take) :: ts)
  = SpecWalk.last_touched (PriceLevel.price level) ts.
Proof. unfold SpecWalk.last_touched. cbn [map fst]. apply last_cons_default. Qed.

Lemma walk_refines_takes (levels : list PriceLevel.t) :
  forall (impact : PriceImpact.t) (remaining : Q),
    let r := ImpactCalculator.walk levels impact remaining in
    let ts := SpecWalk.takes remaining levels in
    PriceImpact.start_price (fst r) = PriceImpact.start_price impact
    /\ PriceImpact.vwap (fst r) = PriceImpact.vwap impact
    /\ PriceImpact.price_drop_pct (fst r) = PriceImpact.price_drop_pct impact
    /\ PriceImpact.volume_remaining (fst r) = PriceImpact.volume_remaining impact
    /\ PriceImpact.end_price (fst r)
       = SpecWalk.last_touched (PriceImpact.end_price impact) ts
    /\ PriceImpact.volume_filled (fst r)
       == PriceImpact.volume_filled impact + SpecWalk.filled ts
    /\ PriceImpact.total_cost (fst r)
       == PriceImpact.total_cost impact + SpecWalk.cost ts
    /\ PriceImpact.levels_eaten (fst r)
       = (PriceImpact.levels_eaten impact + Z.of_nat (length ts))%Z
    /\ snd r == remaining - SpecWalk.filled ts.
Proof.
  induction levels as [|level rest IH]; intros impact remaining.
  - simpl. repeat split; try reflexivity; try lra. lia.
  - cbn [ImpactCalculator.walk SpecWalk.takes]. unfold Qlt_bool.
    destruct (Qle_bool remaining 0) eqn:Hbreak; cbn [negb].
    + simpl. repeat split; try reflexivity; try lra. lia.
    + destruct impact as [sp ep vw pd vf vr tc le].
      unfold ImpactCalculator.eat_level. cbn -[SpecWalk.last_touched Qmin].
      rewrite std_min_Qmin.
      set (take := Qmin remaining (PriceLevel.volume level)).
      specialize (IH (PriceImpact.mk sp (PriceLevel.price level) vw pd (vf + take) vr
                        (tc + PriceLevel.price level * take) (le + 1)%Z)
                     (remaining - take)).
      cbn -[SpecWalk.last_touched Qmin] in IH.
      destruct IH as (H1 & H2 & H3 & H4 & H5 & H6 & H7 & H8 & H9).
      repeat split; try assumption.
      * rewrite H5. now rewrite last_touched_cons.
      * rewrite H6. ring.
      * rewrite H7. ring.
      * rewrite H8. cbn [length]. lia.
      * rewrite H9. ring.
Qed.

Lemma impact_equiv_nothing_filled (qty : Q) :
  impact_equiv (PriceImpact.set_volume_remaining qty PriceImpact.default)
               (SpecWalk.nothing_filled qty).
Proof. unfold impact_equiv. cbn. repeat split; reflexivity. Qed.

(** What the loop returns when started as both calculators start it. *)
Lemma walk_from_top (top : PriceLevel.t) (rest : list PriceLevel.t) (qty : Q) :
  let i0 :=
    PriceImpact.set_end_price
      (PriceImpact.start_price
         (PriceImpact.set_start_price (PriceLevel.price top) PriceImpact.default))
      (PriceImpact.set_start_price (PriceLevel.price top) PriceImpact.default) in
  let ts := SpecWalk.takes qty (top :: rest) in
  exists vf tc r,
    ImpactCalculator.walk (top :: rest) i0 qty
    = (PriceImpact.mk (PriceLevel.price top)
         (SpecWalk.last_touched (PriceLevel.price top) ts) 0 0 vf 0 tc
         (Z.of_nat (length ts)), r)
    /\ vf == SpecWalk.filled ts
    /\ tc == SpecWalk.cost ts
    /\ r == qty - SpecWalk.filled ts.
Proof.
  intros i0 ts. subst ts.
  pose proof (walk_refines_takes (top :: rest) i0 qty) as W.
  destruct (ImpactCalculator.walk (top :: rest) i0 qty)
    as [[sp ep vw pd vf vr tc le] r].
  cbn -[SpecWalk.takes SpecWalk.last_touched SpecWalk.filled SpecWalk.cost] in W.
  destruct W as (-> & -> & -> & -> & -> & Hvf & Htc & -> & Hr).
  exists vf, tc, r.
  split; [reflexivity|].
  split; [rewrite Hvf; ring|].
  split; [rewrite Htc; ring | exact Hr].
Qed.

Lemma sell_refines_guarded (qty : Q) (bids : list PriceLevel.t) :
  impact_equiv (ImpactCalculator.calculate_sell_impact qty bids)
               (SpecWalk.sell_walk_guarded qty bids).
Proof.
  unfold ImpactCalculator.calculate_sell_impact, SpecWalk.sell_walk_guarded,
    SpecWalk.walk_with.
  destruct bids as [|top rest]; [apply impact_equiv_nothing_filled|].
  destruct (Qle_bool qty 0); [apply impact_equiv_nothing_filled|].
  destruct (walk_from_top top rest qty) as (vf & tc & r & -> & Hvf & Htc & Hr).
  cbn -[SpecWalk.takes SpecWalk.last_touched SpecWalk.filled SpecWalk.cost].
  rewrite (Qlt_bool_proper 0 0 (Qeq_refl 0) _ _ Hvf).
  unfold impact_equiv, SpecWalk.guarded.
  destruct (Qlt_bool 0 (SpecWalk.filled _));
    cbn -[SpecWalk.takes SpecWalk.last_touched SpecWalk.filled SpecWalk.cost];
    destruct (Qlt_bool 0 (PriceLevel.price top));
    cbn -[SpecWalk.takes SpecWalk.last_touched SpecWalk.filled SpecWalk.cost];
    repeat split; try reflexivity; try assumption;
    rewrite Htc, Hvf; reflexivity.
Qed.

Lemma buy_refines_guarded (qty : Q) (asks : list PriceLevel.t) :
  impact_equiv (ImpactCalculator.calculate_buy_impact qty asks)
               (SpecWalk.buy_walk_guarded qty asks).
Proof.
  unfold ImpactCalculator.calculate_buy_impact, SpecWalk.buy_walk_guarded,
    SpecWalk.walk_with.
  destruct asks as [|top rest]; [apply impact_equiv_nothing_filled|].
  destruct (Qle_bool qty 0); [apply impact_equiv_nothing_filled|].
  destruct (walk_from_top top rest qty) as (vf & tc & r & -> & Hvf & Htc & Hr).
  cbn -[SpecWalk.takes SpecWalk.last_touched SpecWalk.filled SpecWalk.cost].
  rewrite (Qlt_bool_proper 0 0 (Qeq_refl 0) _ _ Hvf).
  unfold impact_equiv, SpecWalk.guarded.
  destruct (Qlt_bool 0 (SpecWalk.filled _));
    cbn -[SpecWalk.takes SpecWalk.last_touched SpecWalk.filled SpecWalk.cost];
    destruct (Qlt_bool 0 (PriceLevel.price top));
    cbn -[SpecWalk.takes SpecWalk.last_touched SpecWalk.filled SpecWalk.cost];
    repeat split; try reflexivity; try assumption;
    rewrite Htc, Hvf; reflexivity.
Qed.

(** ** Bounds along a sorted side *)






(** With a strictly positive best price the guard is transparent. *)
Lemma guarded_positive_start (pct : Q -> Q -> Q) (qty : Q)
    (top : PriceLevel.t) (rest : list PriceLevel.t) :
  0 < PriceLevel.price top ->
  SpecWalk.walk_with (SpecWalk.guarded pct) qty (top :: rest)
  = SpecWalk.walk_with pct qty (top :: rest).
Proof.
  intros Hp. unfold SpecWalk.walk_with, SpecWalk.guarded.
  now rewrite (proj2 (Qlt_bool_iff 0 (PriceLevel.price top)) Hp).
Qed.

(* ====================================================================== *)
(** * The assertions of test_main.cpp, replayed on the embedding *)
(* ====================================================================== *)

Example test_sell_impact :
  let impact := ImpactCalculator.calculate_sell_impact 50 scenario_bids in
  PriceImpact.start_price impact == 87000
  /\ PriceImpact.end_price impact == 86850
  /\ PriceImpact.volume_filled impact == 50
  /\ PriceImpact.volume_remaining impact == 0
  /\ PriceImpact.levels_eaten impact = 4%Z
  /\ PriceImpact.total_cost impact == 10 * 87000 + 15 * 86950 + 20 * 86900 + 5 * 86850
  /\ PriceImpact.vwap impact
     == (10 * 87000 + 15 * 86950 + 20 * 86900 + 5 * 86850) / 50.
Proof. cbn zeta. repeat split; reflexivity. Qed.

Example test_profitability :
  ImpactCalculator.is_profitable 0.25 0.10 2 = true
  /\ ImpactCalculator.is_profitable 0.15 0.10 2 = false
  /\ ImpactCalculator.is_profitable 0.20 0.10 2 = true
  /\ ImpactCalculator.leveraged_return 0.25 0.10 100 == 15.
Proof. repeat split; reflexivity. Qed.

Example test_exit_price :
  let impact := PriceImpact.set_price_drop_pct 0.5 PriceImpact.default in
  ImpactCalculator.calculate_exit_price 87000 impact true 0.8 == 86652
  /\ ImpactCalculator.calculate_exit_price 87000 impact false 0.8 == 87348.
Proof. cbn zeta. split; reflexivity. Qed.

Example test_cache_basic :
  let cache := OrderBookCache.update OrderBookCache.empty GEMINI test_book 0%Z in
  OrderBookCache.is_valid OrderBookCache.empty GEMINI = false
  /\ OrderBookCache.is_valid cache GEMINI = true
  /\ OrderBookCache.is_stale cache GEMINI 1000 one_ms = false
  /\ OrderBookCache.get_best_bid cache GEMINI == 87000
  /\ OrderBookCache.get_best_ask cache GEMINI == 87010.
Proof. cbn zeta. repeat split; reflexivity. Qed.

(** The same assertions on binary64 numbers: the totals of the scenario are
    integers and exact, and 0.10 * 2.0 is exactly the double 0.20. *)
#[warnings="-inexact-float"]
Example test_sell_impact_binary64 :
  let impact :=
    Binary64.calculate_sell_impact 50
      [Binary64.mkLevel 87000 10; Binary64.mkLevel 86950 15;
       Binary64.mkLevel 86900 20; Binary64.mkLevel 86850 25] in
  Binary64.volume_filled impact = 50%float
  /\ Binary64.volume_remaining impact = 0%float
  /\ Binary64.end_price impact = 86850%float
  /\ Binary64.total_cost impact = 4346500%float
  /\ Binary64.vwap impact = 86930%float
  /\ PrimFloat.ltb 0.17241 (Binary64.price_drop_pct impact) = true
  /\ PrimFloat.ltb (Binary64.price_drop_pct impact) 0.17242 = true
  /\ Binary64.levels_eaten impact = 4%Z.
Proof. cbn zeta. repeat split; vm_compute; reflexivity. Qed.

#[warnings="-inexact-float"]
Example test_profitability_binary64 :
  Binary64.is_profitable 0.25 0.10 2 = true
  /\ Binary64.is_profitable 0.15 0.10 2 = false
  /\ Binary64.is_profitable 0.20 0.10 2 = true
  /\ Binary64.member_is_profitable
       (Binary64.mkImpact 0 0 0 0.20 0 0 0 0%Z) 0.10 2 = false.
Proof. repeat split; vm_compute; reflexivity. Qed.

(* ====================================================================== *)
(** * Claims about the impact calculator *)
(* ====================================================================== *)

(** C1 (as amended).  For every quantity and every list of levels,
    [calculate_sell_impact] agrees field by field with the sell walk of the
    specification, and [calculate_buy_impact] with the buy walk, where in both
    the percentage is computed only when the start price is strictly
    positive and is zero otherwise -- the guard [start_price > 0.0] of the
    code.  Sortedness of the side is not needed. *)
Theorem C1_walks_refine_guarded_reference (qty : Q) (levels : list PriceLevel.t) :
  impact_equiv (ImpactCalculator.calculate_sell_impact qty levels)
               (SpecWalk.sell_walk_guarded qty levels)
  /\ impact_equiv (ImpactCalculator.calculate_buy_impact qty levels)
                  (SpecWalk.buy_walk_guarded qty levels).
Proof. split; [apply sell_refines_guarded | apply buy_refines_guarded]. Qed.

(** C1, counterexample to the claim as stated: on the descending side
    [(-1, 5), (-2, 5)] with quantity 10 the reference gives
    [price_drop_pct = -100] and the code leaves it at 0. *)
Lemma C1_counterexample_nonpositive_start :
  let bids := [PriceLevel.mk (-1) 5; PriceLevel.mk (-2) 5] in
  descending bids
  /\ PriceImpact.price_drop_pct (ImpactCalculator.calculate_sell_impact 10 bids) == 0
  /\ PriceImpact.price_drop_pct (SpecWalk.sell_walk 10 bids) == -100
  /\ ~ impact_equiv (ImpactCalculator.calculate_sell_impact 10 bids)
                    (SpecWalk.sell_walk 10 bids).
Proof.
  cbn zeta. split; [|split; [|split]].
  - cbn. split; [lra | tauto].
  - reflexivity.
  - reflexivity.
  - intros (_ & _ & _ & H & _). vm_compute in H. discriminate H.
Qed.

(** On binary64 numbers the sum of what was filled and what remains is the
    quantity only up to rounding: selling 0.9 into a single level of 0.3
    leaves 0.9 - 0.3 = 0.6000000000000001. *)
#[warnings="-inexact-float"]
Example rounded_volume_sum :
  let sold :=
    Binary64.calculate_sell_impact 0.9%float [Binary64.mkLevel 87000 0.3] in
  PrimFloat.eqb
    (PrimFloat.add (Binary64.volume_filled sold) (Binary64.volume_remaining sold))
    0.9%float = false.
Proof. vm_compute. reflexivity. Qed.






(** C6.  The static helper accepts exactly when
    [|impact_pct| >= fees_pct * safety_multiple]; the member function of
    [PriceImpact] accepts exactly when the inequality is strict, so at
    [|impact| = fees * safety] -- 0.20 against 2 x 0.10, the case asserted
    profitable by [test_profitability] -- the helper answers true and the
    member false. *)
Theorem C6_is_profitable_boundary :
  (forall impact_pct fees_pct safety_multiple : Q,
      ImpactCalculator.is_profitable impact_pct fees_pct safety_multiple = true
      <-> fees_pct * safety_multiple <= Qabs impact_pct)
  /\ (forall (i : PriceImpact.t) (fees_pct safety_multiple : Q),
         PriceImpact.is_profitable i fees_pct safety_multiple = true
         <-> fees_pct * safety_multiple < Qabs (PriceImpact.price_drop_pct i))
  /\ ImpactCalculator.is_profitable 0.20 0.10 2 = true
  /\ PriceImpact.is_profitable
       (PriceImpact.set_price_drop_pct 0.20 PriceImpact.default) 0.10 2 = false.
Proof.
  split; [|split; [|split]].
  - intros. unfold ImpactCalculator.is_profitable, std_abs. apply Qle_bool_iff.
  - intros. unfold PriceImpact.is_profitable, std_abs. apply Qlt_bool_iff.
  - reflexivity.
  - reflexivity.
Qed.

(** C4 (as amended).  Selling 50 into the four-level ladder fills 50, ends
    at 86850 with a drop of (87000 - 86850) / 87000 * 100, about 0.17241,
    costs 4,346,500 in total at a VWAP of 86930; on a venue charging 0.10%
    both handlers reject it, the impact being below the required 0.20. *)
Theorem C4_scenario_sell_50 :
  let i := ImpactCalculator.calculate_sell_impact 50 scenario_bids in
  PriceImpact.volume_filled i == 50
  /\ PriceImpact.volume_remaining i == 0
  /\ PriceImpact.end_price i == 86850
  /\ PriceImpact.price_drop_pct i == (87000 - 86850) / 87000 * 100
  /\ 0.17241 < PriceImpact.price_drop_pct i < 0.17242
  /\ PriceImpact.total_cost i == 10 * 87000 + 15 * 86950 + 20 * 86900 + 5 * 86850
  /\ PriceImpact.total_cost i == 4346500
  /\ PriceImpact.vwap i == 86930
  /\ fee_pct (get_config BINANCE) * 100 == 0.10
  /\ (forall elapsed_ns : Z,
         let d := SignalHandler.process_signal (handler_with BINANCE scenario_book)
                    (inflow "binance" 50) one_ms elapsed_ns in
         TradeDecision.should_trade d = false
         /\ TradeDecision.impact d = i
         /\ TradeDecision.processing_ns d = elapsed_ns
         /\ exists impact required,
              TradeDecision.reason d = Reason.ImpactBelowRequired impact required
              /\ impact == PriceImpact.price_drop_pct i
              /\ required == 0.20
              /\ impact < required)
  /\ (forall elapsed_ns : Z,
         let d := SignalHandler.process_instrument_signal
                    (handler_with BINANCE scenario_book)
                    (inflow "binance" 50) SPOT (instrument_with scenario_book)
                    one_ms elapsed_ns in
         TradeDecision.should_trade d = false
         /\ exists impact required,
              TradeDecision.reason d = Reason.InstImpactBelowRequired "spot" impact required
              /\ impact == PriceImpact.price_drop_pct i
              /\ required == 0.20
              /\ impact < required).
Proof.
  cbn zeta.
  repeat match goal with |- _ /\ _ => split end; try reflexivity.
  - intros elapsed_ns. 
    split; [reflexivity|]. split; [reflexivity|]. split; [reflexivity|].
    eexists _, _. split; [vm_compute; reflexivity|].
    split; [reflexivity|]. split; reflexivity.
  - intros elapsed_ns.
    split; [reflexivity|].
    eexists _, _. split; [vm_compute; reflexivity|].
    split; [reflexivity|]. split; reflexivity.
Qed.

(** C4, counterexample to the claim as stated: the total is not 4,346,250
    (and the VWAP not 86925). *)
Lemma C4_counterexample_stated_totals :
  let i := ImpactCalculator.calculate_sell_impact 50 scenario_bids in
  ~ (PriceImpact.volume_filled i == 50
     /\ PriceImpact.end_price i == 86850
     /\ PriceImpact.total_cost i == 4346250
     /\ PriceImpact.vwap i == 86925).
Proof.
  cbn zeta. intros (_ & _ & H & _). vm_compute in H. discriminate H.
Qed.

(* ====================================================================== *)
(** * Facts about counters, venues and the caches *)
(* ====================================================================== *)

(** * Counters *)

Lemma u64_incr_no_wrap (n : N) :
  (n < U64_MODULUS - 1)%N -> u64_incr n = (n + 1)%N.
Proof.
  intros H. unfold u64_incr. apply N.mod_small.
  unfold U64_MODULUS in *. lia.
Qed.

Lemma u64_incr_wraps : u64_incr (U64_MODULUS - 1) = 0%N.
Proof. reflexivity. Qed.

(** * Venues *)

Lemma exchange_of_index_index (ex : Exchange) :
  exchange_of_index (exchange_index ex) = ex.
Proof. destruct ex; reflexivity. Qed.

Lemma exchange_index_inj (a b : Exchange) :
  exchange_index a = exchange_index b -> a = b.
Proof.
  intros H. rewrite <- (exchange_of_index_index a), <- (exchange_of_index_index b).
  now rewrite H.
Qed.

Lemma out_of_range_iff (ex : Exchange) :
  OrderBookCache.out_of_range (exchange_index ex) = true <-> ex = COUNT.
Proof. destruct ex; cbn; split; first [reflexivity | discriminate]. Qed.

Lemma in_range (ex : Exchange) :
  ex <> COUNT ->
  OrderBookCache.out_of_range (exchange_index ex) = false
  /\ (exchange_index ex < exchange_index COUNT)%nat.
Proof.
  intros H. destruct (OrderBookCache.out_of_range (exchange_index ex)) eqn:E.
  - now apply out_of_range_iff in E.
  - split; [reflexivity|]. unfold OrderBookCache.out_of_range in E.
    apply Nat.leb_gt in E. exact E.
Qed.

Lemma Exchange_eqb_eq (a b : Exchange) : Exchange_eqb a b = true <-> a = b.
Proof.
  unfold Exchange_eqb. rewrite Nat.eqb_eq. split.
  - apply exchange_index_inj.
  - now intros ->.
Qed.

Lemma Exchange_eq_cases (a b : Exchange) : a = b \/ a <> b.
Proof.
  destruct (Exchange_eqb a b) eqn:E.
  - left. now apply Exchange_eqb_eq.
  - right. intros ->. now rewrite (proj2 (Exchange_eqb_eq b b) eq_refl) in E.
Qed.

(** * OrderBookCache *)

Section OrderBookCacheFacts.

Import OrderBookCache.

Lemma well_sized_empty : well_sized empty.
Proof. split; reflexivity. Qed.

Lemma bump_spec (c : t) (idx : nat) (b : OrderBook.t) :
  well_sized c -> (idx < exchange_index COUNT)%nat ->
  let c' := bump c idx b in
  well_sized c'
  /\ counter_at c' idx = u64_incr (counter_at c idx)
  /\ book_at c' idx = OrderBook.set_sequence (u64_incr (counter_at c idx)) b
  /\ (forall j, j <> idx ->
        counter_at c' j = counter_at c j /\ book_at c' j = book_at c j).
Proof.
  intros [Hb Hs] Hidx. unfold bump, well_sized, counter_at, book_at. cbn.
  rewrite !length_insert.
  repeat split; try assumption.
  - rewrite list_lookup_insert_eq by lia. reflexivity.
  - rewrite list_lookup_insert_eq by lia. reflexivity.
  - rewrite list_lookup_insert_ne by congruence. reflexivity.
  - rewrite list_lookup_insert_ne by congruence. reflexivity.
Qed.

Lemma update_as_bump (c : t) (ex : Exchange) (book : OrderBook.t) (now : Z) :
  ex <> COUNT ->
  update c ex book now = bump c (exchange_index ex) (OrderBook.set_timestamp now book).
Proof.
  intros H. unfold update, bump. now rewrite (proj1 (in_range ex H)).
Qed.

(** Every single-venue write is a [bump] of its slot. *)
Lemma run_as_bump (c : t) (o : op) (ex : Exchange) :
  target o = Some ex -> ex <> COUNT ->
  exists b, run c o = bump c (exchange_index ex) b.
Proof.
  intros Ht Hex. destruct (in_range ex Hex) as [Hr _].
  destruct o; cbn in Ht; inversion Ht; subst; cbn [run].
  - eexists. now apply update_as_bump.
  - eexists. unfold update_bids. rewrite Hr. reflexivity.
  - eexists. unfold update_asks. rewrite Hr. reflexivity.
  - eexists. unfold clear. rewrite Hr. reflexivity.
Qed.

Lemma clear_indices_spec (l : list nat) :
  forall c : t,
    well_sized c -> NoDup l -> (forall i, i ∈ l -> (i < exchange_index COUNT)%nat) ->
    let c' := fold_left clear_index l c in
    well_sized c'
    /\ (forall i, i ∈ l -> counter_at c' i = u64_incr (counter_at c i))
    /\ (forall i, i ∉ l -> counter_at c' i = counter_at c i).
Proof.
  induction l as [|k l IH]; intros c Hw Hnd Hin; cbn [fold_left].
  - split; [exact Hw|].
    split; [intros i Hi; now apply not_elem_of_nil in Hi | reflexivity].
  - apply NoDup_cons in Hnd as [Hk Hnd].
    assert (Hklt : (k < exchange_index COUNT)%nat) by (apply Hin; left).
    destruct (bump_spec c k (OrderBook.clear (book_at c k)) Hw Hklt)
      as (Hw' & Hck & _ & Hother).
    fold (clear_index c k) in Hw', Hck, Hother.
    destruct (IH (clear_index c k) Hw' Hnd) as (Hw'' & Hin' & Hout').
    { intros i Hi. apply Hin. now right. }
    split; [exact Hw''|]. split.
    + intros i Hi. apply elem_of_cons in Hi as [->|Hi].
      * rewrite Hout' by exact Hk. exact Hck.
      * rewrite Hin' by exact Hi.
        assert (i <> k) by (intros ->; contradiction).
        now rewrite (proj1 (Hother i H)).
    + intros i Hi. apply not_elem_of_cons in Hi as [Hne Hi].
      rewrite Hout' by exact Hi. now rewrite (proj1 (Hother i Hne)).
Qed.

Lemma clear_all_spec (c : t) :
  well_sized c ->
  well_sized (clear_all c)
  /\ forall ex, ex <> COUNT ->
       get_sequence (clear_all c) ex = u64_incr (get_sequence c ex).
Proof.
  intros Hw.
  destruct (clear_indices_spec (seq 0 (exchange_index COUNT)) c Hw) as (Hw' & Hin & _).
  { apply NoDup_seq. }
  { intros i Hi. apply elem_of_seq in Hi. lia. }
  split; [exact Hw'|].
  intros ex Hex. destruct (in_range ex Hex) as [Hr Hlt].
  unfold get_sequence. rewrite Hr. apply Hin. apply elem_of_seq. lia.
Qed.

Lemma run_well_sized (c : t) (o : op) : well_sized c -> well_sized (run c o).
Proof.
  intros Hw. destruct (target o) as [ex|] eqn:Ht.
  - destruct (Exchange_eqb ex COUNT) eqn:E.
    + apply Exchange_eqb_eq in E as ->.
      destruct o; cbn in Ht; inversion Ht; subst; exact Hw.
    + assert (Hex : ex <> COUNT)
        by (intros ->; now rewrite (proj2 (Exchange_eqb_eq COUNT COUNT) eq_refl) in E).
      destruct (run_as_bump c o ex Ht Hex) as [b ->].
      now apply bump_spec; [|apply in_range].
  - destruct o; try discriminate. now apply clear_all_spec.
Qed.

End OrderBookCacheFacts.

Lemma order_book_empty_get (ex : Exchange) :
  OrderBookCache.get OrderBookCache.empty ex = OrderBook.default
  /\ OrderBookCache.get_sequence OrderBookCache.empty ex = 0%N.
Proof. destruct ex; split; reflexivity. Qed.

Lemma order_book_discards_COUNT (c : OrderBookCache.t) (o : OrderBookCache.op) :
  OrderBookCache.target o = Some COUNT -> OrderBookCache.run c o = c.
Proof. intros Ht. destruct o; cbn in Ht; inversion Ht; subst; reflexivity. Qed.

(** * InstrumentCache *)

Lemma sequence_set_sequence (v : N) (d : InstrumentData.t) :
  InstrumentData.sequence (InstrumentData.set_sequence v d) = v.
Proof. destruct d; reflexivity. Qed.

Lemma type_set_sequence (v : N) (d : InstrumentData.t) :
  InstrumentData.type (InstrumentData.set_sequence v d) = InstrumentData.type d.
Proof. destruct d; reflexivity. Qed.

Lemma type_set_timestamp (v : Z) (d : InstrumentData.t) :
  InstrumentData.type (InstrumentData.set_timestamp v d) = InstrumentData.type d.
Proof. destruct d; reflexivity. Qed.

Lemma type_set_type (v : InstrumentType) (d : InstrumentData.t) :
  InstrumentData.type (InstrumentData.set_type v d) = v.
Proof. destruct d; reflexivity. Qed.

Section InstrumentCacheFacts.

Import InstrumentCache.

Lemma bounded_empty : bounded empty.
Proof. intros key d H. cbn in H. now rewrite lookup_empty in H. Qed.

Lemma sequence_at_bounded (c : t) (key : nat) :
  bounded c -> (sequence_at c key <= global_sequence_ c)%N.
Proof.
  intros Hb. unfold sequence_at. destruct (cache_ c !! key) as [d|] eqn:E.
  - now apply (Hb key).
  - lia.
Qed.

(** Storing under [key] a value stamped with the next counter value. *)
Lemma store_next (c : t) (key : nat) (d : InstrumentData.t) :
  bounded c ->
  (global_sequence_ c < U64_MODULUS - 1)%N ->
  let g := u64_incr (global_sequence_ c) in
  let c' := mk (<[key := InstrumentData.set_sequence g d]> (cache_ c)) g in
  global_sequence_ c' = (global_sequence_ c + 1)%N
  /\ sequence_at c' key = (global_sequence_ c + 1)%N
  /\ (sequence_at c key < sequence_at c' key)%N
  /\ (forall k, k <> key -> sequence_at c' k = sequence_at c k)
  /\ bounded c'.
Proof.
  intros Hb Hg. cbn zeta. rewrite (u64_incr_no_wrap _ Hg).
  assert (Hkey : sequence_at
            (mk (<[key := InstrumentData.set_sequence (global_sequence_ c + 1)%N d]> (cache_ c))
                (global_sequence_ c + 1)%N) key = (global_sequence_ c + 1)%N).
  { unfold sequence_at. cbn. rewrite lookup_insert_eq. apply sequence_set_sequence. }
  split; [reflexivity|]. split; [exact Hkey|]. split; [|split].
  - rewrite Hkey. pose proof (sequence_at_bounded c key Hb). lia.
  - intros k Hk. unfold sequence_at. cbn. now rewrite lookup_insert_ne by congruence.
  - intros k d' Hd'. cbn in Hd' |- *.
    destruct (decide (key = k)) as [->|Hne].
    + rewrite lookup_insert_eq in Hd'. inversion Hd'; subst.
      rewrite sequence_set_sequence. lia.
    + rewrite lookup_insert_ne in Hd' by exact Hne.
      pose proof (Hb k d' Hd'). lia.
Qed.

(** Every single-entry write stores, under its key, a value stamped with the
    next counter value. *)
Lemma run_as_store (c : t) (w : write) (now : Z) :
  exists d,
    run c w now
    = mk (<[target_key w := InstrumentData.set_sequence (u64_incr (global_sequence_ c)) d]>
            (cache_ c))
         (u64_incr (global_sequence_ c)).
Proof. destruct w; cbn [run target_key]; eexists; reflexivity. Qed.

Lemma update_batch_step_as_store (ex : Exchange) (now : Z) (c : t) (data : InstrumentData.t) :
  update_batch_step ex now c data
  = mk (<[make_key ex (InstrumentData.type data) :=
            InstrumentData.set_sequence (u64_incr (global_sequence_ c))
              (InstrumentData.set_timestamp now data)]> (cache_ c))
       (u64_incr (global_sequence_ c)).
Proof.
  unfold update_batch_step. now rewrite type_set_sequence, type_set_timestamp.
Qed.

Lemma update_batch_monotone (ex : Exchange) (now : Z) (instruments : list InstrumentData.t) :
  forall c : t,
    bounded c ->
    (global_sequence_ c + N.of_nat (length instruments) < U64_MODULUS)%N ->
    let c' := update_batch c ex instruments now in
    bounded c'
    /\ global_sequence_ c' = (global_sequence_ c + N.of_nat (length instruments))%N
    /\ forall key, (sequence_at c key <= sequence_at c' key)%N.
Proof.
  unfold update_batch.
  induction instruments as [|data rest IH]; intros c Hb Hg; cbn [fold_left length] in *.
  - split; [exact Hb|]. split; [lia|]. intros; lia.
  - rewrite update_batch_step_as_store.
    destruct (store_next c (make_key ex (InstrumentData.type data))
                (InstrumentData.set_timestamp now data) Hb) as (Hg1 & Hk & Hlt & Hother & Hb').
    { lia. }
    cbn zeta in Hg1, Hk, Hlt, Hother, Hb'.
    set (c1 := mk _ _) in *.
    destruct (IH c1 Hb') as (Hb'' & Hg2 & Hmono).
    { rewrite Hg1. lia. }
    split; [exact Hb''|]. split; [rewrite Hg2, Hg1; lia|].
    intros key. specialize (Hmono key).
    destruct (decide (key = make_key ex (InstrumentData.type data))) as [->|Hne].
    + lia.
    + rewrite (Hother key Hne) in Hmono. exact Hmono.
Qed.

End InstrumentCacheFacts.

(** What [update_batch] stores. *)

Section BatchFacts.

Import InstrumentCache.

Variables (ex : Exchange) (now : Z).

(** One iteration of [update_batch] is an [update] under the type the
    element carries. *)
Lemma update_batch_step_is_update (c : t) (data : InstrumentData.t) :
  update_batch_step ex now c data = update c ex (InstrumentData.type data) data now.
Proof. destruct data; reflexivity. Qed.

Lemma update_batch_untouched (instruments : list InstrumentData.t) (key : nat) :
  (forall d, d ∈ instruments -> make_key ex (InstrumentData.type d) <> key) ->
  forall c : t, cache_ (update_batch c ex instruments now) !! key = cache_ c !! key.
Proof.
  unfold update_batch.
  induction instruments as [|data rest IH]; intros Hkey c; cbn [fold_left].
  - reflexivity.
  - rewrite IH by (intros d Hd; apply Hkey; now right).
    rewrite update_batch_step_as_store. cbn [cache_].
    apply lookup_insert_ne, Hkey. now left.
Qed.

Lemma update_batch_stored (instruments : list InstrumentData.t) :
  forall (c : t) (i : nat) (d : InstrumentData.t),
    (global_sequence_ c + N.of_nat (length instruments) < U64_MODULUS)%N ->
    instruments !! i = Some d ->
    (forall j d', (i < j)%nat -> instruments !! j = Some d' ->
       make_key ex (InstrumentData.type d') <> make_key ex (InstrumentData.type d)) ->
    cache_ (update_batch c ex instruments now) !! make_key ex (InstrumentData.type d)
    = Some (InstrumentData.set_sequence (global_sequence_ c + N.of_nat i + 1)%N
              (InstrumentData.set_timestamp now d)).
Proof.
  induction instruments as [|data rest IH]; intros c i d Hg Hi Hlast.
  - discriminate Hi.
  - cbn [length] in Hg.
    assert (Estep : update_batch c ex (data :: rest) now
                    = update_batch (update_batch_step ex now c data) ex rest now)
      by reflexivity.
    rewrite Estep. destruct i as [|i].
    + cbn in Hi. inversion Hi; subst data.
      rewrite update_batch_untouched.
      * rewrite update_batch_step_as_store. cbn [cache_].
        rewrite lookup_insert_eq, u64_incr_no_wrap by lia.
        do 3 f_equal. lia.
      * intros d' Hd'. apply list_elem_of_lookup in Hd' as [j Hj].
        apply (Hlast (S j) d'); [lia | exact Hj].
    + cbn in Hi.
      rewrite (IH (update_batch_step ex now c data) i d).
      * rewrite update_batch_step_as_store. cbn [global_sequence_].
        rewrite u64_incr_no_wrap by lia. do 2 f_equal. lia.
      * rewrite update_batch_step_as_store. cbn [global_sequence_].
        rewrite u64_incr_no_wrap by lia. lia.
      * exact Hi.
      * intros j d' Hj Hd'. apply (Hlast (S j) d'); [lia | exact Hd'].
Qed.

Lemma update_batch_raises (instruments : list InstrumentData.t) :
  forall (c : t) (d : InstrumentData.t),
    bounded c ->
    (global_sequence_ c + N.of_nat (length instruments) < U64_MODULUS)%N ->
    d ∈ instruments ->
    (sequence_at c (make_key ex (InstrumentData.type d))
     < sequence_at (update_batch c ex instruments now)
         (make_key ex (InstrumentData.type d)))%N.
Proof.
  induction instruments as [|data rest IH]; intros c d Hb Hg Hd.
  - now apply not_elem_of_nil in Hd.
  - cbn [length] in Hg.
    assert (Estep : update_batch c ex (data :: rest) now
                    = update_batch (update_batch_step ex now c data) ex rest now)
      by reflexivity.
    rewrite Estep. rewrite update_batch_step_as_store.
    destruct (store_next c (make_key ex (InstrumentData.type data))
                (InstrumentData.set_timestamp now data) Hb)
      as (Hg1 & Hk & Hlt & Hother & Hb'); [lia|].
    cbn zeta in Hg1, Hk, Hlt, Hother, Hb'.
    set (c1 := mk _ _) in *.
    assert (Hg' : (global_sequence_ c1 + N.of_nat (length rest) < U64_MODULUS)%N)
      by (rewrite Hg1; lia).
    destruct (update_batch_monotone ex now rest c1 Hb' Hg') as (_ & _ & Hmono).
    destruct (decide (make_key ex (InstrumentData.type d)
                      = make_key ex (InstrumentData.type data))) as [Heq|Hne].
    + rewrite Heq. specialize (Hmono (make_key ex (InstrumentData.type data))). lia.
    + apply elem_of_cons in Hd as [->|Hd]; [contradiction|].
      specialize (IH c1 d Hb' Hg' Hd). rewrite (Hother _ Hne) in IH. exact IH.
Qed.

End BatchFacts.

(* ====================================================================== *)
(** * Claims about the venue table and the caches *)
(* ====================================================================== *)

(** * Venue names *)

Lemma exchange_from_name_loop_miss (name : string) :
  forall (fuel i : nat),
    (forall j, (i <= j < i + fuel)%nat -> nth j EXCHANGE_NAMES "" <> name) ->
    exchange_from_name_loop name i fuel = COUNT.
Proof.
  induction fuel as [|fuel IH]; intros i Hmiss; cbn [exchange_from_name_loop].
  - reflexivity.
  - destruct (String.eqb name (nth i EXCHANGE_NAMES "")) eqn:E.
    + apply String.eqb_eq in E. exfalso. apply (Hmiss i); [lia | now symmetry].
    + apply IH. intros j Hj. apply Hmiss. lia.
Qed.

Lemma EXCHANGE_NAMES_length : length EXCHANGE_NAMES = exchange_index COUNT.
Proof. reflexivity. Qed.

(** C10.  Looking up the name of any venue other than the sentinel gives the
    venue back; a string that is not an entry of the table maps to [COUNT];
    the table has no repeated entry and exactly as many entries as there are
    venues. *)
Theorem C10_exchange_name_round_trip :
  (forall e : Exchange, e <> COUNT -> exchange_from_name (exchange_name e) = e)
  /\ (forall name : string,
        ~ In name EXCHANGE_NAMES -> exchange_from_name name = COUNT)
  /\ NoDup EXCHANGE_NAMES
  /\ length EXCHANGE_NAMES = exchange_index COUNT.
Proof.
  split; [|split; [|split]].
  - intros e He. destruct e; first [reflexivity | now elim He].
  - intros name Hname. unfold exchange_from_name.
    apply exchange_from_name_loop_miss. intros j Hj Heq.
    apply Hname. rewrite <- Heq. apply nth_In.
    rewrite EXCHANGE_NAMES_length. lia.
  - apply (bool_decide_unpack _). vm_compute. exact I.
  - reflexivity.
Qed.

(** C10, instance: "gemini" resolves to [GEMINI], and the match is
    case-sensitive. *)
Lemma C10_exchange_name_round_trip_witness :
  exchange_from_name (exchange_name GEMINI) = GEMINI
  /\ exchange_from_name "Gemini" = COUNT.
Proof.
  destruct C10_exchange_name_round_trip as (Hround & Hmiss & _).
  split.
  - apply Hround. discriminate.
  - apply Hmiss. vm_compute. intuition discriminate.
Defined.

(** * Sequence numbers *)

Lemma order_book_write_bumps (c : OrderBookCache.t) (o : OrderBookCache.op) (ex : Exchange) :
  OrderBookCache.well_sized c ->
  OrderBookCache.target o = Some ex ->
  ex <> COUNT ->
  (OrderBookCache.get_sequence c ex < U64_MODULUS - 1)%N ->
  OrderBookCache.get_sequence (OrderBookCache.run c o) ex
  = (OrderBookCache.get_sequence c ex + 1)%N
  /\ OrderBook.sequence (OrderBookCache.get (OrderBookCache.run c o) ex)
     = (OrderBookCache.get_sequence c ex + 1)%N
  /\ (forall e, e <> ex ->
        OrderBookCache.get_sequence (OrderBookCache.run c o) e
        = OrderBookCache.get_sequence c e).
Proof.
  intros Hw Ht Hex Hmax.
  destruct (in_range ex Hex) as [Hr Hlt].
  destruct (run_as_bump c o ex Ht Hex) as [b ->].
  destruct (bump_spec c (exchange_index ex) b Hw Hlt) as (_ & Hc & Hb & Hother).
  unfold OrderBookCache.get_sequence, OrderBookCache.get in *. rewrite Hr in *.
  rewrite Hc, Hb, (u64_incr_no_wrap _ Hmax).
  split; [reflexivity|]. split; [reflexivity|].
  intros e He. destruct (OrderBookCache.out_of_range (exchange_index e)); [reflexivity|].
  apply Hother. intros Heq. apply He. now apply exchange_index_inj.
Qed.

Lemma order_book_clear_all_bumps (c : OrderBookCache.t) (ex : Exchange) :
  OrderBookCache.well_sized c ->
  ex <> COUNT ->
  (OrderBookCache.get_sequence c ex < U64_MODULUS - 1)%N ->
  OrderBookCache.get_sequence (OrderBookCache.clear_all c) ex
  = (OrderBookCache.get_sequence c ex + 1)%N.
Proof.
  intros Hw Hex Hmax.
  rewrite (proj2 (clear_all_spec c Hw) ex Hex).
  now apply u64_incr_no_wrap.
Qed.

Lemma clear_indices_stored (l : list nat) :
  forall c : OrderBookCache.t,
    OrderBookCache.well_sized c -> NoDup l ->
    (forall i, i ∈ l -> (i < exchange_index COUNT)%nat) ->
    let c' := fold_left OrderBookCache.clear_index l c in
    (forall i, i ∈ l ->
       OrderBookCache.book_at c' i
       = OrderBook.set_sequence (u64_incr (OrderBookCache.counter_at c i))
           (OrderBook.clear (OrderBookCache.book_at c i)))
    /\ (forall i, i ∉ l -> OrderBookCache.book_at c' i = OrderBookCache.book_at c i).
Proof.
  induction l as [|k l IH]; intros c Hw Hnd Hin; cbn [fold_left].
  - split; [intros i Hi; now apply not_elem_of_nil in Hi | reflexivity].
  - apply NoDup_cons in Hnd as [Hk Hnd].
    assert (Hklt : (k < exchange_index COUNT)%nat) by (apply Hin; left).
    destruct (bump_spec c k (OrderBook.clear (OrderBookCache.book_at c k)) Hw Hklt)
      as (Hw' & _ & Hbk & Hother).
    fold (OrderBookCache.clear_index c k) in Hw', Hbk, Hother.
    destruct (IH (OrderBookCache.clear_index c k) Hw' Hnd) as [Hin' Hout'].
    { intros i Hi. apply Hin. now right. }
    split.
    + intros i Hi. apply elem_of_cons in Hi as [->|Hi].
      * rewrite Hout' by exact Hk. exact Hbk.
      * assert (Hik : i <> k) by (intros ->; contradiction).
        rewrite (Hin' i Hi). destruct (Hother i Hik) as [-> ->]. reflexivity.
    + intros i Hi. apply not_elem_of_cons in Hi as [Hik Hil].
      rewrite Hout' by exact Hil. apply (Hother i Hik).
Qed.

(** [clear_all] leaves, for every venue, the emptied book stamped with the
    venue's next sequence number. *)
Lemma order_book_clear_all_stored (c : OrderBookCache.t) (ex : Exchange) :
  OrderBookCache.well_sized c ->
  ex <> COUNT ->
  OrderBookCache.get (OrderBookCache.clear_all c) ex
  = OrderBook.set_sequence (u64_incr (OrderBookCache.get_sequence c ex))
      (OrderBook.clear (OrderBookCache.get c ex)).
Proof.
  intros Hw Hex. destruct (in_range ex Hex) as [Hr Hlt].
  destruct (clear_indices_stored (seq 0 (exchange_index COUNT)) c Hw) as [Hin _].
  { apply NoDup_seq. }
  { intros i Hi. apply elem_of_seq in Hi. lia. }
  unfold OrderBookCache.get, OrderBookCache.get_sequence, OrderBookCache.clear_all.
  rewrite Hr. apply Hin. apply elem_of_seq. lia.
Qed.

Lemma instrument_write_stamps (c : InstrumentCache.t) (w : InstrumentCache.write) (now : Z) :
  InstrumentCache.bounded c ->
  (InstrumentCache.global_sequence_ c < U64_MODULUS - 1)%N ->
  let c' := InstrumentCache.run c w now in
  let key := InstrumentCache.target_key w in
  InstrumentCache.global_sequence_ c' = (InstrumentCache.global_sequence_ c + 1)%N
  /\ InstrumentCache.sequence_at c' key = (InstrumentCache.global_sequence_ c + 1)%N
  /\ (InstrumentCache.sequence_at c key < InstrumentCache.sequence_at c' key)%N
  /\ (forall k, k <> key ->
        InstrumentCache.sequence_at c' k = InstrumentCache.sequence_at c k)
  /\ InstrumentCache.bounded c'.
Proof.
  intros Hb Hg. cbn zeta.
  destruct (run_as_store c w now) as [d ->].
  exact (store_next c (InstrumentCache.target_key w) d Hb Hg).
Qed.

Lemma get_sequence_sequence_at (c : InstrumentCache.t) (ex : Exchange) (type : InstrumentType) :
  InstrumentCache.get_sequence c ex type
  = InstrumentCache.sequence_at c (InstrumentCache.make_key ex type).
Proof. reflexivity. Qed.

Lemma instrument_clear_resets (c : InstrumentCache.t) (ex : Exchange) (type : InstrumentType) :
  InstrumentCache.get_sequence (InstrumentCache.clear c ex type) ex type = 0%N.
Proof.
  unfold InstrumentCache.get_sequence, InstrumentCache.clear. cbn.
  now rewrite lookup_delete_eq.
Qed.

Lemma order_book_sequence_monotone (c : OrderBookCache.t) (o : OrderBookCache.op)
    (e : Exchange) :
  OrderBookCache.well_sized c ->
  (forall e', (OrderBookCache.get_sequence c e' < U64_MODULUS - 1)%N) ->
  (OrderBookCache.get_sequence c e <= OrderBookCache.get_sequence (OrderBookCache.run c o) e)%N.
Proof.
  intros Hw Hmax.
  destruct (Exchange_eq_cases e COUNT) as [->|He]; [reflexivity|].
  destruct (OrderBookCache.target o) as [ex|] eqn:Ht.
  - destruct (Exchange_eq_cases ex COUNT) as [->|Hex].
    + rewrite (order_book_discards_COUNT c o Ht). reflexivity.
    + destruct (order_book_write_bumps c o ex Hw Ht Hex (Hmax ex)) as (Hs & _ & Hother).
      destruct (Exchange_eq_cases e ex) as [->|Hne].
      * rewrite Hs. lia.
      * rewrite (Hother e Hne). reflexivity.
  - destruct o; try discriminate. cbn [OrderBookCache.run].
    rewrite (order_book_clear_all_bumps c e Hw He (Hmax e)). lia.
Qed.

Lemma order_book_update_twice (c : OrderBookCache.t) (ex : Exchange)
    (book : OrderBook.t) (now : Z) :
  OrderBookCache.well_sized c ->
  ex <> COUNT ->
  (OrderBookCache.get_sequence c ex < U64_MODULUS - 2)%N ->
  let c1 := OrderBookCache.update c ex book now in
  let c2 := OrderBookCache.update c1 ex book now in
  OrderBookCache.get_sequence c1 ex = (OrderBookCache.get_sequence c ex + 1)%N
  /\ OrderBookCache.get_sequence c2 ex = (OrderBookCache.get_sequence c ex + 2)%N.
Proof.
  intros Hw Hex Hmax. cbn zeta.
  assert (Hmax1 : (OrderBookCache.get_sequence c ex < U64_MODULUS - 1)%N)
    by (unfold U64_MODULUS in *; lia).
  destruct (order_book_write_bumps c (OrderBookCache.Update ex book now) ex
              Hw eq_refl Hex Hmax1) as (Hs1 & _).
  cbn [OrderBookCache.run] in Hs1.
  assert (Hw1 := run_well_sized c (OrderBookCache.Update ex book now) Hw).
  cbn [OrderBookCache.run] in Hw1.
  assert (Hmax2 : (OrderBookCache.get_sequence (OrderBookCache.update c ex book now) ex
                   < U64_MODULUS - 1)%N)
    by (rewrite Hs1; unfold U64_MODULUS in *; lia).
  destruct (order_book_write_bumps _ (OrderBookCache.Update ex book now) ex
              Hw1 eq_refl Hex Hmax2) as (Hs2 & _).
  cbn [OrderBookCache.run] in Hs2.
  split; [exact Hs1|]. rewrite Hs2, Hs1. lia.
Qed.

Lemma instrument_update_twice (c : InstrumentCache.t) (ex : Exchange)
    (type : InstrumentType) (x : InstrumentData.t) (now : Z) :
  InstrumentCache.bounded c ->
  (InstrumentCache.global_sequence_ c < U64_MODULUS - 2)%N ->
  let c1 := InstrumentCache.update c ex type x now in
  let c2 := InstrumentCache.update c1 ex type x now in
  InstrumentCache.get_sequence c1 ex type = (InstrumentCache.global_sequence_ c + 1)%N
  /\ InstrumentCache.get_sequence c2 ex type = (InstrumentCache.global_sequence_ c + 2)%N.
Proof.
  intros Hb Hmax. cbn zeta.
  assert (Hmax1 : (InstrumentCache.global_sequence_ c < U64_MODULUS - 1)%N)
    by (unfold U64_MODULUS in *; lia).
  destruct (instrument_write_stamps c (InstrumentCache.Update ex type x) now Hb Hmax1)
    as (Hg1 & Hk1 & _ & _ & Hb1).
  cbn [InstrumentCache.run InstrumentCache.target_key] in Hg1, Hk1, Hb1.
  assert (Hmax2 : (InstrumentCache.global_sequence_ (InstrumentCache.update c ex type x now)
                   < U64_MODULUS - 1)%N)
    by (rewrite Hg1; unfold U64_MODULUS in *; lia).
  destruct (instrument_write_stamps _ (InstrumentCache.Update ex type x) now Hb1 Hmax2)
    as (_ & Hk2 & _).
  cbn [InstrumentCache.run InstrumentCache.target_key] in Hk2.
  rewrite !get_sequence_sequence_at.
  split; [exact Hk1|]. rewrite Hk2, Hg1. lia.
Qed.

Lemma instrument_sequence_monotone (c : InstrumentCache.t) (w : InstrumentCache.write)
    (now : Z) (k : nat) :
  InstrumentCache.bounded c ->
  (InstrumentCache.global_sequence_ c < U64_MODULUS - 1)%N ->
  (InstrumentCache.sequence_at c k <= InstrumentCache.sequence_at (InstrumentCache.run c w now) k)%N.
Proof.
  intros Hb Hmax.
  destruct (instrument_write_stamps c w now Hb Hmax) as (_ & _ & Hlt & Hother & _).
  destruct (decide (k = InstrumentCache.target_key w)) as [->|Hne].
  - lia.
  - rewrite (Hother k Hne). reflexivity.
Qed.

Lemma bounded_clear (c : InstrumentCache.t) (ex : Exchange) (type : InstrumentType) :
  InstrumentCache.bounded c -> InstrumentCache.bounded (InstrumentCache.clear c ex type).
Proof.
  intros Hb k d Hd. cbn in Hd |- *.
  apply lookup_delete_Some in Hd as [_ Hd]. now apply (Hb k).
Qed.

Lemma bounded_clear_all (c : InstrumentCache.t) :
  InstrumentCache.bounded (InstrumentCache.clear_all c).
Proof. intros k d Hd. cbn in Hd. now rewrite lookup_empty in Hd. Qed.

(** C7 (as amended).  [OrderBookCache]: a write addressed to a venue other
    than the sentinel ([update], [update_bids], [update_asks], [clear]) sets
    the venue's counter, and the sequence of the stored book, to the previous
    counter plus one and leaves every other counter alone; [clear_all] does
    so for every venue; all this below the wrap-around of the 64-bit counter.
    [InstrumentCache]: every single-entry write stores its entry stamped with
    the next value of the one counter of the cache, which exceeds the
    sequence the key had before, and leaves the other keys alone;
    [update_batch] is an [update] of each element in turn, under the type
    the element carries, so that the element written last under a key is the
    one stored, with the counter value of its turn; [get_sequence] reads the
    stored sequence.  In both
    caches no write lowers the value of the accessor, and two identical
    consecutive updates raise it twice. *)
Theorem C7_sequence_per_write :
  (forall (c : OrderBookCache.t) (o : OrderBookCache.op) (ex : Exchange),
      OrderBookCache.well_sized c ->
      OrderBookCache.target o = Some ex ->
      ex <> COUNT ->
      (OrderBookCache.get_sequence c ex < U64_MODULUS - 1)%N ->
      OrderBookCache.well_sized (OrderBookCache.run c o)
      /\ OrderBookCache.get_sequence (OrderBookCache.run c o) ex
         = (OrderBookCache.get_sequence c ex + 1)%N
      /\ OrderBook.sequence (OrderBookCache.get (OrderBookCache.run c o) ex)
         = (OrderBookCache.get_sequence c ex + 1)%N
      /\ (forall e, e <> ex ->
            OrderBookCache.get_sequence (OrderBookCache.run c o) e
            = OrderBookCache.get_sequence c e))
  /\ (forall (c : OrderBookCache.t) (ex : Exchange),
         OrderBookCache.well_sized c ->
         ex <> COUNT ->
         (OrderBookCache.get_sequence c ex < U64_MODULUS - 1)%N ->
         OrderBookCache.get_sequence (OrderBookCache.clear_all c) ex
         = (OrderBookCache.get_sequence c ex + 1)%N
         /\ OrderBookCache.get (OrderBookCache.clear_all c) ex
            = OrderBook.set_sequence (OrderBookCache.get_sequence c ex + 1)%N
                (OrderBook.clear (OrderBookCache.get c ex))
         /\ OrderBook.sequence (OrderBookCache.get (OrderBookCache.clear_all c) ex)
            = (OrderBookCache.get_sequence c ex + 1)%N)
  /\ (forall (c : InstrumentCache.t) (w : InstrumentCache.write) (now : Z),
         InstrumentCache.bounded c ->
         (InstrumentCache.global_sequence_ c < U64_MODULUS - 1)%N ->
         let c' := InstrumentCache.run c w now in
         let key := InstrumentCache.target_key w in
         InstrumentCache.global_sequence_ c' = (InstrumentCache.global_sequence_ c + 1)%N
         /\ InstrumentCache.sequence_at c' key = (InstrumentCache.global_sequence_ c + 1)%N
         /\ (InstrumentCache.sequence_at c key < InstrumentCache.sequence_at c' key)%N
         /\ (forall k, k <> key ->
               InstrumentCache.sequence_at c' k = InstrumentCache.sequence_at c k)
         /\ InstrumentCache.bounded c')
  /\ (forall (c : InstrumentCache.t) (ex : Exchange)
        (instruments : list InstrumentData.t) (now : Z),
         InstrumentCache.bounded c ->
         (InstrumentCache.global_sequence_ c + N.of_nat (length instruments)
          < U64_MODULUS)%N ->
         let c' := InstrumentCache.update_batch c ex instruments now in
         let key_of d := InstrumentCache.make_key ex (InstrumentData.type d) in
         InstrumentCache.bounded c'
         /\ InstrumentCache.global_sequence_ c'
            = (InstrumentCache.global_sequence_ c + N.of_nat (length instruments))%N
         /\ (forall (i : nat) (d : InstrumentData.t),
               instruments !! i = Some d ->
               (forall j d', (i < j)%nat -> instruments !! j = Some d' ->
                  key_of d' <> key_of d) ->
               InstrumentCache.get c' ex (InstrumentData.type d)
               = InstrumentData.set_sequence
                   (InstrumentCache.global_sequence_ c + N.of_nat i + 1)%N
                   (InstrumentData.set_timestamp now d)
               /\ InstrumentCache.get_sequence c' ex (InstrumentData.type d)
                  = (InstrumentCache.global_sequence_ c + N.of_nat i + 1)%N)
         /\ (forall d, d ∈ instruments ->
               (InstrumentCache.sequence_at c (key_of d)
                < InstrumentCache.sequence_at c' (key_of d))%N)
         /\ (forall key, (forall d, d ∈ instruments -> key_of d <> key) ->
               InstrumentCache.cache_ c' !! key = InstrumentCache.cache_ c !! key)
         /\ forall key,
              (InstrumentCache.sequence_at c key <= InstrumentCache.sequence_at c' key)%N)
  /\ (forall (c : InstrumentCache.t) (ex : Exchange) (d : InstrumentData.t)
        (rest : list InstrumentData.t) (now : Z),
         InstrumentCache.update_batch c ex [] now = c
         /\ InstrumentCache.update_batch c ex (d :: rest) now
            = InstrumentCache.update_batch
                (InstrumentCache.update c ex (InstrumentData.type d) d now) ex rest now)
  /\ (forall (c : InstrumentCache.t) (ex : Exchange) (type : InstrumentType),
         InstrumentCache.get_sequence c ex type
         = InstrumentCache.sequence_at c (InstrumentCache.make_key ex type))
  (* the accessor never decreases under a write *)
  /\ (forall (c : OrderBookCache.t) (o : OrderBookCache.op) (e : Exchange),
         OrderBookCache.well_sized c ->
         (forall e', (OrderBookCache.get_sequence c e' < U64_MODULUS - 1)%N) ->
         (OrderBookCache.get_sequence c e
          <= OrderBookCache.get_sequence (OrderBookCache.run c o) e)%N)
  /\ (forall (c : InstrumentCache.t) (w : InstrumentCache.write) (now : Z) (k : nat),
         InstrumentCache.bounded c ->
         (InstrumentCache.global_sequence_ c < U64_MODULUS - 1)%N ->
         (InstrumentCache.sequence_at c k
          <= InstrumentCache.sequence_at (InstrumentCache.run c w now) k)%N)
  (* two identical consecutive updates *)
  /\ (forall (c : OrderBookCache.t) (ex : Exchange) (book : OrderBook.t) (now : Z),
         OrderBookCache.well_sized c ->
         ex <> COUNT ->
         (OrderBookCache.get_sequence c ex < U64_MODULUS - 2)%N ->
         let c1 := OrderBookCache.update c ex book now in
         let c2 := OrderBookCache.update c1 ex book now in
         OrderBookCache.get_sequence c1 ex = (OrderBookCache.get_sequence c ex + 1)%N
         /\ OrderBookCache.get_sequence c2 ex = (OrderBookCache.get_sequence c ex + 2)%N)
  /\ (forall (c : InstrumentCache.t) (ex : Exchange) (type : InstrumentType)
             (x : InstrumentData.t) (now : Z),
         InstrumentCache.bounded c ->
         (InstrumentCache.global_sequence_ c < U64_MODULUS - 2)%N ->
         let c1 := InstrumentCache.update c ex type x now in
         let c2 := InstrumentCache.update c1 ex type x now in
         InstrumentCache.get_sequence c1 ex type
         = (InstrumentCache.global_sequence_ c + 1)%N
         /\ InstrumentCache.get_sequence c2 ex type
            = (InstrumentCache.global_sequence_ c + 2)%N).
Proof.
  repeat match goal with |- _ /\ _ => split end.
  - intros c o ex Hw Ht Hex Hmax. split; [now apply run_well_sized|].
    now apply order_book_write_bumps.
  - intros c ex Hw Hex Hmax.
    split; [now apply order_book_clear_all_bumps|].
    rewrite (order_book_clear_all_stored c ex Hw Hex), (u64_incr_no_wrap _ Hmax).
    split; reflexivity.
  - apply instrument_write_stamps.
  - intros c ex instruments now Hb Hg. cbn zeta.
    destruct (update_batch_monotone ex now instruments c Hb Hg) as (Hb' & Hg' & Hmono).
    split; [exact Hb'|]. split; [exact Hg'|]. split; [|split; [|split]].
    + intros i d Hi Hlast.
      pose proof (update_batch_stored ex now instruments c i d Hg Hi Hlast) as Hs.
      unfold InstrumentCache.get, InstrumentCache.get_sequence. rewrite Hs.
      split; [reflexivity | apply sequence_set_sequence].
    + intros d Hd. now apply update_batch_raises.
    + intros key Hkey. now apply update_batch_untouched.
    + exact Hmono.
  - intros c ex d rest now. split; [reflexivity|].
    now rewrite <- update_batch_step_is_update.
  - reflexivity.
  - apply order_book_sequence_monotone.
  - apply instrument_sequence_monotone.
  - apply order_book_update_twice.
  - apply instrument_update_twice.
Qed.

(** C7, instance on fresh caches: two identical updates of one venue of an
    [OrderBookCache] give sequences 1 and 2, and [clear_all] gives the stored
    book the sequence 1; two identical updates of one key of an
    [InstrumentCache] give sequences 1 and 2, and of a batch of two entries
    for one key the second is the one stored, with sequence 2. *)
Lemma C7_sequence_per_write_witness :
  let u := OrderBookCache.Update GEMINI scenario_book one_ms in
  let c1 := OrderBookCache.update OrderBookCache.empty GEMINI scenario_book one_ms in
  let c2 := OrderBookCache.update c1 GEMINI scenario_book one_ms in
  let w := InstrumentCache.Update BINANCE PERPETUAL InstrumentData.default in
  let d1 := InstrumentCache.update InstrumentCache.empty BINANCE PERPETUAL
              InstrumentData.default one_ms in
  let d2 := InstrumentCache.update d1 BINANCE PERPETUAL InstrumentData.default one_ms in
  let second := InstrumentData.set_last_price 87000 InstrumentData.default in
  let batch := [InstrumentData.default; second] in
  let d3 := InstrumentCache.update_batch InstrumentCache.empty BINANCE batch one_ms in
  (OrderBookCache.get_sequence (OrderBookCache.run OrderBookCache.empty u) GEMINI = 1%N
   /\ OrderBookCache.get_sequence c1 GEMINI = 1%N
   /\ OrderBookCache.get_sequence c2 GEMINI = 2%N
   /\ OrderBookCache.get_sequence (OrderBookCache.clear_all OrderBookCache.empty) GEMINI = 1%N
   /\ OrderBook.sequence
        (OrderBookCache.get (OrderBookCache.clear_all OrderBookCache.empty) GEMINI) = 1%N
   /\ (OrderBookCache.get_sequence OrderBookCache.empty BINANCE
       <= OrderBookCache.get_sequence
            (OrderBookCache.run OrderBookCache.empty u) BINANCE)%N)
  /\ (InstrumentCache.sequence_at (InstrumentCache.run InstrumentCache.empty w one_ms)
        (InstrumentCache.target_key w) = 1%N
      /\ InstrumentCache.get_sequence d1 BINANCE PERPETUAL = 1%N
      /\ InstrumentCache.get_sequence d2 BINANCE PERPETUAL = 2%N
      /\ InstrumentCache.global_sequence_ d3 = 2%N
      /\ InstrumentCache.get d3 BINANCE SPOT
         = InstrumentData.set_sequence 2%N (InstrumentData.set_timestamp one_ms second)
      /\ (InstrumentCache.sequence_at InstrumentCache.empty 0
          <= InstrumentCache.sequence_at
               (InstrumentCache.run InstrumentCache.empty w one_ms) 0)%N).
Proof.
  cbn zeta.
  destruct C7_sequence_per_write
    as (Hwrite & Hclear & Hstamp & Hbatch & _ & _ & Hmono & Hmono' & Htwice & Htwice').
  assert (Hne : GEMINI <> COUNT) by discriminate.
  assert (Hall : forall e,
             (OrderBookCache.get_sequence OrderBookCache.empty e < U64_MODULUS - 1)%N)
    by (intros e; rewrite (proj2 (order_book_empty_get e)); reflexivity).
  assert (Hg1 : (InstrumentCache.global_sequence_ InstrumentCache.empty
                 < U64_MODULUS - 1)%N) by reflexivity.
  assert (Hg2 : (InstrumentCache.global_sequence_ InstrumentCache.empty
                 < U64_MODULUS - 2)%N) by reflexivity.
  split.
  - destruct (Hwrite OrderBookCache.empty
                (OrderBookCache.Update GEMINI scenario_book one_ms) GEMINI
                well_sized_empty eq_refl Hne (Hall GEMINI)) as (_ & Hs & _).
    destruct (Htwice OrderBookCache.empty GEMINI scenario_book one_ms
                well_sized_empty Hne) as [H1 H2]; [reflexivity|].
    destruct (Hclear OrderBookCache.empty GEMINI well_sized_empty Hne (Hall GEMINI))
      as (Hc & _ & Hc').
    split; [exact Hs|]. split; [exact H1|]. split; [exact H2|]. split; [exact Hc|].
    split; [exact Hc'|].
    apply (Hmono OrderBookCache.empty _ BINANCE well_sized_empty Hall).
  - destruct (Hstamp InstrumentCache.empty
                (InstrumentCache.Update BINANCE PERPETUAL InstrumentData.default)
                one_ms bounded_empty Hg1) as (_ & Hk & _).
    destruct (Htwice' InstrumentCache.empty BINANCE PERPETUAL InstrumentData.default
                one_ms bounded_empty Hg2) as [H1 H2].
    destruct (Hbatch InstrumentCache.empty BINANCE
                [InstrumentData.default;
                 InstrumentData.set_last_price 87000 InstrumentData.default]
                one_ms bounded_empty)
      as (_ & Hg & Hstored & _); [reflexivity|].
    destruct (Hstored 1%nat (InstrumentData.set_last_price 87000 InstrumentData.default)
                eq_refl) as [Hlast _].
    { intros j d' Hj Hd'. destruct j as [|[|j]]; [lia | lia | discriminate Hd']. }
    split; [exact Hk|]. split; [exact H1|]. split; [exact H2|]. split; [exact Hg|].
    split; [exact Hlast|].
    apply (Hmono' InstrumentCache.empty _ one_ms 0%nat bounded_empty Hg1).
Defined.

(** C7, counterexample to the claim as stated: with a write to a second key
    in between, the sequence of the first key of an [InstrumentCache] goes
    from 1 to 3, which is not its previous sequence plus one. *)
Lemma C7_counterexample_shared_counter :
  let spot := InstrumentCache.Update BINANCE SPOT InstrumentData.default in
  let perp := InstrumentCache.Update BINANCE PERPETUAL InstrumentData.default in
  let c1 := InstrumentCache.run InstrumentCache.empty spot one_ms in
  let c2 := InstrumentCache.run c1 perp one_ms in
  let c3 := InstrumentCache.run c2 spot one_ms in
  InstrumentCache.get_sequence c2 BINANCE SPOT = 1%N
  /\ InstrumentCache.get_sequence c3 BINANCE SPOT = 3%N
  /\ InstrumentCache.get_sequence c3 BINANCE SPOT
     <> (InstrumentCache.get_sequence c2 BINANCE SPOT + 1)%N.
Proof.
  cbn zeta. repeat split; try (vm_compute; reflexivity).
  vm_compute. discriminate.
Qed.

(** Where the two caches part: [OrderBookCache::clear] keeps the venue's
    counter and raises it, whereas [InstrumentCache::clear],
    [clear_exchange] and [clear_all] erase the entry that carries the
    sequence, so that the accessor of a key written three times reads 0
    afterwards. *)
Lemma instrument_clear_lowers_the_accessor :
  let spot := InstrumentCache.Update BINANCE SPOT InstrumentData.default in
  let c1 := InstrumentCache.run InstrumentCache.empty spot one_ms in
  let c2 := InstrumentCache.run c1 spot one_ms in
  let c3 := InstrumentCache.run c2 spot one_ms in
  InstrumentCache.get_sequence c3 BINANCE SPOT = 3%N
  /\ InstrumentCache.get_sequence (InstrumentCache.clear c3 BINANCE SPOT) BINANCE SPOT = 0%N
  /\ InstrumentCache.get_sequence (InstrumentCache.clear_exchange c3 BINANCE) BINANCE SPOT
     = 0%N
  /\ InstrumentCache.get_sequence (InstrumentCache.clear_all c3) BINANCE SPOT = 0%N
  /\ OrderBookCache.get_sequence
       (OrderBookCache.clear
          (OrderBookCache.update OrderBookCache.empty BINANCE scenario_book one_ms)
          BINANCE) BINANCE = 2%N.
Proof. cbn zeta. repeat split; vm_compute; reflexivity. Qed.

(** * Reading back a write *)

Lemma set_type_same (d : InstrumentData.t) :
  InstrumentData.set_type (InstrumentData.type d) d = d.
Proof. destruct d; reflexivity. Qed.

Lemma instrument_get_update (c : InstrumentCache.t) (ex : Exchange)
    (type : InstrumentType) (x : InstrumentData.t) (now : Z) :
  InstrumentCache.get (InstrumentCache.update c ex type x now) ex type
  = InstrumentData.set_sequence (u64_incr (InstrumentCache.global_sequence_ c))
      (InstrumentData.set_timestamp now (InstrumentData.set_type type x)).
Proof.
  unfold InstrumentCache.get, InstrumentCache.update. cbn.
  now rewrite lookup_insert_eq.
Qed.

Lemma order_book_get_update (c : OrderBookCache.t) (ex : Exchange)
    (book : OrderBook.t) (now : Z) :
  OrderBookCache.well_sized c ->
  ex <> COUNT ->
  OrderBookCache.get (OrderBookCache.update c ex book now) ex
  = OrderBook.set_sequence (u64_incr (OrderBookCache.get_sequence c ex))
      (OrderBook.set_timestamp now book).
Proof.
  intros Hw Hex. destruct (in_range ex Hex) as [Hr Hlt].
  rewrite (update_as_bump c ex book now Hex).
  destruct (bump_spec c (exchange_index ex) (OrderBook.set_timestamp now book) Hw Hlt)
    as (_ & _ & Hb & _).
  unfold OrderBookCache.get, OrderBookCache.get_sequence. rewrite Hr. exact Hb.
Qed.

(** C8 (as amended).  [InstrumentCache]: reading a key right after
    [update(ex, type, x)] returns [x] with [type], [timestamp] and [sequence]
    replaced -- so [x] itself up to [timestamp] and [sequence] when [x] was
    already tagged with [type].  [OrderBookCache]: for a venue other than the
    sentinel, reading after [update] returns the book with [timestamp] and
    [sequence] replaced. *)
Theorem C8_update_then_get :
  (forall (c : InstrumentCache.t) (ex : Exchange) (type : InstrumentType)
          (x : InstrumentData.t) (now : Z),
      InstrumentCache.get (InstrumentCache.update c ex type x now) ex type
      = InstrumentData.set_sequence (u64_incr (InstrumentCache.global_sequence_ c))
          (InstrumentData.set_timestamp now (InstrumentData.set_type type x))
      /\ (InstrumentData.type x = type ->
          InstrumentCache.get (InstrumentCache.update c ex type x now) ex type
          = InstrumentData.set_sequence (u64_incr (InstrumentCache.global_sequence_ c))
              (InstrumentData.set_timestamp now x)))
  /\ (forall (c : OrderBookCache.t) (ex : Exchange) (book : OrderBook.t) (now : Z),
         OrderBookCache.well_sized c ->
         ex <> COUNT ->
         OrderBookCache.get (OrderBookCache.update c ex book now) ex
         = OrderBook.set_sequence (u64_incr (OrderBookCache.get_sequence c ex))
             (OrderBook.set_timestamp now book)).
Proof.
  split.
  - intros c ex type x now. split; [apply instrument_get_update|].
    intros <-. rewrite instrument_get_update. now rewrite set_type_same.
  - apply order_book_get_update.
Qed.

(** C8, instance on fresh caches. *)
Lemma C8_update_then_get_witness :
  InstrumentCache.get
    (InstrumentCache.update InstrumentCache.empty BINANCE SPOT
       (instrument_with scenario_book) one_ms) BINANCE SPOT
  = InstrumentData.set_sequence 1%N
      (InstrumentData.set_timestamp one_ms (instrument_with scenario_book))
  /\ OrderBookCache.get
       (OrderBookCache.update OrderBookCache.empty GEMINI scenario_book one_ms) GEMINI
     = OrderBook.set_sequence 1%N (OrderBook.set_timestamp one_ms scenario_book).
Proof.
  destruct C8_update_then_get as [Hic Hob].
  split.
  - exact (proj2 (Hic InstrumentCache.empty BINANCE SPOT
                    (instrument_with scenario_book) one_ms) eq_refl).
  - apply (Hob OrderBookCache.empty GEMINI scenario_book one_ms well_sized_empty).
    discriminate.
Defined.

(** C8, counterexample to the claim as stated: a default value (tagged
    [SPOT]) written under [PERPETUAL] is read back tagged [PERPETUAL]. *)
Lemma C8_counterexample_type_overwritten :
  let x := InstrumentData.default in
  let c := InstrumentCache.update InstrumentCache.empty BINANCE PERPETUAL x one_ms in
  InstrumentData.type (InstrumentCache.get c BINANCE PERPETUAL) = PERPETUAL
  /\ InstrumentData.type x = SPOT
  /\ InstrumentData.type (InstrumentCache.get c BINANCE PERPETUAL) <> InstrumentData.type x.
Proof. cbn zeta. repeat split; try reflexivity. vm_compute. discriminate. Qed.

(** * Absent and out-of-range keys *)

Lemma order_book_untouched (c : OrderBookCache.t) (o : OrderBookCache.op) (ex : Exchange) :
  OrderBookCache.well_sized c ->
  ex <> COUNT ->
  OrderBookCache.target o <> Some ex ->
  o <> OrderBookCache.ClearAll ->
  OrderBookCache.get (OrderBookCache.run c o) ex = OrderBookCache.get c ex
  /\ OrderBookCache.get_sequence (OrderBookCache.run c o) ex
     = OrderBookCache.get_sequence c ex.
Proof.
  intros Hw Hex Ht Hall.
  destruct (OrderBookCache.target o) as [e|] eqn:Het.
  2:{ destruct o; try discriminate. now elim Hall. }
  destruct (Exchange_eqb e COUNT) eqn:E.
  - apply Exchange_eqb_eq in E as ->.
    destruct o; cbn in Het; inversion Het; subst; split; reflexivity.
  - assert (He : e <> COUNT)
      by (intros ->; now rewrite (proj2 (Exchange_eqb_eq COUNT COUNT) eq_refl) in E).
    destruct (run_as_bump c o e Het He) as [b ->].
    destruct (bump_spec c (exchange_index e) b Hw (proj2 (in_range e He)))
      as (_ & _ & _ & Hother).
    assert (Hne : exchange_index ex <> exchange_index e).
    { intros Heq. apply Ht. f_equal. symmetry. now apply exchange_index_inj. }
    destruct (Hother _ Hne) as [Hc Hb].
    unfold OrderBookCache.get, OrderBookCache.get_sequence.
    rewrite (proj1 (in_range ex Hex)). now rewrite Hc, Hb.
Qed.

Lemma order_book_never_written (ops : list OrderBookCache.op) (ex : Exchange) :
  forall c : OrderBookCache.t,
    OrderBookCache.well_sized c ->
    ex <> COUNT ->
    Forall (fun o => OrderBookCache.target o <> Some ex /\ o <> OrderBookCache.ClearAll) ops ->
    OrderBookCache.get (OrderBookCache.run_all c ops) ex = OrderBookCache.get c ex
    /\ OrderBookCache.get_sequence (OrderBookCache.run_all c ops) ex
       = OrderBookCache.get_sequence c ex.
Proof.
  unfold OrderBookCache.run_all.
  induction ops as [|o ops IH]; intros c Hw Hex Hops; cbn [fold_left].
  - split; reflexivity.
  - apply Forall_cons in Hops as [[Ht Hall] Hops].
    destruct (IH (OrderBookCache.run c o) (run_well_sized c o Hw) Hex Hops) as [Hg Hs].
    destruct (order_book_untouched c o ex Hw Hex Ht Hall) as [Hg' Hs'].
    split; congruence.
Qed.

(** C9 (as amended).  [OrderBookCache]: for the sentinel venue a read
    returns the empty book and sequence 0, and every write addressed to it
    leaves the cache as it was; a venue that no write of the history
    addressed reads as the empty book with sequence 0; the empty book has no
    levels, the epoch as its time and sequence 0.  [InstrumentCache]: an
    absent key reads as [InstrumentData{}] with sequence 0, and every member
    of [InstrumentData{}] is zero (type [SPOT], the empty book) except
    [is_call = true], [max_leverage = 1], [contract_size = 1] and
    [target_leverage = 3]. *)
Theorem C9_absent_and_out_of_range :
  (forall c : OrderBookCache.t,
      OrderBookCache.get c COUNT = OrderBook.default
      /\ OrderBookCache.get_sequence c COUNT = 0%N
      /\ forall o, OrderBookCache.target o = Some COUNT -> OrderBookCache.run c o = c)
  /\ (forall (ops : list OrderBookCache.op) (ex : Exchange),
         Forall (fun o => OrderBookCache.target o <> Some ex
                          /\ o <> OrderBookCache.ClearAll) ops ->
         OrderBookCache.get (OrderBookCache.run_all OrderBookCache.empty ops) ex
         = OrderBook.default
         /\ OrderBookCache.get_sequence (OrderBookCache.run_all OrderBookCache.empty ops) ex
            = 0%N)
  /\ (OrderBook.bids OrderBook.default = []
      /\ OrderBook.asks OrderBook.default = []
      /\ OrderBook.timestamp OrderBook.default = 0%Z
      /\ OrderBook.sequence OrderBook.default = 0%N)
  /\ (forall (c : InstrumentCache.t) (ex : Exchange) (type : InstrumentType),
         InstrumentCache.cache_ c !! InstrumentCache.make_key ex type = None ->
         InstrumentCache.get c ex type = InstrumentData.default
         /\ InstrumentCache.get_sequence c ex type = 0%N)
  /\ (let d := InstrumentData.default in
      (InstrumentData.is_call d = true
       /\ InstrumentData.max_leverage d == 1
       /\ InstrumentData.contract_size d == 1
       /\ InstrumentData.target_leverage d == 3)
      /\ (instrument_index (InstrumentData.type d) = 0%nat
          /\ InstrumentData.book d = OrderBook.default
          /\ InstrumentData.timestamp d = 0%Z
          /\ InstrumentData.sequence d = 0%N
          /\ InstrumentData.next_funding_ts d = 0%Z
          /\ InstrumentData.expiration_ts d = 0%Z
          /\ InstrumentData.rebalance_ts d = 0%Z)
      /\ Forall (fun member : InstrumentData.t -> Q => member d == 0)
           [InstrumentData.last_price; InstrumentData.volume_24h;
            InstrumentData.mark_price; InstrumentData.index_price;
            InstrumentData.funding_rate; InstrumentData.predicted_funding;
            InstrumentData.basis; InstrumentData.basis_rate;
            InstrumentData.strike; InstrumentData.implied_vol;
            InstrumentData.delta; InstrumentData.gamma; InstrumentData.theta;
            InstrumentData.vega; InstrumentData.rho;
            InstrumentData.underlying_price; InstrumentData.time_to_expiry;
            InstrumentData.interest_rate_long; InstrumentData.interest_rate_short;
            InstrumentData.maintenance_margin; InstrumentData.contract_value;
            InstrumentData.nav; InstrumentData.real_leverage;
            InstrumentData.basket]).
Proof.
  split; [|split; [|split; [|split]]].
  - intros c. split; [reflexivity|]. split; [reflexivity|].
    apply order_book_discards_COUNT.
  - intros ops ex Hops.
    destruct (Exchange_eqb ex COUNT) eqn:E.
    + apply Exchange_eqb_eq in E as ->. split; reflexivity.
    + assert (Hex : ex <> COUNT)
        by (intros ->; now rewrite (proj2 (Exchange_eqb_eq COUNT COUNT) eq_refl) in E).
      destruct (order_book_never_written ops ex OrderBookCache.empty
                  well_sized_empty Hex Hops) as [-> ->].
      apply order_book_empty_get.
  - repeat split; reflexivity.
  - intros c ex type Hnone.
    unfold InstrumentCache.get, InstrumentCache.get_sequence. now rewrite Hnone.
  - cbn zeta. split; [repeat split; reflexivity|].
    split; [repeat split; reflexivity|].
    repeat constructor.
Qed.

(** C9, instance. *)
Lemma C9_absent_and_out_of_range_witness :
  let c := OrderBookCache.update OrderBookCache.empty GEMINI scenario_book one_ms in
  OrderBookCache.run c (OrderBookCache.Update COUNT scenario_book one_ms) = c
  /\ OrderBookCache.get c BINANCE = OrderBook.default
  /\ InstrumentCache.get InstrumentCache.empty BINANCE SPOT = InstrumentData.default.
Proof.
  cbn zeta.
  destruct C9_absent_and_out_of_range as (Hcount & Hnever & _ & Habsent & _).
  split; [|split].
  - apply (proj2 (proj2 (Hcount _))). reflexivity.
  - apply (Hnever [OrderBookCache.Update GEMINI scenario_book one_ms] BINANCE).
    repeat constructor; discriminate.
  - apply (Habsent InstrumentCache.empty BINANCE SPOT). reflexivity.
Defined.

(** C9, counterexample to the claim as stated: the value read for a key
    never written is not zero in every member; its [target_leverage] is 3,
    its [max_leverage] and [contract_size] are 1 and [is_call] is set. *)
Lemma C9_counterexample_default_not_zero :
  let d := InstrumentCache.get InstrumentCache.empty BINANCE SPOT in
  InstrumentCache.get_sequence InstrumentCache.empty BINANCE SPOT = 0%N
  /\ ~ (InstrumentData.target_leverage d == 0)
  /\ ~ (InstrumentData.max_leverage d == 0)
  /\ ~ (InstrumentData.contract_size d == 0)
  /\ InstrumentData.is_call d <> false.
Proof.
  cbn zeta. split; [reflexivity|].
  repeat split; vm_compute; discriminate.
Qed.

(** Where the two caches part: every write of [OrderBookCache] returns
    early for the sentinel venue, whereas [InstrumentCache] has no such
    test, so that a write addressed to the sentinel venue is stored under
    the key computed from it and changes the cache. *)
Lemma instrument_cache_stores_sentinel_write :
  let c := InstrumentCache.update InstrumentCache.empty COUNT SPOT
             InstrumentData.default one_ms in
  InstrumentCache.get_sequence InstrumentCache.empty COUNT SPOT = 0%N
  /\ InstrumentCache.get_sequence c COUNT SPOT = 1%N
  /\ c <> InstrumentCache.empty
  /\ OrderBookCache.update OrderBookCache.empty COUNT scenario_book one_ms
     = OrderBookCache.empty.
Proof.
  cbn zeta. split; [reflexivity|]. split; [reflexivity|]. split; [|reflexivity].
  intros H. apply (f_equal InstrumentCache.global_sequence_) in H.
  vm_compute in H. discriminate.
Qed.

(* ====================================================================== *)
(** * Claims about the signal handler *)
(* ====================================================================== *)

(** * The handler *)

Lemma reason_reject (d : TradeDecision.t) (r : Reason.t) (e : Z) :
  TradeDecision.reason (SignalHandler.reject d r e) = r
  /\ TradeDecision.should_trade (SignalHandler.reject d r e) = TradeDecision.should_trade d
  /\ TradeDecision.impact (SignalHandler.reject d r e) = TradeDecision.impact d.
Proof. destruct d; repeat split; reflexivity. Qed.

Lemma should_trade_walked (signal : BlockchainSignal.t) (ex : Exchange) (book : OrderBook.t) :
  TradeDecision.should_trade (SignalHandler.walked signal ex book) = false.
Proof.
  unfold SignalHandler.walked, SignalHandler.walk_side.
  destruct (BlockchainSignal.is_inflow signal); reflexivity.
Qed.

(** C2.  The order in which the handlers test the last four reject
    conditions, for a signal with a known venue and a sufficient quantity.
    [process_signal]: a stale book is reported as stale whatever its
    validity; once fresh and valid, an impact below the threshold is reported
    as such whatever remains unfilled -- so insufficient depth is tested
    after the threshold, not before.  [process_instrument_signal]: a book
    with an empty side is reported unavailable whatever its age -- so
    validity is tested before staleness -- and an unfilled remainder is
    reported before the threshold is looked at. *)
Theorem C2_reject_order (h : SignalHandler.t) (signal : BlockchainSignal.t)
    (now elapsed_ns : Z) :
  let config := SignalHandler.config_ h in
  let cache := SignalHandler.cache_ h in
  let ex := exchange_from_name (BlockchainSignal.exchange signal) in
  Exchange_eqb ex COUNT = false ->
  TradingConfig.min_deposit_btc config <= BlockchainSignal.btc_amount signal ->
  (* process_signal: stale before unavailable *)
  (OrderBookCache.is_stale cache ex (TradingConfig.max_book_age_ms config) now = true ->
   Reason.kind_of
     (TradeDecision.reason (SignalHandler.process_signal h signal now elapsed_ns))
   = Reason.BookStale)
  (* process_signal: impact below threshold before insufficient depth *)
  /\ (OrderBookCache.is_stale cache ex (TradingConfig.max_book_age_ms config) now = false ->
      OrderBookCache.is_valid cache ex = true ->
      Qabs (PriceImpact.price_drop_pct
              (TradeDecision.impact
                 (SignalHandler.walked signal ex (OrderBookCache.get cache ex))))
      < TradingConfig.min_impact_pct config ->
      Reason.kind_of
        (TradeDecision.reason (SignalHandler.process_signal h signal now elapsed_ns))
      = Reason.ImpactBelowThreshold)
  (* process_instrument_signal: unavailable before stale *)
  /\ (forall (inst_type : InstrumentType) (inst_data : InstrumentData.t),
         OrderBook.is_valid (InstrumentData.book inst_data) = false ->
         Reason.kind_of
           (TradeDecision.reason
              (SignalHandler.process_instrument_signal h signal inst_type inst_data
                 now elapsed_ns))
         = Reason.BookUnavailable)
  (* process_instrument_signal: insufficient depth before impact below threshold *)
  /\ (forall (inst_type : InstrumentType) (inst_data : InstrumentData.t),
         OrderBook.is_valid (InstrumentData.book inst_data) = true ->
         (InstrumentData.age_ms now inst_data <= TradingConfig.max_book_age_ms config)%Z ->
         0 < PriceImpact.volume_remaining
               (TradeDecision.impact
                  (SignalHandler.walked signal ex (InstrumentData.book inst_data))) ->
         Reason.kind_of
           (TradeDecision.reason
              (SignalHandler.process_instrument_signal h signal inst_type inst_data
                 now elapsed_ns))
         = Reason.DepthInsufficient).
Proof.
  cbn zeta. intros Hknown Hqty.
  apply Qlt_bool_false_iff in Hqty.
  split; [|split; [|split]].
  - intros Hstale. unfold SignalHandler.process_signal.
    rewrite Hknown, Hqty, Hstale. now rewrite (proj1 (reason_reject _ _ _)).
  - intros Hfresh Hvalid Himpact. unfold SignalHandler.process_signal.
    rewrite Hknown, Hqty, Hfresh, Hvalid. cbn [negb].
    fold (SignalHandler.walked signal
            (exchange_from_name (BlockchainSignal.exchange signal))
            (OrderBookCache.get (SignalHandler.cache_ h)
               (exchange_from_name (BlockchainSignal.exchange signal)))).
    unfold std_abs. rewrite (proj2 (Qlt_bool_iff _ _) Himpact).
    now rewrite (proj1 (reason_reject _ _ _)).
  - intros inst_type inst_data Hinvalid. unfold SignalHandler.process_instrument_signal.
    rewrite Hknown, Hqty, Hinvalid. cbn [negb].
    now rewrite (proj1 (reason_reject _ _ _)).
  - intros inst_type inst_data Hvalid Hfresh Hdepth.
    unfold SignalHandler.process_instrument_signal.
    rewrite Hknown, Hqty, Hvalid. cbn [negb].
    rewrite (proj2 (Z.ltb_ge _ _) Hfresh).
    fold (SignalHandler.walked signal
            (exchange_from_name (BlockchainSignal.exchange signal))
            (InstrumentData.book inst_data)).
    rewrite (proj2 (Qlt_bool_iff _ _) Hdepth).
    now rewrite (proj1 (reason_reject _ _ _)).
Qed.

(** C2, instance at the failing inputs.  A deposit of 200 into the ladder
    (70 available, impact 0.17% below 0.20%) is rejected by [process_signal]
    for its impact and by [process_instrument_signal] for its depth; a
    missing book that is also six seconds old is rejected by
    [process_instrument_signal] as unavailable and by [process_signal] as
    stale. *)
Lemma C2_reject_order_witness :
  let h := handler_with BINANCE scenario_book in
  let h0 := handler_with BINANCE OrderBook.default in
  let deep := inflow "binance" 200 in
  let unavailable := instrument_with OrderBook.default in
  (* the walk of 200 leaves 130 unfilled and the impact is below 0.20 *)
  0 < PriceImpact.volume_remaining
        (TradeDecision.impact
           (SignalHandler.walked deep BINANCE
              (OrderBookCache.get (SignalHandler.cache_ h) BINANCE)))
  /\ Reason.kind_of
       (TradeDecision.reason (SignalHandler.process_signal h deep one_ms 0%Z))
     = Reason.ImpactBelowThreshold
  /\ Reason.kind_of
       (TradeDecision.reason
          (SignalHandler.process_instrument_signal h deep SPOT
             (instrument_with scenario_book) one_ms 0%Z))
     = Reason.DepthInsufficient
  (* the book is both missing and six seconds old *)
  /\ (TradingConfig.max_book_age_ms (SignalHandler.config_ h0)
      < InstrumentData.age_ms six_seconds unavailable)%Z
  /\ OrderBookCache.is_valid (SignalHandler.cache_ h0) BINANCE = false
  /\ Reason.kind_of
       (TradeDecision.reason
          (SignalHandler.process_instrument_signal h0 deep SPOT unavailable
             six_seconds 0%Z))
     = Reason.BookUnavailable
  /\ Reason.kind_of
       (TradeDecision.reason (SignalHandler.process_signal h0 deep six_seconds 0%Z))
     = Reason.BookStale.
Proof.
  cbn zeta.
  assert (Hknown : Exchange_eqb (exchange_from_name "binance") COUNT = false)
    by reflexivity.
  assert (Hqty : TradingConfig.min_deposit_btc TradingConfig.default <= 200)
    by (vm_compute; discriminate).
  destruct (C2_reject_order (handler_with BINANCE scenario_book)
              (inflow "binance" 200) one_ms 0%Z Hknown Hqty)
    as (_ & Himpact & _ & Hdepth).
  destruct (C2_reject_order (handler_with BINANCE OrderBook.default)
              (inflow "binance" 200) six_seconds 0%Z Hknown Hqty)
    as (Hstale & _ & Hunavailable & _).
  split; [vm_compute; reflexivity|].
  split; [apply Himpact; vm_compute; reflexivity|].
  split; [apply Hdepth; vm_compute; first [reflexivity | discriminate]|].
  split; [vm_compute; reflexivity|].
  split; [reflexivity|].
  split; [apply Hunavailable; reflexivity|].
  apply Hstale. reflexivity.
Defined.

(** C3.  The threshold of the profitability check, for a signal that
    reaches it.  [process_signal] compares the impact with the configured
    [fees_pct] times [min_impact_multiple]: the venue's fee does not enter.
    [process_instrument_signal] compares the adjusted impact with the
    adjusted venue fee times [min_impact_multiple] and rejects exactly when
    the former is smaller. *)
Theorem C3_required_threshold (h : SignalHandler.t) (signal : BlockchainSignal.t)
    (now elapsed_ns : Z) :
  let config := SignalHandler.config_ h in
  let cache := SignalHandler.cache_ h in
  let ex := exchange_from_name (BlockchainSignal.exchange signal) in
  let multiple := TradingConfig.min_impact_multiple config in
  Exchange_eqb ex COUNT = false ->
  TradingConfig.min_deposit_btc config <= BlockchainSignal.btc_amount signal ->
  (* process_signal: the threshold is the configured fee times the multiple *)
  (OrderBookCache.is_stale cache ex (TradingConfig.max_book_age_ms config) now = false ->
   OrderBookCache.is_valid cache ex = true ->
   let w := SignalHandler.walked signal ex (OrderBookCache.get cache ex) in
   let impact := Qabs (PriceImpact.price_drop_pct (TradeDecision.impact w)) in
   let d := SignalHandler.process_signal h signal now elapsed_ns in
   let required := TradingConfig.fees_pct config * multiple in
   (impact < required ->
    TradeDecision.should_trade d = false
    /\ TradeDecision.reason d = Reason.ImpactBelowRequired impact required)
   /\ (required <= impact ->
       PriceImpact.volume_remaining (TradeDecision.impact w) <= 0 ->
       TradeDecision.should_trade d = true
       /\ Reason.required_of (TradeDecision.reason d) = Some required))
  (* process_instrument_signal: the threshold is the adjusted venue fee times
     the multiple *)
  /\ (forall (inst_type : InstrumentType) (inst_data : InstrumentData.t),
         OrderBook.is_valid (InstrumentData.book inst_data) = true ->
         (InstrumentData.age_ms now inst_data <= TradingConfig.max_book_age_ms config)%Z ->
         let w := SignalHandler.walked signal ex (InstrumentData.book inst_data) in
         PriceImpact.volume_remaining (TradeDecision.impact w) <= 0 ->
         let adjusted :=
           SignalHandler.adjust inst_type inst_data w
             (Qabs (PriceImpact.price_drop_pct (TradeDecision.impact w)))
             (SignalHandler.venue_fees_pct config ex) in
         let d := SignalHandler.process_instrument_signal h signal inst_type inst_data
                    now elapsed_ns in
         let required := snd adjusted * multiple in
         Reason.required_of (TradeDecision.reason d) = Some required
         /\ (fst adjusted < required -> TradeDecision.should_trade d = false)
         /\ (required <= fst adjusted -> TradeDecision.should_trade d = true)).
Proof.
  cbn zeta. intros Hknown Hqty.
  apply Qlt_bool_false_iff in Hqty.
  split.
  - intros Hfresh Hvalid. unfold SignalHandler.process_signal.
    rewrite Hknown, Hqty, Hfresh, Hvalid. cbn [negb].
    fold (SignalHandler.walked signal
            (exchange_from_name (BlockchainSignal.exchange signal))
            (OrderBookCache.get (SignalHandler.cache_ h)
               (exchange_from_name (BlockchainSignal.exchange signal)))).
    unfold std_abs, TradingConfig.min_impact_pct. split.
    + intros Hlow. rewrite (proj2 (Qlt_bool_iff _ _) Hlow).
      destruct (reason_reject
                  (SignalHandler.walked signal
                     (exchange_from_name (BlockchainSignal.exchange signal))
                     (OrderBookCache.get (SignalHandler.cache_ h)
                        (exchange_from_name (BlockchainSignal.exchange signal))))
                  (Reason.ImpactBelowRequired
                     (Qabs (PriceImpact.price_drop_pct
                        (TradeDecision.impact
                           (SignalHandler.walked signal
                              (exchange_from_name (BlockchainSignal.exchange signal))
                              (OrderBookCache.get (SignalHandler.cache_ h)
                                 (exchange_from_name (BlockchainSignal.exchange signal)))))))
                     (TradingConfig.fees_pct (SignalHandler.config_ h)
                      * TradingConfig.min_impact_multiple (SignalHandler.config_ h)))
                  elapsed_ns) as (-> & -> & _).
      split; [apply should_trade_walked | reflexivity].
    + intros Hhigh Hfilled.
      rewrite (proj2 (Qlt_bool_false_iff _ _) Hhigh).
      rewrite (proj2 (Qlt_bool_false_iff _ _) Hfilled).
      split; reflexivity.
  - intros inst_type inst_data Hvalid Hfresh Hfilled.
    unfold SignalHandler.process_instrument_signal.
    rewrite Hknown, Hqty, Hvalid. cbn [negb].
    rewrite (proj2 (Z.ltb_ge _ _) Hfresh).
    fold (SignalHandler.walked signal
            (exchange_from_name (BlockchainSignal.exchange signal))
            (InstrumentData.book inst_data)).
    rewrite (proj2 (Qlt_bool_false_iff _ _) Hfilled).
    unfold std_abs.
    destruct (SignalHandler.adjust _ _ _ _ _) as [ai af]. cbn [fst snd].
    destruct (Qlt_bool ai (af * _)) eqn:E.
    + apply Qlt_bool_iff in E.
      rewrite (proj1 (reason_reject _ _ _)).
      rewrite (proj1 (proj2 (reason_reject _ _ _))).
      rewrite should_trade_walked.
      split; [reflexivity|]. split; [reflexivity|]. intros H. lra.
    + apply Qlt_bool_false_iff in E.
      split; [reflexivity|]. split; [intros H; lra | reflexivity].
Qed.

(** C3, instance at the failing input: on a venue charging 0.5% an impact of
    0.5% is accepted by [process_signal] against a threshold of
    0.10 x 2, and rejected by [process_instrument_signal]. *)
Lemma C3_required_threshold_witness :
  let h := handler_with COINBASE half_percent_book in
  let s := inflow "coinbase" 15 in
  SignalHandler.venue_fees_pct (SignalHandler.config_ h) COINBASE == 0.5
  /\ TradeDecision.should_trade (SignalHandler.process_signal h s one_ms 0%Z) = true
  /\ Reason.required_of
       (TradeDecision.reason (SignalHandler.process_signal h s one_ms 0%Z))
     = Some (TradingConfig.fees_pct TradingConfig.default
             * TradingConfig.min_impact_multiple TradingConfig.default)
  /\ TradeDecision.should_trade
       (SignalHandler.process_instrument_signal h s SPOT
          (instrument_with half_percent_book) one_ms 0%Z) = false.
Proof.
  cbn zeta.
  assert (Hknown : Exchange_eqb (exchange_from_name "coinbase") COUNT = false)
    by reflexivity.
  assert (Hqty : TradingConfig.min_deposit_btc TradingConfig.default <= 15)
    by (vm_compute; discriminate).
  destruct (C3_required_threshold (handler_with COINBASE half_percent_book)
              (inflow "coinbase" 15) one_ms 0%Z Hknown Hqty) as [Hsignal Hinst].
  split; [reflexivity|].
  assert (Htrade := proj2 (Hsignal eq_refl eq_refl)).
  cbn zeta in Htrade.
  assert (Hhigh : TradingConfig.fees_pct TradingConfig.default
                  * TradingConfig.min_impact_multiple TradingConfig.default
                  <= Qabs (PriceImpact.price_drop_pct
                             (TradeDecision.impact
                                (SignalHandler.walked (inflow "coinbase" 15) COINBASE
                                   (OrderBookCache.get
                                      (SignalHandler.cache_
                                         (handler_with COINBASE half_percent_book))
                                      COINBASE)))))
    by (vm_compute; discriminate).
  assert (Hfilled : PriceImpact.volume_remaining
                      (TradeDecision.impact
                         (SignalHandler.walked (inflow "coinbase" 15) COINBASE
                            (OrderBookCache.get
                               (SignalHandler.cache_
                                  (handler_with COINBASE half_percent_book))
                               COINBASE))) <= 0)
    by (vm_compute; discriminate).
  destruct (Htrade Hhigh Hfilled) as [Hyes Hreq].
  split; [exact Hyes|]. split; [exact Hreq|].
  assert (Hno := Hinst SPOT (instrument_with half_percent_book) eq_refl).
  cbn zeta in Hno.
  apply Hno; vm_compute; first [reflexivity | discriminate].
Defined.

(* ====================================================================== *)
(** * Further properties of the impact calculator *)
(* ====================================================================== *)

(** Sum of the volumes of a side. *)
Lemma fold_volume_shift (levels : list PriceLevel.t) :
  forall a : Q,
    fold_left (fun total level => total + PriceLevel.volume level) levels a
    == a + fold_left (fun total level => total + PriceLevel.volume level) levels 0.
Proof.
  induction levels as [|l rest IH]; intros a; cbn.
  - lra.
  - rewrite (IH (a + PriceLevel.volume l)), (IH (0 + PriceLevel.volume l)). lra.
Qed.

Lemma total_depth_all_cons (l : PriceLevel.t) (rest : list PriceLevel.t) :
  ImpactCalculator.total_depth (l :: rest) (length (l :: rest))
  == PriceLevel.volume l + ImpactCalculator.total_depth rest (length rest).
Proof.
  unfold ImpactCalculator.total_depth.
  rewrite !Nat.min_id, !firstn_all. cbn.
  rewrite fold_volume_shift. lra.
Qed.

Lemma total_depth_nonneg (levels : list PriceLevel.t) :
  Forall (fun l => 0 <= PriceLevel.volume l) levels ->
  0 <= ImpactCalculator.total_depth levels (length levels).
Proof.
  induction 1 as [|l rest Hl _ IH].
  - unfold ImpactCalculator.total_depth. cbn. lra.
  - rewrite total_depth_all_cons. lra.
Qed.

Lemma walk_nothing_left (levels : list PriceLevel.t) (impact : PriceImpact.t) (r : Q) :
  r <= 0 -> ImpactCalculator.walk levels impact r = (impact, r).
Proof.
  intros Hr. destruct levels as [|l rest]; [reflexivity|].
  cbn. apply Qle_bool_iff in Hr. rewrite Hr. reflexivity.
Qed.

Lemma last_after_head {A : Type} (l : list A) :
  forall x d : A, List.last (x :: l) d = List.last l x.
Proof.
  induction l as [|y l IH]; intros x d; [reflexivity|].
  change (List.last (x :: y :: l) d) with (List.last (y :: l) d).
  now rewrite !IH.
Qed.

(** A walk over levels whose volumes are not negative: what is left is
    between 0 and what there was; what was filled grows by at most the depth
    of the side; and when something is left, every level was taken whole. *)
Lemma walk_unfilled (levels : list PriceLevel.t) :
  Forall (fun l => 0 <= PriceLevel.volume l) levels ->
  forall (impact : PriceImpact.t) (r : Q),
    0 <= r ->
    let out := ImpactCalculator.walk levels impact r in
    let depth := ImpactCalculator.total_depth levels (length levels) in
    0 <= snd out <= r
    /\ PriceImpact.volume_filled impact <= PriceImpact.volume_filled (fst out)
       <= PriceImpact.volume_filled impact + depth
    /\ (PriceImpact.levels_eaten impact <= PriceImpact.levels_eaten (fst out)
        <= PriceImpact.levels_eaten impact + Z.of_nat (length levels))%Z
    /\ (0 < snd out ->
        PriceImpact.volume_filled (fst out) == PriceImpact.volume_filled impact + depth
        /\ PriceImpact.levels_eaten (fst out)
           = (PriceImpact.levels_eaten impact + Z.of_nat (length levels))%Z
        /\ PriceImpact.end_price (fst out)
           = List.last (map PriceLevel.price levels) (PriceImpact.end_price impact)).
Proof.
  induction 1 as [|l rest Hl Hrest IH]; intros impact r Hr.
  - cbn. unfold ImpactCalculator.total_depth. cbn.
    repeat split; try lra; try lia.
  - pose proof (total_depth_nonneg rest Hrest) as Hd.
    cbn zeta. rewrite total_depth_all_cons.
    cbn [ImpactCalculator.walk].
    destruct (Qle_bool r 0) eqn:E.
    + apply Qle_bool_iff in E. cbn [fst snd length].
      repeat split; try lra; try lia.
    + apply Qle_bool_false_iff in E.
      unfold ImpactCalculator.eat_level.
      destruct (std_min_cases r (PriceLevel.volume l)) as [[Hlt ->]|[Hge ->]].
      * destruct impact; cbn [PriceImpact.set_total_cost PriceImpact.set_volume_filled
                               PriceImpact.set_end_price PriceImpact.set_levels_eaten
                               PriceImpact.total_cost PriceImpact.volume_filled
                               PriceImpact.levels_eaten PriceImpact.end_price].
        match goal with |- context [ImpactCalculator.walk rest ?i ?q] =>
          destruct (IH i q) as (Hr' & Hf & He & Hun); [lra|];
          cbn zeta in Hr', Hf, He, Hun;
          cbn [PriceImpact.volume_filled PriceImpact.levels_eaten
               PriceImpact.end_price] in Hf, He, Hun;
          set (out := ImpactCalculator.walk rest i q) in *
        end.
        clearbody out. cbn [length map].
        split; [lra|]. split; [lra|]. split; [lia|].
        intros Hpos. destruct (Hun Hpos) as (A & B & C).
        split; [rewrite A; lra|]. split; [lia|].
        rewrite C. cbn [map]. now rewrite last_after_head.
      * rewrite walk_nothing_left by lra.
        destruct impact; cbn.
        split; [lra|]. split; [lra|]. split; [lia|].
        intros Hpos. lra.
Qed.

(** X1.  Against a side whose volumes are not negative, for the sell walk and
    for the buy walk: [volume_filled] lies between 0 and the total depth of
    the side; for a positive quantity [volume_remaining] lies between 0 and
    the quantity; [levels_eaten] is at most the number of levels; and a walk
    that leaves something unfilled has taken every level whole:
    [volume_filled] is the total depth, [levels_eaten] the number of levels
    and [end_price] the price of the last level.  Only comparisons, and sums
    formed in the order in which [total_depth] forms them, are involved. *)
Theorem X1_unfilled_walk_took_every_level (qty : Q) (levels : list PriceLevel.t)
    (is_sell : bool) :
  Forall (fun l => 0 <= PriceLevel.volume l) levels ->
  let depth := ImpactCalculator.total_depth levels (length levels) in
  let i := if is_sell then ImpactCalculator.calculate_sell_impact qty levels
           else ImpactCalculator.calculate_buy_impact qty levels in
  0 <= PriceImpact.volume_filled i <= depth
  /\ (0 < qty -> 0 <= PriceImpact.volume_remaining i <= qty)
  /\ (0 <= PriceImpact.levels_eaten i <= Z.of_nat (length levels))%Z
  /\ (0 < PriceImpact.volume_remaining i ->
      PriceImpact.volume_filled i == depth
      /\ PriceImpact.levels_eaten i = Z.of_nat (length levels)
      /\ PriceImpact.end_price i = List.last (map PriceLevel.price levels) 0).
Proof.
  intros Hv depth i.
  assert (Hd : 0 <= depth) by exact (total_depth_nonneg levels Hv).
  destruct levels as [|top rest].
  { assert (Hi : i = PriceImpact.set_volume_remaining qty PriceImpact.default)
      by (subst i; destruct is_sell; reflexivity).
    rewrite Hi. cbn. unfold ImpactCalculator.total_depth in *. cbn in *.
    repeat split; try lra; try lia. }
  destruct (Qle_bool qty 0) eqn:E.
  { assert (Hi : i = PriceImpact.set_volume_remaining qty PriceImpact.default).
    { subst i. unfold ImpactCalculator.calculate_sell_impact,
        ImpactCalculator.calculate_buy_impact. rewrite E. now destruct is_sell. }
    apply Qle_bool_iff in E. rewrite Hi. cbn [PriceImpact.set_volume_remaining
      PriceImpact.default PriceImpact.volume_filled PriceImpact.volume_remaining
      PriceImpact.levels_eaten PriceImpact.end_price].
    split; [lra|]. split; [lra|]. split; [lia|]. intros; lra. }
  assert (Hq : 0 < qty) by (apply Qlt_bool_iff; unfold Qlt_bool; now rewrite E).
  set (i0 := PriceImpact.set_end_price (PriceLevel.price top)
               (PriceImpact.set_start_price (PriceLevel.price top) PriceImpact.default)).
  destruct (walk_unfilled (top :: rest) Hv i0 qty) as (Hr & Hf & He & Hun); [lra|].
  cbn zeta in Hr, Hf, He, Hun. fold depth in Hf, Hun.
  change (PriceImpact.volume_filled i0) with 0 in Hf, Hun.
  change (PriceImpact.levels_eaten i0) with 0%Z in He, Hun.
  change (PriceImpact.end_price i0) with (PriceLevel.price top) in Hun.
  assert (Hi : PriceImpact.volume_filled i
               = PriceImpact.volume_filled (fst (ImpactCalculator.walk (top :: rest) i0 qty))
               /\ PriceImpact.volume_remaining i
                  = snd (ImpactCalculator.walk (top :: rest) i0 qty)
               /\ PriceImpact.levels_eaten i
                  = PriceImpact.levels_eaten (fst (ImpactCalculator.walk (top :: rest) i0 qty))
               /\ PriceImpact.end_price i
                  = PriceImpact.end_price (fst (ImpactCalculator.walk (top :: rest) i0 qty))).
  { subst i.
    destruct is_sell;
      [unfold ImpactCalculator.calculate_sell_impact
      |unfold ImpactCalculator.calculate_buy_impact];
      rewrite E; cbn zeta;
      change (PriceImpact.start_price
                (PriceImpact.set_start_price (PriceLevel.price top) PriceImpact.default))
        with (PriceLevel.price top); fold i0;
      destruct (ImpactCalculator.walk (top :: rest) i0 qty) as [w r];
      cbn [fst snd]; destruct w; cbn;
      destruct (Qlt_bool 0 volume_filled); cbn;
      destruct (Qlt_bool 0 start_price); cbn; repeat split; reflexivity. }
  destruct Hi as (-> & -> & -> & ->).
  split; [lra|]. split; [intros _; lra|]. split; [lia|].
  intros Hpos. destruct (Hun Hpos) as (A & B & C).
  split; [rewrite A; lra|]. split; [lia|].
  rewrite C. cbn [map]. now rewrite !last_after_head.
Qed.

Lemma X1_unfilled_walk_took_every_level_witness :
  let sold := ImpactCalculator.calculate_sell_impact 200 scenario_bids in
  Forall (fun l => 0 <= PriceLevel.volume l) scenario_bids
  /\ 0 < PriceImpact.volume_remaining sold
  /\ PriceImpact.volume_filled sold
     == ImpactCalculator.total_depth scenario_bids (length scenario_bids)
  /\ PriceImpact.levels_eaten sold = 4%Z
  /\ PriceImpact.end_price sold = 86850.
Proof.
  cbn zeta.
  assert (Hv : Forall (fun l => 0 <= PriceLevel.volume l) scenario_bids).
  { repeat constructor; cbn; discriminate. }
  assert (Hleft : 0 < PriceImpact.volume_remaining
                        (ImpactCalculator.calculate_sell_impact 200 scenario_bids))
    by reflexivity.
  destruct (X1_unfilled_walk_took_every_level 200 scenario_bids true Hv)
    as (_ & _ & _ & Hall).
  destruct (Hall Hleft) as (Hf & He & Hp).
  split; [exact Hv|]. split; [exact Hleft|]. split; [exact Hf|].
  split; [exact He | exact Hp].
Defined.

(** The loop of [calculate_vwap] is the walk, on three of its locals. *)
Lemma vwap_loop_walk (levels : list PriceLevel.t) :
  forall (impact : PriceImpact.t) (remaining : Q),
    ImpactCalculator.vwap_loop levels remaining
      (PriceImpact.total_cost impact) (PriceImpact.volume_filled impact)
    = (snd (ImpactCalculator.walk levels impact remaining),
       PriceImpact.total_cost (fst (ImpactCalculator.walk levels impact remaining)),
       PriceImpact.volume_filled (fst (ImpactCalculator.walk levels impact remaining))).
Proof.
  induction levels as [|l rest IH]; intros impact remaining; cbn.
  - reflexivity.
  - destruct (Qle_bool remaining 0); [reflexivity|].
    destruct impact; cbn.
    match goal with |- _ = (snd (ImpactCalculator.walk rest ?i ?r), _, _) =>
      rewrite <- (IH i r) end.
    reflexivity.
Qed.

Lemma walk_keeps_start (levels : list PriceLevel.t) :
  forall (impact : PriceImpact.t) (remaining : Q),
    PriceImpact.start_price (fst (ImpactCalculator.walk levels impact remaining))
    = PriceImpact.start_price impact.
Proof.
  intros impact remaining.
  apply (walk_refines_takes levels impact remaining).
Qed.

(** X2.  For a positive volume [calculate_vwap] returns the [vwap] field of
    [calculate_sell_impact], and of [calculate_buy_impact], on the same
    levels.  For a volume that is not positive it returns the top price (0 on
    an empty side), where the walk leaves [vwap] at 0. *)
Theorem X2_calculate_vwap_is_the_walk_vwap (levels : list PriceLevel.t) (volume : Q) :
  (0 < volume ->
   ImpactCalculator.calculate_vwap levels volume
   = PriceImpact.vwap (ImpactCalculator.calculate_sell_impact volume levels)
   /\ ImpactCalculator.calculate_vwap levels volume
      = PriceImpact.vwap (ImpactCalculator.calculate_buy_impact volume levels))
  /\ (volume <= 0 ->
      ImpactCalculator.calculate_vwap levels volume
      = match levels with [] => 0 | top :: _ => PriceLevel.price top end
      /\ PriceImpact.vwap (ImpactCalculator.calculate_sell_impact volume levels) = 0).
Proof.
  split.
  - intros Hv.
    unfold ImpactCalculator.calculate_vwap, ImpactCalculator.calculate_sell_impact,
      ImpactCalculator.calculate_buy_impact.
    destruct levels as [|top rest]; [split; reflexivity|].
    destruct (Qle_bool volume 0) eqn:E; [apply Qle_bool_iff in E; lra|].
    set (i0 := PriceImpact.set_end_price _ _).
    pose proof (vwap_loop_walk (top :: rest) i0 volume) as Hl.
    pose proof (walk_keeps_start (top :: rest) i0 volume) as Hs.
    change (PriceImpact.total_cost i0) with 0 in Hl.
    change (PriceImpact.volume_filled i0) with 0 in Hl.
    change (PriceImpact.start_price i0) with (PriceLevel.price top) in Hs.
    rewrite Hl.
    destruct (ImpactCalculator.walk (top :: rest) i0 volume) as [i r].
    cbn [fst snd] in *. destruct i; cbn in *. subst.
    split.
    + destruct (Qlt_bool 0 volume_filled); cbn;
        destruct (Qlt_bool 0 (PriceLevel.price top)); reflexivity.
    + destruct (Qlt_bool 0 volume_filled); cbn;
        destruct (Qlt_bool 0 (PriceLevel.price top)); reflexivity.
  - intros Hv. apply Qle_bool_iff in Hv.
    unfold ImpactCalculator.calculate_vwap, ImpactCalculator.calculate_sell_impact.
    destruct levels as [|top rest]; [split; reflexivity|].
    rewrite Hv. split; reflexivity.
Qed.

Lemma X2_calculate_vwap_is_the_walk_vwap_witness :
  ImpactCalculator.calculate_vwap scenario_bids 50
  = PriceImpact.vwap (ImpactCalculator.calculate_sell_impact 50 scenario_bids)
  /\ ImpactCalculator.calculate_vwap scenario_bids 50 == 86930
  /\ ImpactCalculator.calculate_vwap scenario_bids 0 = 87000
  /\ PriceImpact.vwap (ImpactCalculator.calculate_sell_impact 0 scenario_bids) = 0.
Proof.
  assert (H50 : 0 < 50) by reflexivity.
  assert (H0 : 0 <= 0) by discriminate.
  destruct (X2_calculate_vwap_is_the_walk_vwap scenario_bids 50) as [Hpos _].
  destruct (X2_calculate_vwap_is_the_walk_vwap scenario_bids 0) as [_ Hnon].
  destruct (Hpos H50) as [Hs _]. destruct (Hnon H0) as [Ht Hz].
  split; [exact Hs|]. split; [reflexivity|]. split; [exact Ht | exact Hz].
Defined.

(** ** The quantity [min_btc_for_impact] returns *)

Lemma total_depth_prefix_cons (l : PriceLevel.t) (rest : list PriceLevel.t) (k : nat) :
  (k <= length rest)%nat ->
  ImpactCalculator.total_depth (l :: rest) (S k)
  == PriceLevel.volume l + ImpactCalculator.total_depth rest k.
Proof.
  intros Hk. unfold ImpactCalculator.total_depth.
  cbn [length]. rewrite (Nat.min_l (S k)), (Nat.min_l k) by lia.
  cbn [take firstn fold_left]. rewrite fold_volume_shift. lra.
Qed.

(** The loop of [min_btc_for_impact] adds up the levels that precede the
    first one at or below the target price. *)
Lemma volume_above_prefix (tp : Q) (bids : list PriceLevel.t) :
  exists k : nat,
    (k <= length bids)%nat
    /\ (forall a, ImpactCalculator.volume_above tp bids a
                  == a + ImpactCalculator.total_depth bids k)
    /\ (forall j l, (j < k)%nat -> bids !! j = Some l -> tp < PriceLevel.price l)
    /\ (forall l, bids !! k = Some l -> PriceLevel.price l <= tp).
Proof.
  induction bids as [|l rest (k & Hk & Hsum & Habove & Hstop)].
  - exists 0%nat. split; [reflexivity|]. split; [|split].
    + intros a. unfold ImpactCalculator.total_depth. cbn. lra.
    + intros j l Hj. lia.
    + intros l Hl. discriminate Hl.
  - destruct (Qle_bool (PriceLevel.price l) tp) eqn:E.
    + exists 0%nat. split; [cbn; lia|]. split; [|split].
      * intros a. cbn [ImpactCalculator.volume_above]. rewrite E.
        unfold ImpactCalculator.total_depth. cbn. lra.
      * intros j l' Hj. lia.
      * intros l' Hl'. cbn in Hl'. inversion Hl'; subst.
        now apply Qle_bool_iff.
    + exists (S k). split; [cbn; lia|]. split; [|split].
      * intros a. cbn [ImpactCalculator.volume_above]. rewrite E.
        rewrite Hsum, (total_depth_prefix_cons l rest k Hk). lra.
      * intros j l' Hj Hl'. destruct j as [|j].
        -- cbn in Hl'. inversion Hl'; subst. now apply Qle_bool_false_iff in E.
        -- cbn in Hl'. apply (Habove j l'); [lia | exact Hl'].
      * intros l' Hl'. cbn in Hl'. now apply Hstop.
Qed.

Lemma total_depth_prefix_bounds (levels : list PriceLevel.t) :
  Forall (fun l => 0 <= PriceLevel.volume l) levels ->
  forall k : nat,
    0 <= ImpactCalculator.total_depth levels k
    <= ImpactCalculator.total_depth levels (length levels).
Proof.
  induction 1 as [|l rest Hl Hrest IH]; intros k.
  - unfold ImpactCalculator.total_depth. cbn. rewrite take_nil. cbn. lra.
  - rewrite total_depth_all_cons. destruct k as [|k].
    + pose proof (total_depth_nonneg rest Hrest).
      unfold ImpactCalculator.total_depth at 1 2. cbn. lra.
    + destruct (Nat.le_gt_cases k (length rest)) as [Hk|Hk].
      * rewrite (total_depth_prefix_cons l rest k Hk). specialize (IH k). lra.
      * assert (E : ImpactCalculator.total_depth (l :: rest) (S k)
                    = ImpactCalculator.total_depth (l :: rest) (length (l :: rest))).
        { unfold ImpactCalculator.total_depth. cbn [length].
          now rewrite Nat.min_id, Nat.min_r by lia. }
        rewrite E, total_depth_all_cons.
        pose proof (total_depth_nonneg rest Hrest). lra.
Qed.

Lemma volume_above_at_least (tp : Q) (levels : list PriceLevel.t) :
  Forall (fun l => 0 <= PriceLevel.volume l) levels ->
  forall a, a <= ImpactCalculator.volume_above tp levels a.
Proof.
  induction 1 as [|l rest Hl _ IH]; intros a; cbn.
  - lra.
  - destruct (Qle_bool (PriceLevel.price l) tp); [lra|].
    specialize (IH (a + PriceLevel.volume l)). lra.
Qed.

(** A lower target price lets the loop run at least as far. *)
Lemma volume_above_antitone (tp1 tp2 : Q) (levels : list PriceLevel.t) :
  tp2 <= tp1 ->
  Forall (fun l => 0 <= PriceLevel.volume l) levels ->
  forall a,
    ImpactCalculator.volume_above tp1 levels a
    <= ImpactCalculator.volume_above tp2 levels a.
Proof.
  intros Htp. induction 1 as [|l rest Hl Hrest IH]; intros a; cbn.
  - lra.
  - destruct (Qle_bool (PriceLevel.price l) tp1) eqn:E1.
    + destruct (Qle_bool (PriceLevel.price l) tp2) eqn:E2; [lra|].
      pose proof (volume_above_at_least tp2 rest Hrest (a + PriceLevel.volume l)). lra.
    + apply Qle_bool_false_iff in E1.
      destruct (Qle_bool (PriceLevel.price l) tp2) eqn:E2.
      * apply Qle_bool_iff in E2. lra.
      * apply IH.
Qed.

Lemma volume_above_everything (tp : Q) (levels : list PriceLevel.t) :
  Forall (fun l => tp < PriceLevel.price l) levels ->
  forall a,
    ImpactCalculator.volume_above tp levels a
    == a + ImpactCalculator.total_depth levels (length levels).
Proof.
  induction 1 as [|l rest Hl _ IH]; intros a.
  - unfold ImpactCalculator.total_depth. cbn. lra.
  - cbn [ImpactCalculator.volume_above].
    destruct (Qle_bool (PriceLevel.price l) tp) eqn:E;
      [apply Qle_bool_iff in E; lra|].
    rewrite IH, total_depth_all_cons. lra.
Qed.

Lemma min_btc_prefix (bids : list PriceLevel.t) (t : Q) :
  exists k : nat,
    ImpactCalculator.min_btc_for_impact bids t == ImpactCalculator.total_depth bids k.
Proof.
  unfold ImpactCalculator.min_btc_for_impact.
  destruct bids as [|top rest]; [exists 0%nat; reflexivity|].
  destruct (Qle_bool t 0).
  - exists 0%nat. unfold ImpactCalculator.total_depth. cbn. lra.
  - destruct (volume_above_prefix (PriceLevel.price top * (1 - t / 100)) (top :: rest))
      as (k & _ & Hsum & _).
    exists k. rewrite Hsum. lra.
Qed.


(** X4.  On a side with positive prices and volumes that are not negative,
    [min_btc_for_impact] grows with the target: for [t1 <= t2],
    [0 <= min_btc(t1) <= min_btc(t2) <= total depth]; and a target of 100
    percent or more asks for the whole side. *)
Theorem X4_min_btc_grows_with_the_target (bids : list PriceLevel.t) (t1 t2 : Q) :
  Forall (fun l => 0 <= PriceLevel.volume l) bids ->
  Forall (fun l => 0 < PriceLevel.price l) bids ->
  t1 <= t2 ->
  0 <= ImpactCalculator.min_btc_for_impact bids t1
  /\ ImpactCalculator.min_btc_for_impact bids t1
     <= ImpactCalculator.min_btc_for_impact bids t2
  /\ ImpactCalculator.min_btc_for_impact bids t2
     <= ImpactCalculator.total_depth bids (length bids)
  /\ (100 <= t2 ->
      ImpactCalculator.min_btc_for_impact bids t2
      == ImpactCalculator.total_depth bids (length bids)).
Proof.
  intros Hv Hp Ht.
  assert (Hbound : forall t,
             0 <= ImpactCalculator.min_btc_for_impact bids t
             <= ImpactCalculator.total_depth bids (length bids)).
  { intros t. destruct (min_btc_prefix bids t) as (k & E). rewrite E.
    apply total_depth_prefix_bounds, Hv. }
  split; [apply Hbound|]. split; [|split; [apply Hbound|]].
  - unfold ImpactCalculator.min_btc_for_impact.
    destruct bids as [|top rest]; [lra|].
    pose proof (Forall_inv Hp) as Hs.
    destruct (Qle_bool t1 0) eqn:E1.
    + destruct (Qle_bool t2 0); [lra|].
      pose proof (volume_above_at_least
                    (PriceLevel.price top * (1 - t2 / 100)) (top :: rest) Hv 0). lra.
    + apply Qle_bool_false_iff in E1.
      destruct (Qle_bool t2 0) eqn:E2; [apply Qle_bool_iff in E2; lra|].
      apply volume_above_antitone; [|exact Hv].
      assert (H1 : t1 / 100 == t1 * (1 # 100)) by (unfold Qdiv; reflexivity).
      assert (H2 : t2 / 100 == t2 * (1 # 100)) by (unfold Qdiv; reflexivity).
      cbn beta in Hs.
      set (x1 := t1 / 100) in *. set (x2 := t2 / 100) in *.
      set (p := PriceLevel.price top) in *. clearbody x1 x2 p.
      assert (Hx : x1 <= x2) by lra. nra.
  - intros H100. unfold ImpactCalculator.min_btc_for_impact.
    destruct bids as [|top rest].
    { unfold ImpactCalculator.total_depth. cbn. lra. }
    destruct (Qle_bool t2 0) eqn:E2; [apply Qle_bool_iff in E2; lra|].
    pose proof (Forall_inv Hp) as Hs.
    rewrite volume_above_everything; [lra|].
    eapply Forall_impl; [exact Hp|]. intros l Hl. cbn beta in Hl.
    assert (H2 : t2 / 100 == t2 * (1 # 100)) by (unfold Qdiv; reflexivity).
    cbn beta in Hs.
    set (x2 := t2 / 100) in *. set (p := PriceLevel.price top) in *.
    set (q := PriceLevel.price l) in *. clearbody x2 p q.
    assert (Hx : 1 <= x2) by lra. nra.
Qed.

Lemma X4_min_btc_grows_with_the_target_witness :
  ImpactCalculator.min_btc_for_impact scenario_bids 0.1 == 25
  /\ ImpactCalculator.min_btc_for_impact scenario_bids 100 == 70
  /\ ImpactCalculator.min_btc_for_impact scenario_bids 0.1
     <= ImpactCalculator.min_btc_for_impact scenario_bids 100
  /\ ImpactCalculator.min_btc_for_impact scenario_bids 100
     == ImpactCalculator.total_depth scenario_bids (length scenario_bids).
Proof.
  split; [reflexivity|]. split; [reflexivity|].
  assert (Hv : Forall (fun l => 0 <= PriceLevel.volume l) scenario_bids).
  { repeat constructor; cbn; discriminate. }
  assert (Hp : Forall (fun l => 0 < PriceLevel.price l) scenario_bids).
  { repeat constructor; cbn; reflexivity. }
  assert (Ht : 0.1 <= 100) by discriminate.
  assert (H100 : 100 <= 100) by discriminate.
  destruct (X4_min_btc_grows_with_the_target scenario_bids 0.1 100 Hv Hp Ht)
    as (_ & Hle & _ & Hall).
  split; [exact Hle | exact (Hall H100)].
Defined.

(** ** Cumulative depth *)




(** ** Exit price and analysis *)







(* ====================================================================== *)
(** * Further properties of the venue and instrument tables *)
(* ====================================================================== *)

(** ** Venue tables *)

Lemma max_leverage_at_least_one (ex : Exchange) :
  (1 <= cfg_max_leverage (get_exchange_config ex))%Z.
Proof. destruct ex; cbn; lia. Qed.

(** X8.  For every venue the configuration carries the venue as its [id], its
    [has_perpetual] flag equals [has_perpetuals], a venue without perpetuals
    has leverage 1 and every leverage is at least 1.  [has_perpetuals] holds
    for [PERPETUAL_EXCHANGES] of the [TOTAL_EXCHANGES] venues and fails for
    the [SPOT_ONLY_EXCHANGES] others. *)
Theorem X8_perpetual_venues_agree (ex : Exchange) :
  cfg_id (get_exchange_config ex) = ex
  /\ has_perpetual (get_exchange_config ex) = has_perpetuals ex
  /\ (has_perpetuals ex = false -> cfg_max_leverage (get_exchange_config ex) = 1%Z)
  /\ (1 <= cfg_max_leverage (get_exchange_config ex))%Z
  /\ length (filter (fun e => has_perpetuals e = true) all_exchanges)
     = PERPETUAL_EXCHANGES
  /\ length (filter (fun e => has_perpetuals e = false) all_exchanges)
     = SPOT_ONLY_EXCHANGES
  /\ length all_exchanges = TOTAL_EXCHANGES.
Proof.
  split; [destruct ex; reflexivity|].
  split; [destruct ex; reflexivity|].
  split; [destruct ex; intros H; first [reflexivity | discriminate H]|].
  split; [apply max_leverage_at_least_one|].
  split; [vm_compute; reflexivity|].
  split; vm_compute; reflexivity.
Qed.

Lemma X8_perpetual_venues_agree_witness :
  cfg_max_leverage (get_exchange_config KRAKEN) = 1%Z.
Proof.
  apply (proj1 (proj2 (proj2 (X8_perpetual_venues_agree KRAKEN)))). reflexivity.
Defined.

Lemma venue_fee_in_range (ex : Exchange) :
  Qle_bool 0.1 (fee_pct (get_exchange_config ex) * 100)
  && Qle_bool (fee_pct (get_exchange_config ex) * 100) 0.5 = true.
Proof. destruct ex; reflexivity. Qed.

(** X9.  The venue fee the handlers compute, [fee_pct * 100] replaced by the
    configured fee when it is below 0.01, is never replaced: every value of
    the enumeration, [COUNT] included, has a fee between 0.1 and 0.5
    percent. *)
Theorem X9_venue_fee_never_defaults (config : TradingConfig.t) (ex : Exchange) :
  SignalHandler.venue_fees_pct config ex = fee_pct (get_exchange_config ex) * 100
  /\ 0.1 <= SignalHandler.venue_fees_pct config ex <= 0.5.
Proof.
  pose proof (venue_fee_in_range ex) as H.
  apply andb_prop in H as [Hlo Hhi].
  apply Qle_bool_iff in Hlo. apply Qle_bool_iff in Hhi.
  unfold SignalHandler.venue_fees_pct. cbn zeta.
  destruct (Qlt_bool (fee_pct (get_exchange_config ex) * 100) 0.01) eqn:E.
  - apply Qlt_bool_iff in E. lra.
  - split; [reflexivity|]. split; assumption.
Qed.

Lemma leverage_at_least_one (d : TradeDecision.t) : (1 <= TradeDecision.leverage d)%Z.
Proof.
  unfold TradeDecision.leverage.
  destruct (Exchange_eqb (TradeDecision.exchange d) COUNT); [lia|].
  apply max_leverage_at_least_one.
Qed.

(** X10.  A decision's leverage is at least 1, its [expected_return] is never
    negative, and it is positive exactly when the absolute impact exceeds the
    fees. *)
Theorem X10_expected_return_never_negative (d : TradeDecision.t) (fees_pct : Q) :
  (1 <= TradeDecision.leverage d)%Z
  /\ 0 <= TradeDecision.expected_return d fees_pct
  /\ (0 < TradeDecision.expected_return d fees_pct
      <-> fees_pct < Qabs (PriceImpact.price_drop_pct (TradeDecision.impact d))).
Proof.
  pose proof (leverage_at_least_one d) as Hl.
  split; [exact Hl|].
  unfold TradeDecision.expected_return, PriceImpact.leveraged_return,
    PriceImpact.expected_profit_pct, std_abs.
  set (p := Qabs (PriceImpact.price_drop_pct (TradeDecision.impact d))). clearbody p.
  assert (HL : 1 <= inject_Z (TradeDecision.leverage d)).
  { change 1 with (inject_Z 1). rewrite <- Zle_Qle. exact Hl. }
  set (L := inject_Z (TradeDecision.leverage d)) in *. clearbody L.
  destruct (Qlt_bool 0 (p - fees_pct)) eqn:E.
  - apply Qlt_bool_iff in E. split; [nra|]. split; [intros _; lra | intros _; nra].
  - apply Qlt_bool_false_iff in E. split; [lra|]. split; intros H; lra.
Qed.

(** ** Instrument names *)

Lemma instrument_from_name_miss (name : string) :
  ~ In name INSTRUMENT_NAMES -> instrument_from_name name = INST_COUNT.
Proof.
  intros Hn. unfold instrument_from_name. cbn.
  repeat match goal with
  | |- context [String.eqb name ?s] =>
      destruct (String.eqb_spec name s) as [->|_];
        [exfalso; apply Hn; cbn; tauto|]
  end.
  reflexivity.
Qed.

(** X11.  [instrument_from_name (instrument_name t) = t] for the seven instrument
    types; a name that is not in [INSTRUMENT_NAMES], the name ["unknown"] of
    [INST_COUNT] among them, maps to [INST_COUNT]; the seven names are
    pairwise distinct. *)
Theorem X11_instrument_name_round_trip :
  (forall t : InstrumentType, t <> INST_COUNT ->
     instrument_from_name (instrument_name t) = t)
  /\ (forall name : string,
        ~ In name INSTRUMENT_NAMES -> instrument_from_name name = INST_COUNT)
  /\ instrument_from_name (instrument_name INST_COUNT) = INST_COUNT
  /\ NoDup INSTRUMENT_NAMES
  /\ length INSTRUMENT_NAMES = TOTAL_INSTRUMENTS.
Proof.
  split; [intros [] H; first [reflexivity | congruence]|].
  split; [exact instrument_from_name_miss|].
  split; [reflexivity|].
  split; [|reflexivity].
  apply (bool_decide_unpack _). vm_compute. exact I.
Qed.

Lemma X11_instrument_name_round_trip_witness :
  instrument_from_name (instrument_name PERPETUAL) = PERPETUAL
  /\ instrument_from_name "swap" = INST_COUNT.
Proof.
  destruct X11_instrument_name_round_trip as (Hrt & Hmiss & _).
  split.
  - apply Hrt. discriminate.
  - apply Hmiss. cbn. intros H.
    repeat (destruct H as [H|H]; [discriminate H|]). exact H.
Defined.

(** ** The instrument bitfield *)

Lemma land_single_bit (m n : Z) :
  (0 <= n)%Z ->
  Z.land m (Z.shiftl 1 n) = if Z.testbit m n then (2 ^ n)%Z else 0%Z.
Proof.
  intros Hn. rewrite Z.shiftl_1_l.
  apply Z.bits_inj'. intros k Hk.
  rewrite Z.land_spec, Z.pow2_bits_eqb by exact Hn.
  destruct (Z.eqb_spec n k) as [->|Hne].
  - destruct (Z.testbit m k); cbn.
    + rewrite Z.pow2_bits_eqb, Z.eqb_refl by exact Hk. reflexivity.
    + rewrite Z.bits_0. reflexivity.
  - rewrite andb_false_r. destruct (Z.testbit m n).
    + rewrite Z.pow2_bits_eqb by exact Hn.
      symmetry. apply Z.eqb_neq. exact Hne.
    + rewrite Z.bits_0. reflexivity.
Qed.

Lemma supports_instrument_testbit (supported : Z) (type : InstrumentType) :
  supports_instrument supported type
  = Z.testbit supported (Z.of_nat (instrument_index type)).
Proof.
  unfold supports_instrument.
  rewrite land_single_bit by lia.
  destruct (Z.testbit supported _); [|reflexivity].
  assert (0 < 2 ^ Z.of_nat (instrument_index type))%Z by (apply Z.pow_pos_nonneg; lia).
  destruct (Z.eqb_spec (2 ^ Z.of_nat (instrument_index type)) 0); [lia | reflexivity].
Qed.

(** X12.  [supports_instrument] tests the bit of the instrument type, so the
    union of two bitfields supports what either supports.  In the table of
    [get_exchange_instruments] every entry carries its venue, a non-empty
    bitfield within 7 bits (so [INST_COUNT] is never supported); for every
    venue and instrument type the bit is set exactly when the configuration
    of that instrument is marked available; every venue listing [PERPETUAL]
    is one of the perpetual venues.  For the value [COUNT] the default entry
    supports [SPOT] with a configuration that is not available. *)
Theorem X12_instrument_bitfield_and_table (ex : Exchange) (a b : Z)
    (type : InstrumentType) :
  let table := get_exchange_instruments ex in
  (* the helper tests one bit *)
  supports_instrument a type = Z.testbit a (Z.of_nat (instrument_index type))
  /\ supports_instrument (Z.lor a b) type
     = supports_instrument a type || supports_instrument b type
  (* the table *)
  /\ ExchangeInstruments.id table = ex
  /\ (0 < ExchangeInstruments.supported table < 128)%Z
  /\ ExchangeInstruments.has table INST_COUNT = false
  /\ (ex <> COUNT -> type <> INST_COUNT ->
      ExchangeInstruments.has table type
      = InstrumentConfig.available (ExchangeInstruments.get table type))
  /\ (ExchangeInstruments.has table PERPETUAL = true -> has_perpetuals ex = true)
  /\ ExchangeInstruments.has (get_exchange_instruments COUNT) SPOT = true
  /\ InstrumentConfig.available
       (ExchangeInstruments.get (get_exchange_instruments COUNT) SPOT) = false.
Proof.
  cbn zeta.
  split; [apply supports_instrument_testbit|].
  split; [rewrite !supports_instrument_testbit; apply Z.lor_spec|].
  split; [destruct ex; reflexivity|].
  split; [destruct ex; vm_compute; split; reflexivity|].
  split; [destruct ex; vm_compute; reflexivity|].
  split.
  { intros Hne Ht.
    destruct ex; try congruence; destruct type; try congruence; vm_compute; reflexivity. }
  split.
  { destruct ex; intros H; first [reflexivity | vm_compute in H; discriminate H]. }
  split; vm_compute; reflexivity.
Qed.

Lemma X12_instrument_bitfield_and_table_witness :
  ExchangeInstruments.has (get_exchange_instruments DERIBIT) SPOT
  = InstrumentConfig.available
      (ExchangeInstruments.get (get_exchange_instruments DERIBIT) SPOT)
  /\ ExchangeInstruments.has (get_exchange_instruments DERIBIT) SPOT = false
  /\ has_perpetuals DERIBIT = true.
Proof.
  destruct (X12_instrument_bitfield_and_table DERIBIT 0 0 SPOT)
    as (_ & _ & _ & _ & _ & Hav & Hp & _).
  split; [apply Hav; discriminate|].
  split; [reflexivity|].
  apply Hp. reflexivity.
Defined.

(* ====================================================================== *)
(** * Further properties of the caches *)
(* ====================================================================== *)

(** ** OrderBookCache: staleness, partial writes and counts *)

Lemma age_exceeds_iff (max_age_ms age_ns : Z) :
  (0 <= max_age_ms)%Z ->
  (max_age_ms < duration_ms age_ns)%Z <-> ((max_age_ms + 1) * 1000000 <= age_ns)%Z.
Proof.
  intros Hm. unfold duration_ms.
  pose proof (Z.quot_rem' age_ns 1000000) as Hq.
  destruct (Z.le_gt_cases 0 age_ns) as [Hn|Hn].
  - pose proof (Z.rem_bound_pos age_ns 1000000 ltac:(lia) ltac:(lia)). lia.
  - pose proof (Z.rem_bound_pos (- age_ns) 1000000 ltac:(lia) ltac:(lia)) as Hr.
    rewrite Z.rem_opp_l' in Hr. lia.
Qed.

Lemma order_book_get_after_update (c : OrderBookCache.t) (ex : Exchange)
    (book : OrderBook.t) (now : Z) :
  OrderBookCache.well_sized c -> ex <> COUNT ->
  OrderBookCache.book_at (OrderBookCache.update c ex book now) (exchange_index ex)
  = OrderBook.set_sequence
      (u64_incr (OrderBookCache.counter_at c (exchange_index ex)))
      (OrderBook.set_timestamp now book).
Proof.
  intros Hw Hex. rewrite update_as_bump by exact Hex.
  apply (bump_spec c (exchange_index ex) _ Hw (proj2 (in_range ex Hex))).
Qed.

(** X13.  A book written at time [written] to a valid venue is stale for
    [max_age_ms >= 0] exactly from [(max_age_ms + 1)] full milliseconds after
    the write; it is not stale at the time of the write; the out-of-range
    venue is always stale. *)
Theorem X13_stale_from_the_next_millisecond (c : OrderBookCache.t) (ex : Exchange)
    (book : OrderBook.t) (written now max_age_ms : Z) :
  OrderBookCache.well_sized c -> ex <> COUNT -> (0 <= max_age_ms)%Z ->
  let c' := OrderBookCache.update c ex book written in
  (OrderBookCache.is_stale c' ex max_age_ms now = true
   <-> ((max_age_ms + 1) * 1000000 <= now - written)%Z)
  /\ OrderBookCache.is_stale c' ex max_age_ms written = false
  /\ OrderBookCache.is_stale c' COUNT max_age_ms now = true.
Proof.
  intros Hw Hex Hm. cbn zeta.
  assert (Hs : forall t,
             OrderBookCache.is_stale (OrderBookCache.update c ex book written) ex
               max_age_ms t
             = (max_age_ms <? duration_ms (t - written))%Z).
  { intros t. unfold OrderBookCache.is_stale.
    rewrite (proj1 (in_range ex Hex)).
    rewrite order_book_get_after_update by assumption. reflexivity. }
  split; [|split].
  - rewrite Hs, Z.ltb_lt. apply age_exceeds_iff. exact Hm.
  - rewrite Hs, Z.sub_diag. apply Z.ltb_ge. cbn. exact Hm.
  - reflexivity.
Qed.

Lemma X13_stale_from_the_next_millisecond_witness :
  let c := OrderBookCache.update OrderBookCache.empty GEMINI test_book 0%Z in
  OrderBookCache.is_stale c GEMINI 5000 5000999999 = false
  /\ OrderBookCache.is_stale c GEMINI 5000 5001000000 = true.
Proof.
  cbn zeta.
  assert (Hne : GEMINI <> COUNT) by discriminate.
  assert (Hm : (0 <= 5000)%Z) by lia.
  split.
  - destruct (OrderBookCache.is_stale
                (OrderBookCache.update OrderBookCache.empty GEMINI test_book 0%Z)
                GEMINI 5000 5000999999) eqn:E; [|reflexivity].
    apply (proj1 (X13_stale_from_the_next_millisecond OrderBookCache.empty GEMINI
                    test_book 0%Z 5000999999%Z 5000%Z well_sized_empty Hne Hm)) in E.
    lia.
  - apply (proj1 (X13_stale_from_the_next_millisecond OrderBookCache.empty GEMINI
                    test_book 0%Z 5001000000%Z 5000%Z well_sized_empty Hne Hm)).
    lia.
Defined.

Lemma order_book_side_write (c : OrderBookCache.t) (ex : Exchange) (b : OrderBook.t) :
  OrderBookCache.well_sized c -> ex <> COUNT ->
  let c' := OrderBookCache.bump c (exchange_index ex) b in
  OrderBookCache.well_sized c'
  /\ OrderBookCache.get c' ex
     = OrderBook.set_sequence (u64_incr (OrderBookCache.get_sequence c ex)) b
  /\ OrderBookCache.get_sequence c' ex = u64_incr (OrderBookCache.get_sequence c ex).
Proof.
  intros Hw Hex. cbn zeta.
  destruct (bump_spec c (exchange_index ex) b Hw (proj2 (in_range ex Hex)))
    as (Hw' & Hc & Hb & _).
  unfold OrderBookCache.get, OrderBookCache.get_sequence.
  rewrite (proj1 (in_range ex Hex)).
  split; [exact Hw'|]. split; assumption.
Qed.

(** X14.  [update_bids] replaces the bid side and keeps the ask side; followed by
    [update_asks] the stored book has both new sides, the time of the second
    write and a sequence advanced twice: it is the book one [update] with both
    sides would store, but for the sequence.  The result is valid exactly
    when both sides are non-empty. *)
Theorem X14_side_writes_compose (c : OrderBookCache.t) (ex : Exchange)
    (bids asks : list PriceLevel.t) (t1 t2 : Z) :
  OrderBookCache.well_sized c -> ex <> COUNT ->
  let old := OrderBookCache.get c ex in
  let c1 := OrderBookCache.update_bids c ex bids t1 in
  let c2 := OrderBookCache.update_asks c1 ex asks t2 in
  let seq1 := u64_incr (OrderBookCache.get_sequence c ex) in
  OrderBookCache.get c1 ex = OrderBook.mk bids (OrderBook.asks old) t1 seq1
  /\ OrderBookCache.get c2 ex = OrderBook.mk bids asks t2 (u64_incr seq1)
  /\ OrderBookCache.get c2 ex
     = OrderBook.set_sequence (u64_incr seq1)
         (OrderBookCache.get
            (OrderBookCache.update c ex (OrderBook.mk bids asks 0%Z 0%N) t2) ex)
  /\ (OrderBookCache.is_valid c2 ex = true <-> bids <> [] /\ asks <> []).
Proof.
  intros Hw Hex. cbn zeta.
  destruct (in_range ex Hex) as [Hr _].
  unfold OrderBookCache.update_bids. rewrite Hr. cbn zeta.
  destruct (order_book_side_write c ex
              (OrderBook.set_timestamp t1
                 (OrderBook.set_bids bids
                    (OrderBookCache.book_at c (exchange_index ex)))) Hw Hex)
    as (Hw1 & Hg1 & Hs1).
  set (c1 := OrderBookCache.bump c (exchange_index ex) _) in *.
  unfold OrderBookCache.update_asks. rewrite Hr. cbn zeta.
  destruct (order_book_side_write c1 ex
              (OrderBook.set_timestamp t2
                 (OrderBook.set_asks asks
                    (OrderBookCache.book_at c1 (exchange_index ex)))) Hw1 Hex)
    as (Hw2 & Hg2 & Hs2).
  set (c2 := OrderBookCache.bump c1 (exchange_index ex) _) in *.
  assert (Hb1 : OrderBookCache.book_at c1 (exchange_index ex) = OrderBookCache.get c1 ex)
    by (unfold OrderBookCache.get; rewrite Hr; reflexivity).
  assert (Hb0 : OrderBookCache.book_at c (exchange_index ex) = OrderBookCache.get c ex)
    by (unfold OrderBookCache.get; rewrite Hr; reflexivity).
  rewrite Hb1, Hg1, Hs1 in Hg2. rewrite Hb0 in Hg1, Hg2.
  split; [exact Hg1|]. split; [exact Hg2|]. split.
  - rewrite Hg2. rewrite update_as_bump by exact Hex.
    destruct (order_book_side_write c ex
                (OrderBook.set_timestamp t2 (OrderBook.mk bids asks 0%Z 0%N)) Hw Hex)
      as (_ & -> & _).
    reflexivity.
  - assert (Hv : OrderBookCache.is_valid c2 ex = OrderBook.is_valid (OrderBookCache.get c2 ex))
      by (unfold OrderBookCache.is_valid, OrderBookCache.get; rewrite Hr; reflexivity).
    rewrite Hv, Hg2. unfold OrderBook.is_valid. cbn.
    destruct bids, asks; cbn; split; intros H;
      first [discriminate H | reflexivity | (split; discriminate)
            | (destruct H as [H1 H2]; congruence)].
Qed.

Lemma X14_side_writes_compose_witness :
  let c1 := OrderBookCache.update_bids OrderBookCache.empty GEMINI scenario_bids 5%Z in
  let c2 := OrderBookCache.update_asks c1 GEMINI scenario_asks 7%Z in
  OrderBookCache.get c1 GEMINI = OrderBook.mk scenario_bids [] 5%Z 1%N
  /\ OrderBookCache.get c2 GEMINI = OrderBook.mk scenario_bids scenario_asks 7%Z 2%N.
Proof.
  cbn zeta.
  assert (Hne : GEMINI <> COUNT) by discriminate.
  destruct (X14_side_writes_compose OrderBookCache.empty GEMINI scenario_bids
              scenario_asks 5%Z 7%Z well_sized_empty Hne) as (H1 & H2 & _).
  split; [exact H1 | exact H2].
Defined.

(** Counting loops. *)
Lemma count_loop_filter {A} (p : A -> bool) (l : list A) :
  forall n : nat,
    fold_left (fun count i => if p i then S count else count) l n
    = (n + length (List.filter p l))%nat.
Proof.
  induction l as [|a l IH]; intros n; cbn.
  - lia.
  - rewrite IH. destruct (p a); cbn; lia.
Qed.

Lemma filter_length_le {A} (p q : A -> bool) (l : list A) :
  (forall a, p a = true -> q a = true) ->
  (length (List.filter p l) <= length (List.filter q l) <= length l)%nat.
Proof.
  intros Hpq. induction l as [|a l IH]; cbn; [lia|].
  destruct (p a) eqn:Ep.
  - rewrite (Hpq a Ep). cbn. lia.
  - destruct (q a); cbn; lia.
Qed.

Lemma filter_none {A} (p : A -> bool) (l : list A) :
  (forall a, In a l -> p a = false) -> List.filter p l = [].
Proof.
  induction l as [|a l IH]; intros H; cbn; [reflexivity|].
  rewrite (H a) by (left; reflexivity). apply IH. intros b Hb. apply H. right. exact Hb.
Qed.

Lemma all_exchanges_indices : map exchange_index all_exchanges = seq 0 (exchange_index COUNT).
Proof. reflexivity. Qed.

Lemma all_exchanges_in_range (ex : Exchange) : In ex all_exchanges -> ex <> COUNT.
Proof.
  intros Hin ->. 
  assert (Hi : In (exchange_index COUNT) (map exchange_index all_exchanges))
    by (apply in_map; exact Hin).
  rewrite all_exchanges_indices in Hi. apply in_seq in Hi. lia.
Qed.

Lemma clear_indices_books (l : list nat) :
  forall c : OrderBookCache.t,
    OrderBookCache.well_sized c -> NoDup l ->
    (forall i, i ∈ l -> (i < exchange_index COUNT)%nat) ->
    let c' := fold_left OrderBookCache.clear_index l c in
    (forall i, i ∈ l -> OrderBook.is_valid (OrderBookCache.book_at c' i) = false)
    /\ (forall i, i ∉ l -> OrderBookCache.book_at c' i = OrderBookCache.book_at c i).
Proof.
  induction l as [|k l IH]; intros c Hw Hnd Hin; cbn [fold_left].
  - split; [intros i Hi; now apply not_elem_of_nil in Hi | reflexivity].
  - apply NoDup_cons in Hnd as [Hk Hnd].
    assert (Hklt : (k < exchange_index COUNT)%nat) by (apply Hin; left).
    destruct (bump_spec c k (OrderBook.clear (OrderBookCache.book_at c k)) Hw Hklt)
      as (Hw' & _ & Hbk & Hother).
    fold (OrderBookCache.clear_index c k) in Hw', Hbk, Hother.
    destruct (IH (OrderBookCache.clear_index c k) Hw' Hnd) as [Hin' Hout'].
    { intros i Hi. apply Hin. now right. }
    split.
    + intros i Hi. apply elem_of_cons in Hi as [->|Hi]; [|now apply Hin'].
      rewrite Hout' by exact Hk. rewrite Hbk. reflexivity.
    + intros i Hi. apply not_elem_of_cons in Hi as [Hik Hil].
      rewrite Hout' by exact Hil. apply (Hother i Hik).
Qed.

Lemma valid_over_venues (c : OrderBookCache.t) (l : list Exchange) :
  (forall ex, In ex l -> ex <> COUNT) ->
  List.filter (fun i => OrderBook.is_valid (OrderBookCache.book_at c i))
    (map exchange_index l)
  = map exchange_index (List.filter (OrderBookCache.is_valid c) l).
Proof.
  induction l as [|ex l IH]; intros H; [reflexivity|].
  cbn [map List.filter]. unfold OrderBookCache.is_valid at 1.
  rewrite (proj1 (in_range ex (H ex (or_introl eq_refl)))).
  rewrite IH by (intros e He; apply H; right; exact He).
  destruct (OrderBook.is_valid _); reflexivity.
Qed.

(** X15.  [fresh_count <= valid_count <= TOTAL_EXCHANGES], whatever the clock
    readings; [valid_count] is the number of venues for which [is_valid]
    holds; it is 0 on a new cache and after [clear_all]; [get_all] returns
    one book per venue, the one [get] returns. *)
Theorem X15_valid_and_fresh_counts (c : OrderBookCache.t) (max_age_ms : Z)
    (now : nat -> Z) :
  (OrderBookCache.fresh_count c max_age_ms now <= OrderBookCache.valid_count c
   <= TOTAL_EXCHANGES)%nat
  /\ OrderBookCache.valid_count c
     = length (List.filter (OrderBookCache.is_valid c) all_exchanges)
  /\ OrderBookCache.valid_count OrderBookCache.empty = 0%nat
  /\ (OrderBookCache.well_sized c ->
      OrderBookCache.valid_count (OrderBookCache.clear_all c) = 0%nat
      /\ OrderBookCache.fresh_count (OrderBookCache.clear_all c) max_age_ms now = 0%nat)
  /\ length (OrderBookCache.get_all c) = TOTAL_EXCHANGES
  /\ (forall ex, ex <> COUNT ->
        OrderBookCache.get_all c !! exchange_index ex = Some (OrderBookCache.get c ex)).
Proof.
  unfold OrderBookCache.fresh_count, OrderBookCache.valid_count.
  rewrite !count_loop_filter. cbn [Nat.add].
  split.
  { pose proof (filter_length_le
                  (fun i => OrderBook.is_valid (OrderBookCache.book_at c i)
                            && (OrderBook.age_ms (now i) (OrderBookCache.book_at c i)
                                <=? max_age_ms)%Z)
                  (fun i => OrderBook.is_valid (OrderBookCache.book_at c i))
                  (seq 0 (exchange_index COUNT))) as H.
    rewrite length_seq in H. apply H.
    intros i Hi. apply andb_prop in Hi. apply Hi. }
  split.
  { rewrite <- all_exchanges_indices.
    rewrite (valid_over_venues c all_exchanges all_exchanges_in_range).
    apply length_map. }
  split; [vm_compute; reflexivity|].
  split.
  { intros Hw.
    destruct (clear_indices_books (seq 0 (exchange_index COUNT)) c Hw) as [Hcl _].
    { apply NoDup_seq. }
    { intros i Hi. apply elem_of_seq in Hi. lia. }
    fold (OrderBookCache.clear_all c) in Hcl.
    rewrite !filter_none; [split; reflexivity| |].
    - intros i Hi. apply list_elem_of_In in Hi. rewrite (Hcl i Hi). reflexivity.
    - intros i Hi. apply list_elem_of_In in Hi. exact (Hcl i Hi). }
  unfold OrderBookCache.get_all.
  split; [rewrite length_map, length_seq; reflexivity|].
  intros ex Hex. destruct (in_range ex Hex) as [Hr Hlt].
  rewrite list_lookup_fmap, lookup_seq_lt by exact Hlt.
  unfold OrderBookCache.get. rewrite Hr. reflexivity.
Qed.

Lemma X15_valid_and_fresh_counts_witness :
  let c := OrderBookCache.update OrderBookCache.empty GEMINI test_book 0%Z in
  OrderBookCache.valid_count c = 1%nat
  /\ OrderBookCache.valid_count (OrderBookCache.clear_all c) = 0%nat.
Proof.
  cbn zeta. split; [reflexivity|].
  destruct (X15_valid_and_fresh_counts
              (OrderBookCache.update OrderBookCache.empty GEMINI test_book 0%Z)
              5000%Z (fun _ => 0%Z)) as (_ & _ & _ & Hc & _).
  apply Hc.
  apply (run_well_sized OrderBookCache.empty
           (OrderBookCache.Update GEMINI test_book 0%Z) well_sized_empty).
Defined.

Lemma total_depth_take (levels : list PriceLevel.t) (n : nat) :
  ImpactCalculator.total_depth levels n
  = fold_left (fun total level => total + PriceLevel.volume level) (take n levels) 0.
Proof.
  unfold ImpactCalculator.total_depth.
  destruct (Nat.le_gt_cases n (length levels)) as [H|H].
  - rewrite Nat.min_l by exact H. reflexivity.
  - rewrite Nat.min_r by lia. rewrite !take_ge by lia. reflexivity.
Qed.

Lemma fold_volume_nonneg (levels : list PriceLevel.t) :
  Forall (fun l => 0 <= PriceLevel.volume l) levels ->
  0 <= fold_left (fun total level => total + PriceLevel.volume level) levels 0.
Proof.
  induction 1 as [|l rest Hl _ IH]; cbn; [lra|].
  rewrite fold_volume_shift. lra.
Qed.

Lemma total_depth_monotone (levels : list PriceLevel.t) (n m : nat) :
  Forall (fun l => 0 <= PriceLevel.volume l) levels ->
  (n <= m)%nat ->
  ImpactCalculator.total_depth levels n <= ImpactCalculator.total_depth levels m.
Proof.
  intros Hv Hnm. rewrite !total_depth_take.
  replace m with (n + (m - n))%nat by lia.
  rewrite <- take_take_drop. rewrite fold_left_app.
  pose proof (fold_volume_nonneg (take (m - n) (drop n levels))) as H.
  assert (Hd : Forall (fun l => 0 <= PriceLevel.volume l) (take (m - n) (drop n levels))).
  { apply Forall_take, Forall_drop. exact Hv. }
  specialize (H Hd).
  pose proof (fold_volume_shift (take (m - n) (drop n levels))
                (fold_left (fun total level => total + PriceLevel.volume level)
                   (take n levels) 0)) as Hs.
  lra.
Qed.

(** X16.  After [update] of a valid venue, [get_bid_depth] is [total_depth] of the
    bids written; it is 0 for the out-of-range venue, grows with [max_levels]
    when no volume is negative, and is the full depth once [max_levels]
    reaches the number of levels. *)
Theorem X16_bid_depth_of_a_stored_book (c : OrderBookCache.t) (ex : Exchange)
    (book : OrderBook.t) (now : Z) (n m : nat) :
  OrderBookCache.well_sized c -> ex <> COUNT ->
  let c' := OrderBookCache.update c ex book now in
  OrderBookCache.get_bid_depth c' ex n
  = ImpactCalculator.total_depth (OrderBook.bids book) n
  /\ OrderBookCache.get_bid_depth c' COUNT n = 0
  /\ (Forall (fun l => 0 <= PriceLevel.volume l) (OrderBook.bids book) ->
      (n <= m)%nat ->
      OrderBookCache.get_bid_depth c' ex n <= OrderBookCache.get_bid_depth c' ex m)
  /\ ((length (OrderBook.bids book) <= n)%nat ->
      OrderBookCache.get_bid_depth c' ex n
      = ImpactCalculator.total_depth (OrderBook.bids book)
          (length (OrderBook.bids book))).
Proof.
  intros Hw Hex. cbn zeta.
  assert (Hd : forall k,
             OrderBookCache.get_bid_depth (OrderBookCache.update c ex book now) ex k
             = ImpactCalculator.total_depth (OrderBook.bids book) k).
  { intros k. unfold OrderBookCache.get_bid_depth.
    rewrite (proj1 (in_range ex Hex)).
    rewrite order_book_get_after_update by assumption. reflexivity. }
  split; [apply Hd|]. split; [reflexivity|]. split.
  - intros Hv Hnm. rewrite !Hd. apply total_depth_monotone; assumption.
  - intros Hn. rewrite Hd. unfold ImpactCalculator.total_depth.
    rewrite Nat.min_r by exact Hn. rewrite Nat.min_id. reflexivity.
Qed.

Lemma X16_bid_depth_of_a_stored_book_witness :
  let c := OrderBookCache.update OrderBookCache.empty BINANCE scenario_book 0%Z in
  OrderBookCache.get_bid_depth c BINANCE 2 <= OrderBookCache.get_bid_depth c BINANCE 50
  /\ OrderBookCache.get_bid_depth c BINANCE 50 == 70.
Proof.
  cbn zeta. split; [|reflexivity].
  assert (Hne : BINANCE <> COUNT) by discriminate.
  destruct (X16_bid_depth_of_a_stored_book OrderBookCache.empty BINANCE scenario_book
              0%Z 2 50 well_sized_empty Hne) as (_ & _ & Hm & _).
  apply Hm.
  - repeat constructor; cbn; discriminate.
  - lia.
Defined.

(** ** InstrumentCache: keys *)

Lemma instrument_index_inj (a b : InstrumentType) :
  instrument_index a = instrument_index b -> a = b.
Proof. destruct a, b; cbn; intros H; first [reflexivity | discriminate H]. Qed.

Lemma instrument_index_valid (t : InstrumentType) :
  t <> INST_COUNT <-> (instrument_index t < instrument_index INST_COUNT)%nat.
Proof.
  destruct t; cbn; split; intros H; first [lia | discriminate | congruence].
Qed.

Lemma make_key_inj (ex ex' : Exchange) (t t' : InstrumentType) :
  t <> INST_COUNT -> t' <> INST_COUNT ->
  InstrumentCache.make_key ex t = InstrumentCache.make_key ex' t' ->
  ex = ex' /\ t = t'.
Proof.
  intros Ht Ht' H. unfold InstrumentCache.make_key in H.
  apply instrument_index_valid in Ht, Ht'. cbn in Ht, Ht', H.
  split; [apply exchange_index_inj | apply instrument_index_inj]; lia.
Qed.

Lemma make_key_ne (ex ex' : Exchange) (t t' : InstrumentType) :
  t <> INST_COUNT -> t' <> INST_COUNT ->
  ex <> ex' \/ t <> t' ->
  InstrumentCache.make_key ex t <> InstrumentCache.make_key ex' t'.
Proof.
  intros Ht Ht' Hne H. destruct (make_key_inj ex ex' t t' Ht Ht' H) as [-> ->].
  destruct Hne as [Hne|Hne]; apply Hne; reflexivity.
Qed.

(** X17.  [make_key] is injective on the pairs with a valid instrument type and
    stays below [TOTAL_EXCHANGES * TOTAL_INSTRUMENTS] for valid venues; with
    [INST_COUNT] it returns the key of the next venue's [SPOT] entry. *)
Theorem X17_make_key_injective_on_valid_types :
  (forall (ex ex' : Exchange) (t t' : InstrumentType),
      t <> INST_COUNT -> t' <> INST_COUNT ->
      InstrumentCache.make_key ex t = InstrumentCache.make_key ex' t' ->
      ex = ex' /\ t = t')
  /\ (forall (ex : Exchange) (t : InstrumentType),
         ex <> COUNT -> t <> INST_COUNT ->
         (InstrumentCache.make_key ex t < TOTAL_EXCHANGES * TOTAL_INSTRUMENTS)%nat)
  /\ (forall ex ex' : Exchange,
         exchange_index ex' = S (exchange_index ex) ->
         InstrumentCache.make_key ex INST_COUNT = InstrumentCache.make_key ex' SPOT).
Proof.
  split; [exact make_key_inj|]. split.
  - intros ex t Hex Ht. apply instrument_index_valid in Ht.
    destruct (in_range ex Hex) as [_ Hlt].
    unfold InstrumentCache.make_key, TOTAL_EXCHANGES, TOTAL_INSTRUMENTS.
    cbn in *. lia.
  - intros ex ex' H. unfold InstrumentCache.make_key. rewrite H. cbn. lia.
Qed.

Lemma X17_make_key_injective_on_valid_types_witness :
  InstrumentCache.make_key BINANCE PERPETUAL <> InstrumentCache.make_key BYBIT PERPETUAL
  /\ InstrumentCache.make_key BINANCE INST_COUNT
     = InstrumentCache.make_key BINANCECOINM SPOT.
Proof.
  destruct X17_make_key_injective_on_valid_types as (Hinj & _ & Halias).
  split.
  - intros H. apply Hinj in H as [H _]; discriminate.
  - apply Halias. reflexivity.
Defined.

(** ** InstrumentCache: writes touch one key *)

Lemma instrument_lookup_other (c : InstrumentCache.t) (w : InstrumentCache.write)
    (now : Z) (key : nat) :
  InstrumentCache.target_key w <> key ->
  InstrumentCache.cache_ (InstrumentCache.run c w now) !! key
  = InstrumentCache.cache_ c !! key.
Proof.
  intros Hne. destruct (run_as_store c w now) as [d ->]. cbn.
  apply lookup_insert_ne. exact Hne.
Qed.

(** X18.  A write of [InstrumentCache] addressed to one key leaves every other
    key as it was: [get], [get_book], [has_instrument], [is_fresh] and
    [is_stale] return what they returned before; in particular an [update]
    of a different (venue, valid type) pair. *)
Theorem X18_instrument_writes_are_isolated (c : InstrumentCache.t)
    (w : InstrumentCache.write) (now : Z) (ex : Exchange) (t : InstrumentType) :
  InstrumentCache.target_key w <> InstrumentCache.make_key ex t ->
  let c' := InstrumentCache.run c w now in
  InstrumentCache.get c' ex t = InstrumentCache.get c ex t
  /\ InstrumentCache.get_book c' ex t = InstrumentCache.get_book c ex t
  /\ InstrumentCache.has_instrument c' ex t = InstrumentCache.has_instrument c ex t
  /\ (forall max_age_ms at_time,
        InstrumentCache.is_fresh c' ex t max_age_ms at_time
        = InstrumentCache.is_fresh c ex t max_age_ms at_time
        /\ InstrumentCache.is_stale c' ex t max_age_ms at_time
           = InstrumentCache.is_stale c ex t max_age_ms at_time)
  /\ (forall (ex' : Exchange) (t' : InstrumentType) (data : InstrumentData.t),
        t <> INST_COUNT -> t' <> INST_COUNT -> ex' <> ex \/ t' <> t ->
        InstrumentCache.get (InstrumentCache.update c ex' t' data now) ex t
        = InstrumentCache.get c ex t).
Proof.
  intros Hne. cbn zeta.
  pose proof (instrument_lookup_other c w now _ Hne) as Hl.
  unfold InstrumentCache.get, InstrumentCache.get_book, InstrumentCache.has_instrument,
    InstrumentCache.is_fresh, InstrumentCache.is_stale.
  rewrite Hl.
  split; [reflexivity|]. split; [reflexivity|]. split; [reflexivity|].
  split; [intros; split; reflexivity|].
  intros ex' t' data Ht Ht' Hd.
  pose proof (instrument_lookup_other c (InstrumentCache.Update ex' t' data) now
                (InstrumentCache.make_key ex t)
                (make_key_ne ex' ex t' t Ht' Ht Hd)) as Hu.
  cbn [InstrumentCache.run] in Hu. rewrite Hu. reflexivity.
Qed.

Lemma X18_instrument_writes_are_isolated_witness :
  let c := InstrumentCache.update InstrumentCache.empty BINANCE SPOT
             (instrument_with scenario_book) one_ms in
  InstrumentCache.get
    (InstrumentCache.update_funding c BINANCE PERPETUAL 0.0001 0%Z six_seconds)
    BINANCE SPOT
  = InstrumentCache.get c BINANCE SPOT.
Proof.
  cbn zeta.
  apply (X18_instrument_writes_are_isolated
           (InstrumentCache.update InstrumentCache.empty BINANCE SPOT
              (instrument_with scenario_book) one_ms)
           (InstrumentCache.UpdateFunding BINANCE PERPETUAL 0.0001 0%Z)
           six_seconds BINANCE SPOT).
  vm_compute. discriminate.
Defined.

(** ** InstrumentCache: clearing a venue *)

Lemma clear_types_lookup (ex : Exchange) (l : list InstrumentType) :
  forall (c : InstrumentCache.t) (key : nat),
    InstrumentCache.cache_
      (fold_left (fun c type => InstrumentCache.clear c ex type) l c) !! key
    = if bool_decide (Exists (fun t => InstrumentCache.make_key ex t = key) l)
      then None else InstrumentCache.cache_ c !! key.
Proof.
  induction l as [|t l IH]; intros c key; cbn [fold_left].
  - rewrite bool_decide_eq_false_2; [reflexivity|]. intros H. inversion H.
  - rewrite IH. cbn [InstrumentCache.clear InstrumentCache.cache_].
    destruct (decide (InstrumentCache.make_key ex t = key)) as [Heq|Hne].
    + rewrite (bool_decide_eq_true_2 (Exists _ (t :: l))) by (left; exact Heq).
      destruct (bool_decide _); [reflexivity|].
      rewrite Heq. apply lookup_delete_eq.
    + rewrite lookup_delete_ne by exact Hne.
      destruct (decide (Exists (fun t0 => InstrumentCache.make_key ex t0 = key) l))
        as [He|Hn].
      * rewrite !bool_decide_eq_true_2; [reflexivity | right; exact He | exact He].
      * rewrite !bool_decide_eq_false_2; [reflexivity | | exact Hn].
        intros H. inversion H; subst; contradiction.
Qed.

Lemma all_instrument_types_valid (t : InstrumentType) :
  t ∈ InstrumentCache.all_instrument_types <-> t <> INST_COUNT.
Proof.
  unfold InstrumentCache.all_instrument_types. split.
  - intros H ->. repeat (apply elem_of_cons in H as [H|H]; [discriminate H|]).
    now apply not_elem_of_nil in H.
  - intros H. destruct t; try congruence; set_solver.
Qed.

Lemma clear_exchange_lookup (c : InstrumentCache.t) (ex ex' : Exchange)
    (t : InstrumentType) :
  t <> INST_COUNT ->
  InstrumentCache.cache_ (InstrumentCache.clear_exchange c ex)
    !! InstrumentCache.make_key ex' t
  = if Exchange_eqb ex' ex then None
    else InstrumentCache.cache_ c !! InstrumentCache.make_key ex' t.
Proof.
  intros Ht. unfold InstrumentCache.clear_exchange. rewrite clear_types_lookup.
  destruct (Exchange_eqb ex' ex) eqn:E.
  - apply Exchange_eqb_eq in E as ->.
    rewrite bool_decide_eq_true_2; [reflexivity|].
    apply Exists_exists. exists t. split; [|reflexivity].
    apply all_instrument_types_valid. exact Ht.
  - rewrite bool_decide_eq_false_2; [reflexivity|].
    intros H. apply Exists_exists in H as (t' & Ht' & Hk).
    apply all_instrument_types_valid in Ht'.
    apply make_key_inj in Hk as [-> _]; [|assumption..].
    rewrite (proj2 (Exchange_eqb_eq ex' ex') eq_refl) in E. discriminate E.
Qed.

(** X19.  [clear_exchange] removes the seven entries of the venue (each reads
    back as the default, not valid, with sequence 0; the venue counts 0
    instruments) and leaves the entries of every other venue and the global
    sequence untouched. *)
Theorem X19_clear_exchange_removes_one_venue (c : InstrumentCache.t) (ex : Exchange) :
  let c' := InstrumentCache.clear_exchange c ex in
  (forall t, t <> INST_COUNT ->
     InstrumentCache.get c' ex t = InstrumentData.default
     /\ InstrumentCache.has_instrument c' ex t = false
     /\ InstrumentCache.get_sequence c' ex t = 0%N)
  /\ (forall ex' t, ex' <> ex -> t <> INST_COUNT ->
        InstrumentCache.get c' ex' t = InstrumentCache.get c ex' t
        /\ InstrumentCache.has_instrument c' ex' t = InstrumentCache.has_instrument c ex' t)
  /\ InstrumentCache.instrument_count c' ex = 0%nat
  /\ InstrumentCache.get_all_instruments c' ex = []
  /\ InstrumentCache.global_sequence_ c' = InstrumentCache.global_sequence_ c.
Proof.
  cbn zeta.
  assert (Hsame : forall t, t <> INST_COUNT ->
            InstrumentCache.cache_ (InstrumentCache.clear_exchange c ex)
              !! InstrumentCache.make_key ex t = None).
  { intros t Ht. rewrite clear_exchange_lookup by exact Ht.
    rewrite (proj2 (Exchange_eqb_eq ex ex) eq_refl). reflexivity. }
  split; [|split; [|split; [|split]]].
  - intros t Ht.
    unfold InstrumentCache.get, InstrumentCache.has_instrument,
      InstrumentCache.get_sequence.
    rewrite (Hsame t Ht). repeat split; reflexivity.
  - intros ex' t Hex Ht.
    unfold InstrumentCache.get, InstrumentCache.has_instrument.
    rewrite clear_exchange_lookup by exact Ht.
    destruct (Exchange_eqb ex' ex) eqn:E; [|split; reflexivity].
    apply Exchange_eqb_eq in E. contradiction.
  - unfold InstrumentCache.instrument_count, InstrumentCache.all_instrument_types.
    cbn [fold_left]. rewrite !Hsame by discriminate. reflexivity.
  - unfold InstrumentCache.get_all_instruments, InstrumentCache.all_instrument_types.
    cbn [fold_left]. rewrite !Hsame by discriminate. reflexivity.
  - unfold InstrumentCache.clear_exchange, InstrumentCache.all_instrument_types.
    reflexivity.
Qed.

Lemma X19_clear_exchange_removes_one_venue_witness :
  let c := InstrumentCache.update
             (InstrumentCache.update InstrumentCache.empty BINANCE SPOT
                (instrument_with scenario_book) one_ms)
             BYBIT SPOT (instrument_with scenario_book) one_ms in
  InstrumentCache.has_instrument c BINANCE SPOT = true
  /\ InstrumentCache.has_instrument (InstrumentCache.clear_exchange c BINANCE)
       BINANCE SPOT = false
  /\ InstrumentCache.has_instrument (InstrumentCache.clear_exchange c BINANCE)
       BYBIT SPOT = true.
Proof.
  cbn zeta. split; [reflexivity|].
  set (c := InstrumentCache.update _ BYBIT SPOT _ _).
  destruct (X19_clear_exchange_removes_one_venue c BINANCE) as (Hs & Ho & _).
  split.
  - apply (Hs SPOT). discriminate.
  - rewrite (proj2 (Ho BYBIT SPOT ltac:(discriminate) ltac:(discriminate))).
    reflexivity.
Defined.

(** ** InstrumentCache: the instruments of a venue *)

Lemma collect_instruments_spec (c : InstrumentCache.t) (ex : Exchange)
    (l : list InstrumentType) :
  forall acc : list InstrumentData.t,
    let out :=
      fold_left
        (fun result type =>
           match InstrumentCache.cache_ c !! InstrumentCache.make_key ex type with
           | Some d => if InstrumentData.is_valid d then result ++ [d] else result
           | None => result
           end) l acc in
    (forall d, d ∈ out
       <-> d ∈ acc
           \/ exists t, t ∈ l
                /\ InstrumentCache.cache_ c !! InstrumentCache.make_key ex t = Some d
                /\ InstrumentData.is_valid d = true)
    /\ (forall n : nat,
          fold_left
            (fun count type =>
               match InstrumentCache.cache_ c !! InstrumentCache.make_key ex type with
               | Some d => if InstrumentData.is_valid d then S count else count
               | None => count
               end) l n
          = (n + (length out - length acc))%nat)
    /\ (length acc <= length out <= length acc + length l)%nat.
Proof.
  induction l as [|t l IH]; intros acc; cbn zeta; cbn [fold_left].
  - split; [|split; [intros n; lia | cbn; lia]].
    intros d. split; [intros H; left; exact H|].
    intros [H|(t & Ht & _)]; [exact H | now apply not_elem_of_nil in Ht].
  - destruct (InstrumentCache.cache_ c !! InstrumentCache.make_key ex t) as [x|] eqn:El.
    + destruct (InstrumentData.is_valid x) eqn:Ev.
      * destruct (IH (acc ++ [x])) as (Hm & Hc & Hlen).
        rewrite length_app in Hc, Hlen. cbn [length] in Hc, Hlen.
        split; [|split; [intros n; rewrite Hc; lia | cbn [length]; lia]].
        intros d. rewrite Hm, elem_of_app, list_elem_of_singleton. split.
        -- intros [[H| ->]|(t' & Ht' & Hl & Hv)].
           ++ left; exact H.
           ++ right. exists t. split; [left|split; assumption].
           ++ right. exists t'. split; [right; exact Ht'|split; assumption].
        -- intros [H|(t' & Ht' & Hl & Hv)]; [left; left; exact H|].
           apply elem_of_cons in Ht' as [->|Ht'].
           ++ left; right. congruence.
           ++ right. exists t'. split; [exact Ht'|split; assumption].
      * destruct (IH acc) as (Hm & Hc & Hlen).
        split; [|split; [exact Hc | cbn [length]; lia]].
        intros d. rewrite Hm. split.
        -- intros [H|(t' & Ht' & Hl & Hv)]; [left; exact H|].
           right. exists t'. split; [right; exact Ht'|split; assumption].
        -- intros [H|(t' & Ht' & Hl & Hv)]; [left; exact H|].
           apply elem_of_cons in Ht' as [->|Ht'].
           ++ rewrite El in Hl. injection Hl as <-. congruence.
           ++ right. exists t'. split; [exact Ht'|split; assumption].
    + destruct (IH acc) as (Hm & Hc & Hlen).
      split; [|split; [exact Hc | cbn [length]; lia]].
      intros d. rewrite Hm. split.
      * intros [H|(t' & Ht' & Hl & Hv)]; [left; exact H|].
        right. exists t'. split; [right; exact Ht'|split; assumption].
      * intros [H|(t' & Ht' & Hl & Hv)]; [left; exact H|].
        apply elem_of_cons in Ht' as [->|Ht'].
        -- rewrite El in Hl. discriminate Hl.
        -- right. exists t'. split; [exact Ht'|split; assumption].
Qed.

(** X20.  [get_all_instruments] returns as many entries as [instrument_count]
    counts, at most [TOTAL_INSTRUMENTS]; its elements are exactly the entries
    [get] returns for the valid types for which [has_instrument] holds, and
    each of them is valid. *)
Theorem X20_instruments_of_a_venue (c : InstrumentCache.t) (ex : Exchange) :
  length (InstrumentCache.get_all_instruments c ex) = InstrumentCache.instrument_count c ex
  /\ (InstrumentCache.instrument_count c ex <= TOTAL_INSTRUMENTS)%nat
  /\ (forall d,
        d ∈ InstrumentCache.get_all_instruments c ex
        <-> exists t, t <> INST_COUNT
              /\ InstrumentCache.has_instrument c ex t = true
              /\ InstrumentCache.get c ex t = d)
  /\ (forall d, d ∈ InstrumentCache.get_all_instruments c ex ->
        InstrumentData.is_valid d = true)
  /\ InstrumentCache.instrument_count InstrumentCache.empty ex = 0%nat.
Proof.
  destruct (collect_instruments_spec c ex InstrumentCache.all_instrument_types [])
    as (Hm & Hc & Hlen).
  fold (InstrumentCache.get_all_instruments c ex) in Hm, Hc, Hlen.
  specialize (Hc 0%nat). fold (InstrumentCache.instrument_count c ex) in Hc.
  cbn [length] in Hc, Hlen.
  split; [lia|]. split; [unfold TOTAL_INSTRUMENTS; cbn in *; lia|].
  split; [|split].
  - intros d. rewrite Hm. split.
    + intros [H|(t & Ht & Hl & Hv)]; [now apply not_elem_of_nil in H|].
      exists t. split; [apply all_instrument_types_valid; exact Ht|].
      unfold InstrumentCache.has_instrument, InstrumentCache.get. rewrite Hl.
      split; [exact Hv | reflexivity].
    + intros (t & Ht & Hh & Hg). right. exists t.
      split; [apply all_instrument_types_valid; exact Ht|].
      unfold InstrumentCache.has_instrument, InstrumentCache.get in Hh, Hg.
      destruct (InstrumentCache.cache_ c !! InstrumentCache.make_key ex t) as [x|];
        [|discriminate Hh].
      subst x. split; [reflexivity | exact Hh].
  - intros d Hd. apply Hm in Hd as [H|(t & _ & _ & Hv)];
      [now apply not_elem_of_nil in H | exact Hv].
  - reflexivity.
Qed.

Lemma X20_instruments_of_a_venue_witness :
  let c := InstrumentCache.update_book InstrumentCache.empty BINANCE PERPETUAL
             scenario_book one_ms in
  InstrumentCache.instrument_count c BINANCE = 1%nat
  /\ InstrumentCache.get c BINANCE PERPETUAL
     ∈ InstrumentCache.get_all_instruments c BINANCE.
Proof.
  cbn zeta. split; [reflexivity|].
  set (c := InstrumentCache.update_book _ _ _ _ _).
  destruct (X20_instruments_of_a_venue c BINANCE) as (_ & _ & Hm & _).
  apply Hm. exists PERPETUAL.
  split; [discriminate|]. split; reflexivity.
Defined.

(** ** InstrumentCache: number of entries *)

(** X21.  [size] is 0 on a new cache and after [clear_all]; a write adds one when
    its key was absent and nothing otherwise; [clear] removes one when the
    key was present; [fresh_count] never exceeds [size]. *)
Theorem X21_size_counts_stored_keys (c : InstrumentCache.t) :
  InstrumentCache.size InstrumentCache.empty = 0%nat
  /\ InstrumentCache.size (InstrumentCache.clear_all c) = 0%nat
  /\ (forall (w : InstrumentCache.write) (now : Z),
        InstrumentCache.size (InstrumentCache.run c w now)
        = match InstrumentCache.cache_ c !! InstrumentCache.target_key w with
          | Some _ => InstrumentCache.size c
          | None => S (InstrumentCache.size c)
          end)
  /\ (forall (ex : Exchange) (t : InstrumentType),
        InstrumentCache.size (InstrumentCache.clear c ex t)
        = match InstrumentCache.cache_ c !! InstrumentCache.make_key ex t with
          | Some _ => Nat.pred (InstrumentCache.size c)
          | None => InstrumentCache.size c
          end)
  /\ (forall (max_age_ms : Z) (now : nat -> Z),
        (InstrumentCache.fresh_count c max_age_ms now <= InstrumentCache.size c)%nat).
Proof.
  unfold InstrumentCache.size.
  split; [apply map_size_empty|]. split; [apply map_size_empty|].
  split; [|split].
  - intros w now. destruct (run_as_store c w now) as [d ->]. cbn.
    rewrite map_size_insert.
    destruct (InstrumentCache.cache_ c !! InstrumentCache.target_key w); reflexivity.
  - intros ex t. cbn. rewrite map_size_delete.
    destruct (InstrumentCache.cache_ c !! InstrumentCache.make_key ex t); reflexivity.
  - intros max_age_ms now. unfold InstrumentCache.fresh_count.
    apply (map_fold_weak_ind (fun (r : nat) m => (r <= size m)%nat)).
    + rewrite map_size_empty. lia.
    + intros i x m r Hi Hr. rewrite map_size_insert, Hi.
      destruct (_ && _); lia.
Qed.

(** ** InstrumentCache: partial updates *)

Lemma slot_fields (c : InstrumentCache.t) (ex : Exchange) (t : InstrumentType) :
  InstrumentData.book (InstrumentCache.slot c (InstrumentCache.make_key ex t))
  = InstrumentCache.get_book c ex t
  /\ InstrumentData.mark_price (InstrumentCache.slot c (InstrumentCache.make_key ex t))
     = InstrumentCache.get_mark_price c ex t
  /\ InstrumentData.funding_rate (InstrumentCache.slot c (InstrumentCache.make_key ex t))
     = InstrumentCache.get_funding_rate c ex t
  /\ InstrumentCache.slot c (InstrumentCache.make_key ex t) = InstrumentCache.get c ex t.
Proof.
  unfold InstrumentCache.slot, InstrumentCache.get_book, InstrumentCache.get_mark_price,
    InstrumentCache.get_funding_rate, InstrumentCache.get.
  destruct (InstrumentCache.cache_ c !! InstrumentCache.make_key ex t);
    repeat split; reflexivity.
Qed.

(** X22.  The partial updates change the fields they are given and keep the rest
    of the entry: [update_funding] keeps book and mark price,
    [update_mark_price] keeps book and funding rate and overwrites the index
    price only when the new one is positive, [update_book] keeps mark price
    and funding rate; [update] replaces them all. *)
Theorem X22_partial_updates_keep_the_rest (c : InstrumentCache.t) (ex : Exchange)
    (t : InstrumentType) (now : Z) :
  (forall (funding_rate : Q) (next_funding_ts : Z),
      let c' := InstrumentCache.update_funding c ex t funding_rate next_funding_ts now in
      InstrumentCache.get_funding_rate c' ex t = funding_rate
      /\ InstrumentCache.get_book c' ex t = InstrumentCache.get_book c ex t
      /\ InstrumentCache.get_mark_price c' ex t = InstrumentCache.get_mark_price c ex t)
  /\ (forall mark_price index_price : Q,
         let c' := InstrumentCache.update_mark_price c ex t mark_price index_price now in
         InstrumentCache.get_mark_price c' ex t = mark_price
         /\ InstrumentData.index_price (InstrumentCache.get c' ex t)
            = (if Qlt_bool 0 index_price then index_price
               else InstrumentData.index_price (InstrumentCache.get c ex t))
         /\ InstrumentCache.get_book c' ex t = InstrumentCache.get_book c ex t
         /\ InstrumentCache.get_funding_rate c' ex t
            = InstrumentCache.get_funding_rate c ex t)
  /\ (forall book : OrderBook.t,
         let c' := InstrumentCache.update_book c ex t book now in
         InstrumentCache.get_book c' ex t = OrderBook.set_timestamp now book
         /\ InstrumentCache.get_best_bid c' ex t = OrderBook.best_bid book
         /\ InstrumentCache.get_best_ask c' ex t = OrderBook.best_ask book
         /\ InstrumentCache.get_mark_price c' ex t = InstrumentCache.get_mark_price c ex t
         /\ InstrumentCache.get_funding_rate c' ex t
            = InstrumentCache.get_funding_rate c ex t)
  /\ (forall data : InstrumentData.t,
         let c' := InstrumentCache.update c ex t data now in
         InstrumentCache.get_book c' ex t = InstrumentData.book data
         /\ InstrumentCache.get_mark_price c' ex t = InstrumentData.mark_price data
         /\ InstrumentCache.get_funding_rate c' ex t = InstrumentData.funding_rate data).
Proof.
  destruct (slot_fields c ex t) as (Hb & Hm & Hf & Hg).
  unfold InstrumentCache.get_book, InstrumentCache.get_mark_price,
    InstrumentCache.get_funding_rate, InstrumentCache.get_best_bid,
    InstrumentCache.get_best_ask, InstrumentCache.get in *.
  split; [|split; [|split]].
  - intros fr nf. cbn zeta. unfold InstrumentCache.update_funding. cbn.
    rewrite !lookup_insert_eq. rewrite <- Hb, <- Hm.
    destruct (InstrumentCache.slot c (InstrumentCache.make_key ex t)).
    repeat split; reflexivity.
  - intros mp ip. cbn zeta. unfold InstrumentCache.update_mark_price. cbn.
    rewrite !lookup_insert_eq. rewrite <- Hb, <- Hf, <- Hg.
    destruct (InstrumentCache.slot c (InstrumentCache.make_key ex t)).
    destruct (Qlt_bool 0 ip); repeat split; reflexivity.
  - intros book. cbn zeta. unfold InstrumentCache.update_book. cbn.
    rewrite !lookup_insert_eq. rewrite <- Hm, <- Hf.
    destruct (InstrumentCache.slot c (InstrumentCache.make_key ex t)).
    destruct book. repeat split; reflexivity.
  - intros data. cbn zeta. unfold InstrumentCache.update. cbn.
    rewrite !lookup_insert_eq. destruct data. repeat split; reflexivity.
Qed.

(** X23.  After [update_book] the entry's last price is the mid price of the
    book, and the entry is valid exactly when the book has both sides with
    positive best prices; it is fresh exactly when it is valid and not older
    than [max_age_ms].  A book stored through [update] in data whose last
    price is 0 is not valid. *)
Theorem X23_update_book_makes_the_entry_valid (c : InstrumentCache.t) (ex : Exchange)
    (t : InstrumentType) (book : OrderBook.t) (now : Z) :
  let c' := InstrumentCache.update_book c ex t book now in
  InstrumentData.last_price (InstrumentCache.get c' ex t) = OrderBook.mid_price book
  /\ (InstrumentCache.has_instrument c' ex t = true
      <-> OrderBook.is_valid book = true
          /\ 0 < OrderBook.best_bid book /\ 0 < OrderBook.best_ask book)
  /\ (forall max_age_ms at_time : Z,
        InstrumentCache.is_fresh c' ex t max_age_ms at_time
        = InstrumentCache.has_instrument c' ex t
          && (duration_ms (at_time - now) <=? max_age_ms)%Z)
  /\ InstrumentCache.has_instrument
       (InstrumentCache.update c ex t
          (InstrumentData.set_book book InstrumentData.default) now) ex t = false.
Proof.
  cbn zeta.
  pose proof (slot_fields c ex t) as (_ & _ & _ & Hg).
  unfold InstrumentCache.has_instrument, InstrumentCache.is_fresh, InstrumentCache.get,
    InstrumentCache.update_book, InstrumentCache.update.
  cbn. rewrite !lookup_insert_eq.
  destruct (InstrumentCache.slot c (InstrumentCache.make_key ex t)).
  destruct book as [bids asks ts sq].
  unfold InstrumentData.is_valid, InstrumentData.age_ms. cbn.
  split; [reflexivity|]. split; [|split].
  - unfold OrderBook.is_valid, OrderBook.mid_price, OrderBook.best_bid,
      OrderBook.best_ask. cbn.
    destruct bids as [|b bids], asks as [|a asks]; cbn;
      try (split; [intros H; discriminate H | intros (H & _); discriminate H]).
    destruct (Qle_bool (PriceLevel.price b) 0) eqn:Eb;
      destruct (Qle_bool (PriceLevel.price a) 0) eqn:Ea; cbn;
      rewrite ?Qle_bool_iff in *; rewrite ?Qle_bool_false_iff in *.
    + split; [intros H; discriminate H | intros (_ & H & _); lra].
    + split; [intros H; discriminate H | intros (_ & H & _); lra].
    + split; [intros H; discriminate H | intros (_ & _ & H); lra].
    + split; [intros _; repeat split; assumption|].
      intros _. apply Qlt_bool_iff.
      apply Qlt_shift_div_l; [reflexivity|]. lra.
  - intros. reflexivity.
  - unfold OrderBook.is_valid. cbn. apply andb_false_r.
Qed.

Lemma X23_update_book_makes_the_entry_valid_witness :
  InstrumentCache.has_instrument
    (InstrumentCache.update_book InstrumentCache.empty BINANCE PERPETUAL
       scenario_book one_ms) BINANCE PERPETUAL = true.
Proof.
  apply (X23_update_book_makes_the_entry_valid InstrumentCache.empty BINANCE PERPETUAL
           scenario_book one_ms).
  split; [reflexivity|]. split; reflexivity.
Defined.

(* ====================================================================== *)
(** * Further properties of the signal handler *)
(* ====================================================================== *)

(** ** The handler: what every decision carries *)

Lemma walked_fields (signal : BlockchainSignal.t) (ex : Exchange) (book : OrderBook.t) :
  let w := SignalHandler.walked signal ex book in
  TradeDecision.is_short w = BlockchainSignal.is_inflow signal
  /\ TradeDecision.exchange w = ex
  /\ TradeDecision.should_trade w = false
  /\ TradeDecision.entry_price w
     = (if BlockchainSignal.is_inflow signal
        then OrderBook.best_bid book else OrderBook.best_ask book)
  /\ TradeDecision.impact w
     = (if BlockchainSignal.is_inflow signal
        then ImpactCalculator.calculate_sell_impact
               (BlockchainSignal.btc_amount signal) (OrderBook.bids book)
        else ImpactCalculator.calculate_buy_impact
               (BlockchainSignal.btc_amount signal) (OrderBook.asks book)).
Proof.
  unfold SignalHandler.walked, SignalHandler.walk_side.
  destruct (BlockchainSignal.is_inflow signal); repeat split; reflexivity.
Qed.

Lemma reject_fields (d : TradeDecision.t) (r : Reason.t) (e : Z) :
  let d' := SignalHandler.reject d r e in
  TradeDecision.processing_ns d' = e
  /\ TradeDecision.reason d' = r
  /\ TradeDecision.should_trade d' = TradeDecision.should_trade d
  /\ TradeDecision.is_short d' = TradeDecision.is_short d
  /\ TradeDecision.exchange d' = TradeDecision.exchange d
  /\ TradeDecision.entry_price d' = TradeDecision.entry_price d
  /\ TradeDecision.exit_price d' = TradeDecision.exit_price d
  /\ TradeDecision.impact d' = TradeDecision.impact d.
Proof. repeat split; reflexivity. Qed.

(** [process_signal], as the list of its return paths. *)
Lemma process_signal_paths (h : SignalHandler.t) (signal : BlockchainSignal.t)
    (now elapsed_ns : Z) :
  let config := SignalHandler.config_ h in
  let cache := SignalHandler.cache_ h in
  let name := BlockchainSignal.exchange signal in
  let amount := BlockchainSignal.btc_amount signal in
  let ex := exchange_from_name name in
  let d0 := TradeDecision.set_is_short (BlockchainSignal.is_inflow signal)
              TradeDecision.default in
  let d1 := TradeDecision.set_exchange ex d0 in
  let w := SignalHandler.walked signal ex (OrderBookCache.get cache ex) in
  let pct := Qabs (PriceImpact.price_drop_pct (TradeDecision.impact w)) in
  let required := TradingConfig.min_impact_pct config in
  let d := SignalHandler.process_signal h signal now elapsed_ns in
  (ex = COUNT
   /\ d = SignalHandler.reject d0 (Reason.UnknownExchangeNamed name) elapsed_ns)
  \/ (ex <> COUNT /\ amount < TradingConfig.min_deposit_btc config
      /\ d = SignalHandler.reject d1
               (Reason.DepositTooSmallOf amount (TradingConfig.min_deposit_btc config))
               elapsed_ns)
  \/ (ex <> COUNT /\ TradingConfig.min_deposit_btc config <= amount
      /\ OrderBookCache.is_stale cache ex (TradingConfig.max_book_age_ms config) now = true
      /\ d = SignalHandler.reject d1
               (Reason.StaleOlderThan (TradingConfig.max_book_age_ms config)) elapsed_ns)
  \/ (ex <> COUNT /\ TradingConfig.min_deposit_btc config <= amount
      /\ OrderBookCache.is_stale cache ex (TradingConfig.max_book_age_ms config) now = false
      /\ OrderBookCache.is_valid cache ex = false
      /\ d = SignalHandler.reject d1 Reason.NotAvailable elapsed_ns)
  \/ (ex <> COUNT /\ TradingConfig.min_deposit_btc config <= amount
      /\ OrderBookCache.is_stale cache ex (TradingConfig.max_book_age_ms config) now = false
      /\ OrderBookCache.is_valid cache ex = true
      /\ pct < required
      /\ d = SignalHandler.reject w (Reason.ImpactBelowRequired pct required) elapsed_ns)
  \/ (ex <> COUNT /\ TradingConfig.min_deposit_btc config <= amount
      /\ OrderBookCache.is_stale cache ex (TradingConfig.max_book_age_ms config) now = false
      /\ OrderBookCache.is_valid cache ex = true
      /\ required <= pct
      /\ 0 < PriceImpact.volume_remaining (TradeDecision.impact w)
      /\ d = SignalHandler.reject w
               (Reason.InsufficientDepthOf
                  (PriceImpact.volume_filled (TradeDecision.impact w)) amount)
               elapsed_ns)
  \/ (ex <> COUNT /\ TradingConfig.min_deposit_btc config <= amount
      /\ OrderBookCache.is_stale cache ex (TradingConfig.max_book_age_ms config) now = false
      /\ OrderBookCache.is_valid cache ex = true
      /\ required <= pct
      /\ PriceImpact.volume_remaining (TradeDecision.impact w) <= 0
      /\ exists r,
           Reason.kind_of r = Reason.Accepted
           /\ d = SignalHandler.record_timing
                    (TradeDecision.set_reason r
                       (TradeDecision.set_should_trade true
                          (TradeDecision.set_exit_price
                             (ImpactCalculator.calculate_exit_price
                                (TradeDecision.entry_price w) (TradeDecision.impact w)
                                (TradeDecision.is_short w)
                                (TradingConfig.take_profit_ratio config)) w)))
                    elapsed_ns).
Proof.
  cbn zeta. unfold SignalHandler.process_signal.
  destruct (Exchange_eqb (exchange_from_name (BlockchainSignal.exchange signal)) COUNT)
    eqn:Eex.
  { left. apply Exchange_eqb_eq in Eex. split; [exact Eex | reflexivity]. }
  assert (Hex : exchange_from_name (BlockchainSignal.exchange signal) <> COUNT).
  { intros H. rewrite H in Eex.
    rewrite (proj2 (Exchange_eqb_eq COUNT COUNT) eq_refl) in Eex. discriminate Eex. }
  right.
  destruct (Qlt_bool (BlockchainSignal.btc_amount signal) _) eqn:Eamt.
  { left. apply Qlt_bool_iff in Eamt. repeat split; assumption. }
  apply Qlt_bool_false_iff in Eamt. right.
  destruct (OrderBookCache.is_stale _ _ _ _) eqn:Est.
  { left. repeat split; assumption. }
  right.
  destruct (OrderBookCache.is_valid _ _) eqn:Eval; cbn [negb].
  2:{ left. repeat split; assumption. }
  right.
  fold (SignalHandler.walked signal
          (exchange_from_name (BlockchainSignal.exchange signal))
          (OrderBookCache.get (SignalHandler.cache_ h)
             (exchange_from_name (BlockchainSignal.exchange signal)))).
  unfold std_abs.
  destruct (Qlt_bool (Qabs _) _) eqn:Eimp.
  { left. apply Qlt_bool_iff in Eimp. repeat split; assumption. }
  apply Qlt_bool_false_iff in Eimp. right.
  destruct (Qlt_bool 0 _) eqn:Erem.
  { left. apply Qlt_bool_iff in Erem. repeat split; assumption. }
  apply Qlt_bool_false_iff in Erem. right.
  do 6 (split; [first [assumption | reflexivity]|]).
  eexists. split; [|reflexivity]. reflexivity.
Qed.

(** [process_instrument_signal], as the list of its return paths. *)
Lemma process_instrument_signal_paths (h : SignalHandler.t)
    (signal : BlockchainSignal.t) (inst_type : InstrumentType)
    (inst_data : InstrumentData.t) (now elapsed_ns : Z) :
  let config := SignalHandler.config_ h in
  let amount := BlockchainSignal.btc_amount signal in
  let ex := exchange_from_name (BlockchainSignal.exchange signal) in
  let d0 := TradeDecision.set_is_short (BlockchainSignal.is_inflow signal)
              TradeDecision.default in
  let d1 := TradeDecision.set_exchange ex d0 in
  let w := SignalHandler.walked signal ex (InstrumentData.book inst_data) in
  let adjusted :=
    SignalHandler.adjust inst_type inst_data w
      (Qabs (PriceImpact.price_drop_pct (TradeDecision.impact w)))
      (SignalHandler.venue_fees_pct config ex) in
  let required := snd adjusted * TradingConfig.min_impact_multiple config in
  let d := SignalHandler.process_instrument_signal h signal inst_type inst_data
             now elapsed_ns in
  (ex = COUNT /\ d = SignalHandler.reject d0 Reason.UnknownExchange elapsed_ns)
  \/ (ex <> COUNT /\ amount < TradingConfig.min_deposit_btc config
      /\ d = SignalHandler.reject d1 Reason.DepositTooSmall elapsed_ns)
  \/ (ex <> COUNT /\ TradingConfig.min_deposit_btc config <= amount
      /\ OrderBook.is_valid (InstrumentData.book inst_data) = false
      /\ d = SignalHandler.reject d1 Reason.NotAvailable elapsed_ns)
  \/ (ex <> COUNT /\ TradingConfig.min_deposit_btc config <= amount
      /\ OrderBook.is_valid (InstrumentData.book inst_data) = true
      /\ (TradingConfig.max_book_age_ms config < InstrumentData.age_ms now inst_data)%Z
      /\ d = SignalHandler.reject d1 Reason.Stale elapsed_ns)
  \/ (ex <> COUNT /\ TradingConfig.min_deposit_btc config <= amount
      /\ OrderBook.is_valid (InstrumentData.book inst_data) = true
      /\ (InstrumentData.age_ms now inst_data <= TradingConfig.max_book_age_ms config)%Z
      /\ 0 < PriceImpact.volume_remaining (TradeDecision.impact w)
      /\ d = SignalHandler.reject w Reason.InsufficientDepth elapsed_ns)
  \/ (ex <> COUNT /\ TradingConfig.min_deposit_btc config <= amount
      /\ OrderBook.is_valid (InstrumentData.book inst_data) = true
      /\ (InstrumentData.age_ms now inst_data <= TradingConfig.max_book_age_ms config)%Z
      /\ PriceImpact.volume_remaining (TradeDecision.impact w) <= 0
      /\ fst adjusted < required
      /\ d = SignalHandler.reject w
               (Reason.InstImpactBelowRequired (instrument_name inst_type)
                  (fst adjusted) required) elapsed_ns)
  \/ (ex <> COUNT /\ TradingConfig.min_deposit_btc config <= amount
      /\ OrderBook.is_valid (InstrumentData.book inst_data) = true
      /\ (InstrumentData.age_ms now inst_data <= TradingConfig.max_book_age_ms config)%Z
      /\ PriceImpact.volume_remaining (TradeDecision.impact w) <= 0
      /\ required <= fst adjusted
      /\ exists r,
           Reason.kind_of r = Reason.Accepted
           /\ d = SignalHandler.record_timing
                    (TradeDecision.set_reason r
                       (TradeDecision.set_exit_price
                          (ImpactCalculator.calculate_exit_price
                             (TradeDecision.entry_price w) (TradeDecision.impact w)
                             (TradeDecision.is_short w)
                             (TradingConfig.take_profit_ratio config))
                          (TradeDecision.set_should_trade true w)))
                    elapsed_ns).
Proof.
  cbn zeta. unfold SignalHandler.process_instrument_signal.
  destruct (Exchange_eqb (exchange_from_name (BlockchainSignal.exchange signal)) COUNT)
    eqn:Eex.
  { left. apply Exchange_eqb_eq in Eex. split; [exact Eex | reflexivity]. }
  assert (Hex : exchange_from_name (BlockchainSignal.exchange signal) <> COUNT).
  { intros H. rewrite H in Eex.
    rewrite (proj2 (Exchange_eqb_eq COUNT COUNT) eq_refl) in Eex. discriminate Eex. }
  right.
  destruct (Qlt_bool (BlockchainSignal.btc_amount signal) _) eqn:Eamt.
  { left. apply Qlt_bool_iff in Eamt. repeat split; assumption. }
  apply Qlt_bool_false_iff in Eamt. right.
  destruct (OrderBook.is_valid _) eqn:Eval; cbn [negb].
  2:{ left. repeat split; assumption. }
  right.
  destruct (_ <? _)%Z eqn:Est.
  { left. apply Z.ltb_lt in Est. repeat split; assumption. }
  apply Z.ltb_ge in Est. right.
  fold (SignalHandler.walked signal
          (exchange_from_name (BlockchainSignal.exchange signal))
          (InstrumentData.book inst_data)).
  unfold std_abs.
  destruct (Qlt_bool 0 _) eqn:Erem.
  { left. apply Qlt_bool_iff in Erem. repeat split; assumption. }
  apply Qlt_bool_false_iff in Erem. right.
  destruct (SignalHandler.adjust _ _ _ _ _) as [ai af]. cbn [fst snd].
  destruct (Qlt_bool ai _) eqn:Eimp.
  { left. apply Qlt_bool_iff in Eimp. repeat split; assumption. }
  apply Qlt_bool_false_iff in Eimp. right.
  do 6 (split; [first [assumption | reflexivity]|]).
  eexists. split; [|reflexivity]. reflexivity.
Qed.

(** X24.  Every decision of [process_signal] and of [process_instrument_signal]
    carries the elapsed time, the direction of the signal, the venue the name
    resolves to and a reason; [should_trade] is set exactly on the accepting
    path. *)
Theorem X24_every_decision_is_stamped (h : SignalHandler.t)
    (signal : BlockchainSignal.t) (now elapsed_ns : Z) :
  (let d := SignalHandler.process_signal h signal now elapsed_ns in
   TradeDecision.processing_ns d = elapsed_ns
   /\ TradeDecision.is_short d = BlockchainSignal.is_inflow signal
   /\ TradeDecision.exchange d = exchange_from_name (BlockchainSignal.exchange signal)
   /\ Reason.kind_of (TradeDecision.reason d) <> Reason.NoOutcome
   /\ (TradeDecision.should_trade d = true
       <-> Reason.kind_of (TradeDecision.reason d) = Reason.Accepted))
  /\ (forall (inst_type : InstrumentType) (inst_data : InstrumentData.t),
        let d := SignalHandler.process_instrument_signal h signal inst_type inst_data
                   now elapsed_ns in
        TradeDecision.processing_ns d = elapsed_ns
        /\ TradeDecision.is_short d = BlockchainSignal.is_inflow signal
        /\ TradeDecision.exchange d
           = exchange_from_name (BlockchainSignal.exchange signal)
        /\ Reason.kind_of (TradeDecision.reason d) <> Reason.NoOutcome
        /\ (TradeDecision.should_trade d = true
            <-> Reason.kind_of (TradeDecision.reason d) = Reason.Accepted)).
Proof.
  split.
  - cbn zeta.
    pose proof (walked_fields signal
                  (exchange_from_name (BlockchainSignal.exchange signal))
                  (OrderBookCache.get (SignalHandler.cache_ h)
                     (exchange_from_name (BlockchainSignal.exchange signal))))
      as (Ws & We & Wt & _).
    destruct (process_signal_paths h signal now elapsed_ns)
      as [(Hex & ->)|[(_ & _ & ->)|[(_ & _ & _ & ->)|[(_ & _ & _ & _ & ->)
         |[(_ & _ & _ & _ & _ & ->)|[(_ & _ & _ & _ & _ & _ & ->)
         |(_ & _ & _ & _ & _ & _ & r & Hr & ->)]]]]]];
      cbn -[SignalHandler.walked exchange_from_name];
      rewrite ?Ws, ?We, ?Wt, ?Hr;
      repeat split; try reflexivity; try discriminate; try congruence.
  - intros inst_type inst_data. cbn zeta.
    pose proof (walked_fields signal
                  (exchange_from_name (BlockchainSignal.exchange signal))
                  (InstrumentData.book inst_data)) as (Ws & We & Wt & _).
    destruct (process_instrument_signal_paths h signal inst_type inst_data now elapsed_ns)
      as [(Hex & ->)|[(_ & _ & ->)|[(_ & _ & _ & ->)|[(_ & _ & _ & _ & ->)
         |[(_ & _ & _ & _ & _ & ->)|[(_ & _ & _ & _ & _ & _ & ->)
         |(_ & _ & _ & _ & _ & _ & r & Hr & ->)]]]]]];
      cbn -[SignalHandler.walked exchange_from_name SignalHandler.adjust];
      rewrite ?Ws, ?We, ?Wt, ?Hr;
      repeat split; try reflexivity; try discriminate; try congruence.
Qed.

(** ** The handler: acceptance *)



(** X26.  [quick_filter] returns false exactly when [process_signal], at the same
    clock reading, rejects for one of its first four reasons (unknown venue,
    amount below the minimum, stale book, book not available); it never
    filters out a signal that [process_signal] accepts. *)
Theorem X26_quick_filter_predicts_the_first_checks (h : SignalHandler.t)
    (signal : BlockchainSignal.t) (now elapsed_ns : Z) :
  let d := SignalHandler.process_signal h signal now elapsed_ns in
  let k := Reason.kind_of (TradeDecision.reason d) in
  let passed :=
    SignalHandler.quick_filter h (BlockchainSignal.exchange signal)
      (BlockchainSignal.btc_amount signal) now in
  (passed = false
   <-> k = Reason.UnknownVenue \/ k = Reason.SignalBelowMinimum
       \/ k = Reason.BookStale \/ k = Reason.BookUnavailable)
  /\ (TradeDecision.should_trade d = true -> passed = true).
Proof.
  cbn zeta. unfold SignalHandler.quick_filter.
  destruct (process_signal_paths h signal now elapsed_ns)
    as [(Hex & ->)|[(Hex & Ha & ->)|[(Hex & Ha & Hs & ->)|[(Hex & Ha & Hs & Hv & ->)
       |[(Hex & Ha & Hs & Hv & Hi & ->)|[(Hex & Ha & Hs & Hv & Hi & Hr & ->)
       |(Hex & Ha & Hs & Hv & Hi & Hr & r & Hk & ->)]]]]]];
    cbn -[SignalHandler.walked exchange_from_name].
  - rewrite Hex. destruct (Qlt_bool _ _); cbn; split;
      [tauto | intros H; discriminate H | tauto | intros H; discriminate H].
  - rewrite (proj2 (Qlt_bool_iff _ _) Ha). split; [tauto | intros H; discriminate H].
  - rewrite (proj2 (Qlt_bool_false_iff _ _) Ha).
    destruct (Exchange_eqb _ COUNT); [split; [tauto | intros H; discriminate H]|].
    rewrite Hs. cbn. rewrite andb_false_r.
    split; [tauto | intros H; discriminate H].
  - rewrite (proj2 (Qlt_bool_false_iff _ _) Ha).
    destruct (Exchange_eqb _ COUNT); [split; [tauto | intros H; discriminate H]|].
    rewrite Hv. cbn. split; [tauto | intros H; discriminate H].
  - rewrite (proj2 (Qlt_bool_false_iff _ _) Ha).
    destruct (Exchange_eqb _ COUNT) eqn:E; [apply Exchange_eqb_eq in E; contradiction|].
    rewrite Hv, Hs. cbn. rewrite should_trade_walked.
    split; [|intros H; discriminate H].
    split; [intros H; discriminate H|].
    intros [H|[H|[H|H]]]; discriminate H.
  - rewrite (proj2 (Qlt_bool_false_iff _ _) Ha).
    destruct (Exchange_eqb _ COUNT) eqn:E; [apply Exchange_eqb_eq in E; contradiction|].
    rewrite Hv, Hs. cbn. rewrite should_trade_walked.
    split; [|intros H; discriminate H].
    split; [intros H; discriminate H|].
    intros [H|[H|[H|H]]]; discriminate H.
  - rewrite (proj2 (Qlt_bool_false_iff _ _) Ha).
    destruct (Exchange_eqb _ COUNT) eqn:E; [apply Exchange_eqb_eq in E; contradiction|].
    rewrite Hv, Hs, Hk. cbn.
    split; [|reflexivity].
    split; [intros H; discriminate H|].
    intros [H|[H|[H|H]]]; discriminate H.
Qed.

Lemma X26_quick_filter_predicts_the_first_checks_witness :
  SignalHandler.quick_filter (handler_with COINBASE half_percent_book)
    "coinbase" 15 one_ms = true
  /\ SignalHandler.quick_filter (handler_with COINBASE half_percent_book)
       "coinbase" 15 six_seconds = false.
Proof.
  split; [|reflexivity].
  apply (proj2 (X26_quick_filter_predicts_the_first_checks
                  (handler_with COINBASE half_percent_book)
                  (inflow "coinbase" 15) one_ms 0%Z)).
  reflexivity.
Defined.



(** ** The handler: instrument adjustments *)

Lemma adjust_fees_not_lowered (inst_type : InstrumentType) (inst_data : InstrumentData.t)
    (decision : TradeDecision.t) (impact fees : Q) :
  fees <= snd (SignalHandler.adjust inst_type inst_data decision impact fees).
Proof.
  unfold SignalHandler.adjust, std_abs.
  pose proof (Qabs_nonneg (InstrumentData.interest_rate_long inst_data)).
  pose proof (Qabs_nonneg (InstrumentData.funding_rate inst_data)).
  pose proof (Qabs_nonneg (InstrumentData.theta inst_data)).
  assert (0 <= Qabs (InstrumentData.theta inst_data) / 24)
    by (apply Qle_shift_div_l; [reflexivity | lra]).
  destruct inst_type; cbn [snd]; try lra.
  destruct (negb _ && _); [cbn [snd]; lra|]. destruct (_ && _); cbn [snd]; lra.
Qed.

(** X28.  The instrument adjustments never lower the fees; [SPOT] changes
    nothing; every type but [OPTIONS] and [LEVERAGED_TOKEN] never lowers a
    non-negative impact, [MARGIN] and [PERPETUAL] keep it; [OPTIONS] never
    raises it while [|delta| <= 1]. *)
Theorem X28_adjustments_never_lower_fees (inst_type : InstrumentType)
    (inst_data : InstrumentData.t) (decision : TradeDecision.t) (impact fees : Q) :
  let adjusted := SignalHandler.adjust inst_type inst_data decision impact fees in
  fees <= snd adjusted
  /\ (inst_type = SPOT -> adjusted = (impact, fees))
  /\ (0 <= impact -> inst_type <> OPTIONS -> inst_type <> LEVERAGED_TOKEN ->
      impact <= fst adjusted)
  /\ (0 <= impact -> inst_type = OPTIONS ->
      Qabs (InstrumentData.delta inst_data) <= 1 -> fst adjusted <= impact)
  /\ (inst_type = MARGIN \/ inst_type = PERPETUAL -> fst adjusted = impact).
Proof.
  cbn zeta. split; [apply adjust_fees_not_lowered|].
  split; [intros ->; reflexivity|].
  split; [|split].
  - intros Hi Ho Hl. unfold SignalHandler.adjust, std_abs.
    destruct inst_type; cbn [fst]; try lra; try congruence.
    + pose proof (Qabs_nonneg (InstrumentData.basis inst_data
                               / TradeDecision.entry_price decision * 100)) as Hb.
      set (b := Qabs _) in *. clearbody b.
      destruct (negb _ && _); [cbn [fst]; lra|]. destruct (_ && _); cbn [fst]; lra.
    + destruct (Qlt_bool 1 impact); cbn [fst]; lra.
  - intros Hi -> Hd. unfold SignalHandler.adjust, std_abs. cbn [fst].
    pose proof (Qabs_nonneg (InstrumentData.delta inst_data)).
    destruct (Qlt_bool 0.01 _); [nra | lra].
  - intros [-> | ->]; reflexivity.
Qed.

Lemma X28_adjustments_never_lower_fees_witness :
  let data := InstrumentData.set_funding_rate 0.0003 InstrumentData.default in
  SignalHandler.adjust PERPETUAL data TradeDecision.default 0.5 0.1 = (0.5, 0.1 + Qabs 0.0003 * 100)
  /\ 0.5 <= fst (SignalHandler.adjust PERPETUAL data TradeDecision.default 0.5 0.1).
Proof.
  cbn zeta. split; [reflexivity|].
  assert (Hi : 0 <= 0.5) by discriminate.
  destruct (X28_adjustments_never_lower_fees PERPETUAL
              (InstrumentData.set_funding_rate 0.0003 InstrumentData.default)
              TradeDecision.default 0.5 0.1) as (_ & _ & H & _).
  apply H; [exact Hi | discriminate | discriminate].
Defined.

(** X29.  With a multiple that is not negative, a signal that
    [process_instrument_signal] accepts as [MARGIN] or [PERPETUAL] is
    accepted as [SPOT] on the same data. *)
Theorem X29_spot_accepts_what_margin_and_perpetual_accept (h : SignalHandler.t)
    (signal : BlockchainSignal.t) (inst_type : InstrumentType)
    (inst_data : InstrumentData.t) (now elapsed_ns : Z) :
  0 <= TradingConfig.min_impact_multiple (SignalHandler.config_ h) ->
  inst_type = MARGIN \/ inst_type = PERPETUAL ->
  TradeDecision.should_trade
    (SignalHandler.process_instrument_signal h signal inst_type inst_data now elapsed_ns)
  = true ->
  TradeDecision.should_trade
    (SignalHandler.process_instrument_signal h signal SPOT inst_data now elapsed_ns)
  = true.
Proof.
  intros Hm Ht.
  pose proof (walked_fields signal
                (exchange_from_name (BlockchainSignal.exchange signal))
                (InstrumentData.book inst_data)) as (_ & _ & Wt & _).
  pose proof (adjust_fees_not_lowered inst_type inst_data
                (SignalHandler.walked signal
                   (exchange_from_name (BlockchainSignal.exchange signal))
                   (InstrumentData.book inst_data))
                (Qabs (PriceImpact.price_drop_pct
                         (TradeDecision.impact
                            (SignalHandler.walked signal
                               (exchange_from_name (BlockchainSignal.exchange signal))
                               (InstrumentData.book inst_data)))))
                (SignalHandler.venue_fees_pct (SignalHandler.config_ h)
                   (exchange_from_name (BlockchainSignal.exchange signal)))) as Hf.
  assert (Hi : fst (SignalHandler.adjust inst_type inst_data
                (SignalHandler.walked signal
                   (exchange_from_name (BlockchainSignal.exchange signal))
                   (InstrumentData.book inst_data))
                (Qabs (PriceImpact.price_drop_pct
                         (TradeDecision.impact
                            (SignalHandler.walked signal
                               (exchange_from_name (BlockchainSignal.exchange signal))
                               (InstrumentData.book inst_data)))))
                (SignalHandler.venue_fees_pct (SignalHandler.config_ h)
                   (exchange_from_name (BlockchainSignal.exchange signal))))
             = Qabs (PriceImpact.price_drop_pct
                         (TradeDecision.impact
                            (SignalHandler.walked signal
                               (exchange_from_name (BlockchainSignal.exchange signal))
                               (InstrumentData.book inst_data)))))
    by (destruct Ht as [-> | ->]; reflexivity).
  destruct (process_instrument_signal_paths h signal inst_type inst_data now elapsed_ns)
    as [(_ & ->)|[(_ & _ & ->)|[(_ & _ & _ & ->)|[(_ & _ & _ & _ & ->)
       |[(_ & _ & _ & _ & _ & ->)|[(_ & _ & _ & _ & _ & _ & ->)
       |(Hex & Ha & Hv & Hs & Hr & Hq & _)]]]]]];
    cbn -[SignalHandler.walked exchange_from_name SignalHandler.adjust
          SignalHandler.process_instrument_signal];
    rewrite ?Wt; try (intros H; discriminate H).
  intros _.
  destruct (process_instrument_signal_paths h signal SPOT inst_data now elapsed_ns)
    as [(Hex' & _)|[(_ & Ha' & _)|[(_ & _ & Hv' & _)|[(_ & _ & _ & Hs' & _)
       |[(_ & _ & _ & _ & Hr' & _)|[(_ & _ & _ & _ & _ & Hq' & _)
       |(_ & _ & _ & _ & _ & _ & r & _ & ->)]]]]]].
  - contradiction.
  - lra.
  - congruence.
  - lia.
  - lra.
  - cbn [SignalHandler.adjust fst snd] in Hq'. rewrite Hi in Hq.
    set (M := TradingConfig.min_impact_multiple (SignalHandler.config_ h)) in *.
    nra.
  - reflexivity.
Qed.

Lemma X29_spot_accepts_what_margin_and_perpetual_accept_witness :
  TradeDecision.should_trade
    (SignalHandler.process_instrument_signal
       (handler_with BINANCE half_percent_book) (inflow "binance" 15)
       SPOT (instrument_with half_percent_book) one_ms 0%Z) = true.
Proof.
  assert (Hm : 0 <= TradingConfig.min_impact_multiple
                      (SignalHandler.config_ (handler_with BINANCE half_percent_book)))
    by discriminate.
  apply (X29_spot_accepts_what_margin_and_perpetual_accept
           (handler_with BINANCE half_percent_book) (inflow "binance" 15)
           PERPETUAL (instrument_with half_percent_book) one_ms 0%Z Hm).
  - right. reflexivity.
  - reflexivity.
Defined.

(* ====================================================================== *)
(** * The Deribit handler *)
(* ====================================================================== *)

(** ** The Deribit parser *)

Lemma index_ge (p : string) (s : string) :
  forall n m : nat, String.index n p s = Some m -> (n <= m)%nat.
Proof.
  induction s as [|c s IH]; intros n m H; cbn in H.
  - destruct n; [|discriminate H]. lia.
  - destruct n as [|n].
    + lia.
    + destruct (String.index n p s) as [k|] eqn:E; [|discriminate H].
      injection H as <-. apply IH in E. lia.
Qed.

Lemma parse_loop_appends (strtod : string -> Q) (fuel : nat) :
  forall (arr : string) (pos : nat) (levels : list PriceLevel.t),
    exists new,
      DeribitHandler.parse_numeric_array_loop strtod fuel arr pos levels = levels ++ new
      /\ positive_levels new
      /\ (length (levels ++ new) <= Nat.max (length levels) MAX_BOOK_LEVELS)%nat.
Proof.
  induction fuel as [|fuel IH]; intros arr pos levels; cbn [DeribitHandler.parse_numeric_array_loop].
  - exists []. rewrite app_nil_r. split; [reflexivity|]. split; [constructor | lia].
  - assert (Hstop : exists new,
              levels = levels ++ new /\ positive_levels new
              /\ (length (levels ++ new) <= Nat.max (length levels) MAX_BOOK_LEVELS)%nat).
    { exists []. rewrite app_nil_r. split; [reflexivity|]. split; [constructor | lia]. }
    destruct ((pos <? String.length arr)%nat) eqn:Ep; cbn [andb]; [|exact Hstop].
    destruct ((length levels <? MAX_BOOK_LEVELS)%nat) eqn:El; [|exact Hstop].
    apply Nat.ltb_lt in El.
    destruct (DeribitHandler.find_char arr "[" pos) as [inner_start|]; [|exact Hstop].
    destruct (DeribitHandler.find_char arr "]" inner_start) as [inner_end|]; [|exact Hstop].
    cbn zeta.
    set (inner := String.substring _ _ arr).
    destruct (DeribitHandler.find_char inner "," 0) as [comma|]; [|apply IH].
    destruct (Qlt_bool 0 (strtod (String.substring 0 comma inner))) eqn:E1;
      cbn [andb]; [|apply IH].
    destruct (Qlt_bool 0 (strtod (DeribitHandler.substr_from inner (comma + 1)))) eqn:E2;
      [|apply IH].
    apply Qlt_bool_iff in E1, E2.
    destruct (IH arr (inner_end + 1)%nat
                (levels ++ [PriceLevel.mk (strtod (String.substring 0 comma inner))
                              (strtod (DeribitHandler.substr_from inner (comma + 1)))]))
      as (new & Hn & Hp & Hl).
    exists (PriceLevel.mk (strtod (String.substring 0 comma inner))
              (strtod (DeribitHandler.substr_from inner (comma + 1))) :: new).
    split; [rewrite Hn, <- app_assoc; reflexivity|].
    split; [constructor; [split; assumption | exact Hp]|].
    rewrite <- app_assoc in Hl. cbn [app] in Hl.
    rewrite length_app in Hl |- *. rewrite !length_app in Hl. cbn [length] in Hl |- *.
    lia.
Qed.

Lemma parse_loop_fuel (strtod : string -> Q) (fuel1 : nat) :
  forall (fuel2 : nat) (arr : string) (pos : nat) (levels : list PriceLevel.t),
    (String.length arr - pos <= fuel1)%nat ->
    (String.length arr - pos <= fuel2)%nat ->
    DeribitHandler.parse_numeric_array_loop strtod fuel1 arr pos levels
    = DeribitHandler.parse_numeric_array_loop strtod fuel2 arr pos levels.
Proof.
  induction fuel1 as [|fuel1 IH]; intros fuel2 arr pos levels H1 H2.
  - destruct fuel2 as [|fuel2]; [reflexivity|].
    cbn [DeribitHandler.parse_numeric_array_loop].
    rewrite (proj2 (Nat.ltb_ge pos (String.length arr))) by lia. reflexivity.
  - destruct fuel2 as [|fuel2].
    + cbn [DeribitHandler.parse_numeric_array_loop].
      rewrite (proj2 (Nat.ltb_ge pos (String.length arr))) by lia. reflexivity.
    + cbn [DeribitHandler.parse_numeric_array_loop].
      destruct ((pos <? String.length arr)%nat) eqn:Ep; cbn [andb]; [|reflexivity].
      apply Nat.ltb_lt in Ep.
      destruct ((length levels <? MAX_BOOK_LEVELS)%nat); [|reflexivity].
      destruct (DeribitHandler.find_char arr "[" pos) as [inner_start|] eqn:Es;
        [|reflexivity].
      destruct (DeribitHandler.find_char arr "]" inner_start) as [inner_end|] eqn:Ee;
        [|reflexivity].
      apply index_ge in Es, Ee.
      cbn zeta. apply IH; lia.
Qed.

Lemma bracket_scan_found (rest : string) :
  forall (i : nat) (depth : Z) (j : nat),
    DeribitHandler.bracket_scan rest i depth = Some j ->
    (i <= j < i + String.length rest)%nat
    /\ String.get (j - i) rest = Some "]"%char.
Proof.
  induction rest as [|c rest IH]; intros i depth j H; cbn in H; [discriminate H|].
  cbn [String.length].
  destruct (Ascii.eqb c "[") eqn:Eo.
  - apply IH in H as [Hr Hg]. split; [lia|].
    replace (j - i)%nat with (S (j - S i)) by lia. exact Hg.
  - destruct (Ascii.eqb c "]") eqn:Ec.
    + destruct ((depth - 1 =? 0)%Z).
      * injection H as <-. split; [lia|]. rewrite Nat.sub_diag. cbn.
        apply Ascii.eqb_eq in Ec. congruence.
      * apply IH in H as [Hr Hg]. split; [lia|].
        replace (j - i)%nat with (S (j - S i)) by lia. exact Hg.
    + apply IH in H as [Hr Hg]. split; [lia|].
      replace (j - i)%nat with (S (j - S i)) by lia. exact Hg.
Qed.

Lemma find_matching_bracket_found (s : string) (start j : nat) :
  DeribitHandler.find_matching_bracket s (Some start) = Some j ->
  String.get start s = Some "["%char
  /\ (start < j)%nat
  /\ String.get j s = Some "]"%char.
Proof.
  unfold DeribitHandler.find_matching_bracket.
  destruct (String.get start s) as [c|] eqn:Eg; [|intros H; discriminate H].
  destruct (Ascii.eqb c "[") eqn:Ec; [|intros H; discriminate H].
  apply Ascii.eqb_eq in Ec. subst c. intros H.
  apply bracket_scan_found in H as [Hr Hg].
  split; [reflexivity|]. split; [lia|].
  unfold DeribitHandler.substr_from in Hg.
  destruct (Nat.lt_ge_cases (j - S start) (String.length s - S start)) as [Hlt|Hge].
  - rewrite String.substring_correct1 in Hg by exact Hlt.
    replace (j - S start + S start)%nat with j in Hg by lia. exact Hg.
  - rewrite String.substring_correct2 in Hg by exact Hge. discriminate Hg.
Qed.

Lemma parse_loop_step (strtod : string -> Q) (fuel : nat) (arr : string) (pos : nat)
    (levels : list PriceLevel.t) :
  DeribitHandler.parse_numeric_array_loop strtod (S fuel) arr pos levels
  = if (pos <? String.length arr)%nat && (length levels <? MAX_BOOK_LEVELS)%nat then
      match DeribitHandler.find_char arr "[" pos with
      | None => levels
      | Some inner_start =>
          match DeribitHandler.find_char arr "]" inner_start with
          | None => levels
          | Some inner_end =>
              let inner :=
                String.substring (inner_start + 1) (inner_end - inner_start - 1) arr in
              let levels :=
                match DeribitHandler.find_char inner "," 0 with
                | Some comma =>
                    let price := strtod (String.substring 0 comma inner) in
                    let amount := strtod (DeribitHandler.substr_from inner (comma + 1)) in
                    if Qlt_bool 0 price && Qlt_bool 0 amount
                    then levels ++ [PriceLevel.mk price amount]
                    else levels
                | None => levels
                end in
              DeribitHandler.parse_numeric_array_loop strtod fuel arr (inner_end + 1) levels
          end
      end
    else levels.
Proof. reflexivity. Qed.

(** X30.  [DeribitHandler::parse_numeric_array] appends to [levels] only levels
    with positive price and amount and never grows the list past
    [MAX_BOOK_LEVELS]; its loop ends within [arr.size()] iterations.  When
    [strtod] returns 0 on a text that starts with an opening bracket, as the
    C library does, the first entry of an array handed over with its outer
    bracket is skipped: parsing continues after the first closing bracket
    with nothing appended.  [find_matching_bracket] returns the index of a
    closing bracket behind an opening one at [start]. *)
Theorem X30_deribit_appended_levels (strtod : string -> Q) (arr : string)
    (levels : list PriceLevel.t) :
  (exists new,
      DeribitHandler.parse_numeric_array strtod arr levels = levels ++ new
      /\ positive_levels new
      /\ (length (levels ++ new) <= Nat.max (length levels) MAX_BOOK_LEVELS)%nat)
  /\ (forall fuel : nat,
        (String.length arr <= fuel)%nat ->
        DeribitHandler.parse_numeric_array_loop strtod fuel arr 0 levels
        = DeribitHandler.parse_numeric_array strtod arr levels)
  /\ ((forall text : string, strtod (String "[" text) == 0) ->
      forall (rest : string) (inner_end : nat),
        arr = String "[" (String "[" rest) ->
        DeribitHandler.find_char arr "]" 0 = Some inner_end ->
        DeribitHandler.parse_numeric_array strtod arr levels
        = DeribitHandler.parse_numeric_array_loop strtod (String.length arr) arr
            (inner_end + 1) levels)
  /\ (forall start j : nat,
        DeribitHandler.find_matching_bracket arr (Some start) = Some j ->
        String.get start arr = Some "["%char
        /\ (start < j)%nat
        /\ String.get j arr = Some "]"%char).
Proof.
  split; [apply parse_loop_appends|].
  split; [intros fuel Hf; apply parse_loop_fuel; lia|].
  split; [|intros start j; apply find_matching_bracket_found].
  intros Hzero rest e -> He.
  unfold DeribitHandler.parse_numeric_array.
  set (arr := String "[" (String "[" rest)) in *.
  assert (Hlen : String.length arr = S (S (String.length rest))) by reflexivity.
  rewrite Hlen at 1. rewrite parse_loop_step.
  rewrite (proj2 (Nat.ltb_lt 0 (String.length arr))) by lia. cbn [andb].
  destruct ((length levels <? MAX_BOOK_LEVELS)%nat) eqn:El.
  2:{ rewrite Hlen. rewrite parse_loop_step.
      rewrite El, andb_false_r. reflexivity. }
  assert (Hs : DeribitHandler.find_char arr "[" 0 = Some 0%nat) by reflexivity.
  rewrite Hs, He. cbn zeta.
  (* the first closing bracket lies beyond the two opening ones *)
  assert (He2 : exists k, e = S (S k)).
  { unfold DeribitHandler.find_char, arr in He. cbn in He.
    destruct (String.index 0 "]" rest) as [k|]; [|discriminate He].
    injection He as <-. exists k. reflexivity. }
  destruct He2 as [k ->].
  assert (Hinner : String.substring (0 + 1) (S (S k) - 0 - 1) arr
                   = String "[" (String.substring 0 k rest)) by reflexivity.
  rewrite Hinner.
  assert (Hskip :
    match DeribitHandler.find_char (String "[" (String.substring 0 k rest)) "," 0 with
    | Some comma =>
        if Qlt_bool 0 (strtod (String.substring 0 comma
                                 (String "[" (String.substring 0 k rest))))
           && Qlt_bool 0 (strtod (DeribitHandler.substr_from
                                     (String "[" (String.substring 0 k rest)) (comma + 1)))
        then levels ++ [PriceLevel.mk
                          (strtod (String.substring 0 comma
                                     (String "[" (String.substring 0 k rest))))
                          (strtod (DeribitHandler.substr_from
                                     (String "[" (String.substring 0 k rest)) (comma + 1)))]
        else levels
    | None => levels
    end = levels).
  { unfold DeribitHandler.find_char. cbn [String.index String.prefix].
    destruct (ascii_dec "," "[") as [Hc|_]; [discriminate Hc|].
    destruct (String.index 0 "," (String.substring 0 k rest)) as [c|]; [|reflexivity].
    cbn [String.substring].
    assert (Hp : Qlt_bool 0 (strtod (String "[" (String.substring 0 c
                                                   (String.substring 0 k rest)))) = false).
    { apply Qlt_bool_false_iff. rewrite Hzero. apply Qle_refl. }
    rewrite Hp. reflexivity. }
  rewrite Hskip.
  apply parse_loop_fuel; lia.
Qed.

Lemma X30_deribit_appended_levels_witness :
  DeribitHandler.parse_numeric_array decimal_prefix "[[1,2],[3,4]]" []
  = DeribitHandler.parse_numeric_array_loop decimal_prefix 13 "[[1,2],[3,4]]" 6 []
  /\ DeribitHandler.parse_numeric_array decimal_prefix "[[1,2],[3,4]]" []
     = [PriceLevel.mk (inject_Z 3) (inject_Z 4)]
  /\ DeribitHandler.parse_rest_response decimal_prefix deribit_answer OrderBook.default
     = (true,
        OrderBook.mk
          [PriceLevel.mk (inject_Z 86950) (inject_Z 2);
           PriceLevel.mk (inject_Z 86900) (inject_Z 3)]
          [PriceLevel.mk (inject_Z 87050) (inject_Z 2)] 0%Z 0%N).
Proof.
  split; [|split; reflexivity].
  assert (Hz : forall text : string, decimal_prefix (String "[" text) == 0)
    by (intros text; reflexivity).
  destruct (X30_deribit_appended_levels decimal_prefix "[[1,2],[3,4]]" []) as (_ & _ & Hdrop & _).
  apply (Hdrop Hz "1,2],[3,4]]"%string 5%nat); reflexivity.
Defined.
